(** * Langfuse logging integration of litellm: a shallow embedding

    Source: [litellm/integrations/langfuse/langfuse.py], class
    [LangFuseLogger] and the module-level helpers next to it.

    Python values are carried by the inductive [value]; a Python [dict] is an
    insertion-ordered association list with string keys; code that may raise
    lives in [result] (pure) or in the state-and-exception monad [M], whose
    state holds the Langfuse SDK and the record of the calls made to it. *)

From Stdlib Require Import String Ascii List ZArith Bool Lia DecimalString.
Import ListNotations.
Local Open Scope string_scope.
Local Open Scope list_scope.

(** ** Python strings *)

Module PyStr.

(** [s.startswith(p)] *)
Definition startswith (p s : string) : bool := String.prefix p s.

Fixpoint drop (n : nat) (s : string) : string :=
  match n, s with
  | O, _ => s
  | S _, EmptyString => EmptyString
  | S n', String _ s' => drop n' s'
  end.

Definition may_replace (count : option nat) : bool :=
  match count with
  | None => true
  | Some O => false
  | Some (S _) => true
  end.

Definition spend (count : option nat) : option nat :=
  match count with
  | None => None
  | Some n => Some (Nat.pred n)
  end.

(** Left-to-right scan of [str.replace]: [skip] counts the characters of
    a matched occurrence that are still to be dropped. *)
Fixpoint replace_from (old new : string) (count : option nat) (skip : nat)
         (s : string) : string :=
  match s with
  | EmptyString => EmptyString
  | String c s' =>
      match skip with
      | S n => replace_from old new count n s'
      | O =>
          if may_replace count && String.prefix old (String c s')
          then new ++ replace_from old new (spend count)
                                   (Nat.pred (String.length old)) s'
          else String c (replace_from old new count 0 s')
      end
  end.

(** [s.replace(old, new)] ([count = None]) and [s.replace(old, new, n)]
    ([count = Some n]), for a non-empty [old]: the two call sites pass the
    literals ["langfuse_"] and ["trace_"]. *)
Definition replace (old new : string) (count : option nat) (s : string)
  : string :=
  replace_from old new count 0 s.

(** Removal of a leading [p], the reading of "prefix stripped". *)
Definition strip_prefix (p s : string) : string :=
  if startswith p s then drop (String.length p) s else s.

End PyStr.

(** ** Python values *)

Local Set Warnings "-register-all".

Inductive value : Type :=
| VNone
| VBool (b : bool)
| VInt (z : Z)
| VFloat (m e : Z)          (* a finite float m * 2^e *)
| VStr (s : string)
| VList (l : list value)
| VDict (d : list (string * value))
| VObj (tag : string).      (* any other object: datetime, SDK client, ... *)

Definition dict := list (string * value).

(** Truth value of an object, as tested by [if x], [x or y], [not x]. *)
Definition truthy (v : value) : bool :=
  match v with
  | VNone => false
  | VBool b => b
  | VInt z => negb (Z.eqb z 0)
  | VFloat m _ => negb (Z.eqb m 0)
  | VStr s => negb (String.eqb s "")
  | VList l => match l with [] => false | _ => true end
  | VDict d => match d with [] => false | _ => true end
  | VObj _ => true
  end.

Definition is_none (v : value) : bool :=
  match v with VNone => true | _ => false end.

(** [v == "lit"] for a string literal. *)
Definition eq_str (v : value) (lit : string) : bool :=
  match v with VStr s => String.eqb s lit | _ => false end.

(** ** Dictionaries *)

Module Dict.

Fixpoint get (k : string) (d : dict) : option value :=
  match d with
  | [] => None
  | (k', v) :: d' => if String.eqb k k' then Some v else get k d'
  end.

(** [d.get(k, default)] *)
Definition get_default (k : string) (default : value) (d : dict) : value :=
  match get k d with Some v => v | None => default end.

Definition mem (k : string) (d : dict) : bool :=
  match get k d with Some _ => true | None => false end.

(** [d[k] = v]: an existing key keeps its place, a new one goes last. *)
Fixpoint set (k : string) (v : value) (d : dict) : dict :=
  match d with
  | [] => [(k, v)]
  | (k', v') :: d' =>
      if String.eqb k k' then (k', v) :: d' else (k', v') :: set k v d'
  end.

Definition remove (k : string) (d : dict) : dict :=
  filter (fun kv => negb (String.eqb k (fst kv))) d.

(** [d.pop(k, default)]: the value and the dictionary left. *)
Definition pop (k : string) (default : value) (d : dict) : value * dict :=
  (get_default k default d, remove k d).

Definition keys (d : dict) : list string := map fst d.

End Dict.

(** ** Exceptions

    Every class below derives from [Exception], which is what the two
    handlers of the module catch. *)

Inductive exn : Type :=
| Exception (msg : string)
| KeyError (key : string)
| TypeError
| AttributeError
| InvalidVersion (v : string)
| SdkError (what : string).

Inductive result (A : Type) : Type :=
| Ok (a : A)
| Raise (e : exn).
Arguments Ok {A} a.
Arguments Raise {A} e.

Definition is_ok {A} (r : result A) : bool :=
  match r with Ok _ => true | Raise _ => false end.

Definition rbind {A B} (r : result A) (k : A -> result B) : result B :=
  match r with Ok a => k a | Raise e => Raise e end.

Notation "'let?' x ':=' e 'in' k" := (rbind e (fun x => k))
  (at level 10, x pattern, e at level 100, k at level 200).

(** [for x in xs: acc = f(acc, x)], stopping at the first exception. *)
Fixpoint rfold {A X} (f : A -> X -> result A) (xs : list X) (acc : A)
  : result A :=
  match xs with
  | [] => Ok acc
  | x :: xs' => let? acc' := f acc x in rfold f xs' acc'
  end.

(** ** Dynamic operations on values *)

Module Py.

(** [v.get(k, default)]: only a mapping has the method. *)
Definition get (v : value) (k : string) (default : value) : result value :=
  match v with
  | VDict d => Ok (Dict.get_default k default d)
  | _ => Raise AttributeError
  end.

(** [v[k]] for a string key. *)
Definition item (v : value) (k : string) : result value :=
  match v with
  | VDict d =>
      match Dict.get k d with Some x => Ok x | None => Raise (KeyError k) end
  | _ => Raise TypeError
  end.

Definition as_dict (v : value) : result dict :=
  match v with VDict d => Ok d | _ => Raise AttributeError end.

Fixpoint chars (s : string) : list value :=
  match s with
  | EmptyString => []
  | String c s' => VStr (String c EmptyString) :: chars s'
  end.

(** [for x in v] *)
Definition iter (v : value) : result (list value) :=
  match v with
  | VList l => Ok l
  | VDict d => Ok (map VStr (Dict.keys d))
  | VStr s => Ok (chars s)
  | _ => Raise TypeError
  end.

Fixpoint substring_of (needle s : string) : bool :=
  String.prefix needle s
  || match s with
     | EmptyString => false
     | String _ s' => substring_of needle s'
     end.

(** [k in v] for a string [k]. *)
Definition contains (k : string) (v : value) : result bool :=
  match v with
  | VList l => Ok (existsb (fun x => eq_str x k) l)
  | VDict d => Ok (Dict.mem k d)
  | VStr s => Ok (substring_of k s)
  | _ => Raise TypeError
  end.

(** [v.append(x)] *)
Definition append (v x : value) : result value :=
  match v with
  | VList l => Ok (VList (l ++ [x]))
  | _ => Raise AttributeError
  end.

(** [v[k] = x] for a string key. *)
Definition setitem (v : value) (k : string) (x : value) : result value :=
  match v with
  | VDict d => Ok (VDict (Dict.set k x d))
  | _ => Raise TypeError
  end.

Definition lower_ascii (c : ascii) : ascii :=
  let n := nat_of_ascii c in
  if (65 <=? n)%nat && (n <=? 90)%nat then ascii_of_nat (n + 32) else c.

(** [s.lower()] on ASCII text. *)
Fixpoint lower (s : string) : string :=
  match s with
  | EmptyString => EmptyString
  | String c s' => String (lower_ascii c) (lower s')
  end.

End Py.

(** ** [packaging.version.Version], final releases ["N(.N)*"]

    Epochs, pre-, post-, dev- and local segments are outside the model: a
    string that carries one does not parse. *)

Module Version.

Definition digit (c : ascii) : option N :=
  let n := N_of_ascii c in
  if (48 <=? n)%N && (n <=? 57)%N then Some (n - 48)%N else None.

Fixpoint parse_from (s : string) (cur : option N) (acc : list N)
  : option (list N) :=
  match s with
  | EmptyString =>
      match cur with Some n => Some (rev (n :: acc)) | None => None end
  | String c s' =>
      if Ascii.eqb c "."%char
      then match cur with
           | Some n => parse_from s' None (n :: acc)
           | None => None
           end
      else match digit c with
           | Some d =>
               let n := match cur with Some n => n | None => 0%N end in
               parse_from s' (Some (10 * n + d)%N) acc
           | None => None
           end
  end.

Definition parse (s : string) : option (list N) := parse_from s None [].

(** The comparison key drops the trailing zeros of the release. *)
Fixpoint cmpkey (l : list N) : list N :=
  match l with
  | [] => []
  | x :: l' =>
      match cmpkey l' with
      | [] => if (x =? 0)%N then [] else [x]
      | r => x :: r
      end
  end.

(** Tuple comparison. *)
Fixpoint compare (a b : list N) : comparison :=
  match a, b with
  | [], [] => Eq
  | [], _ :: _ => Lt
  | _ :: _, [] => Gt
  | x :: a', y :: b' =>
      match (x ?= y)%N with
      | Eq => compare a' b'
      | c => c
      end
  end.

Definition ge_release (va vb : list N) : bool :=
  match compare (cmpkey va) (cmpkey vb) with
  | Lt => false
  | _ => true
  end.

(** [Version(a) >= Version(b)] *)
Definition ge (a b : string) : result bool :=
  match parse a, parse b with
  | Some va, Some vb => Ok (ge_release va vb)
  | None, _ => Raise (InvalidVersion a)
  | _, None => Raise (InvalidVersion b)
  end.

End Version.

(** ** Response objects

    The classes come from [litellm.types] and the OpenAI SDK; the union
    is the annotation of [response_obj], with the list a realtime call
    hands over. An object carries the attributes the logger reads. *)

Record Usage : Type := {
  prompt_tokens : option value;       (* [None]: no such attribute *)
  input_tokens : option value;
  completion_tokens : option value;
  output_tokens : option value
}.

Record Attrs : Type := {
  id : value;                         (* [VNone]: no attribute, or None *)
  usage : option Usage;               (* [None]: no attribute, or None *)
  system_fingerprint : value
}.

Record Message : Type := {
  json : value                        (* what [message.json()] returns *)
}.

Inductive Response : Type :=
| NoResponse
| DictResponse (d : dict)
| ListResponse (l : list value)
| EmbeddingResponse (a : Attrs)
| ModelResponse (a : Attrs) (choices : list Message)
| TextCompletionResponse (a : Attrs) (choices : list value)  (* the texts *)
| ImageResponse (a : Attrs) (data : option value)
| TranscriptionResponse (a : Attrs) (text : option value)
| RerankResponse (a : Attrs) (results : value)
| HttpxBinaryResponseContent.

Definition no_attrs : Attrs :=
  {| id := VNone; usage := None; system_fingerprint := VNone |}.

Definition attrs_of (r : Response) : Attrs :=
  match r with
  | EmbeddingResponse a | ModelResponse a _ | TextCompletionResponse a _
  | ImageResponse a _ | TranscriptionResponse a _ | RerankResponse a _ => a
  | NoResponse | DictResponse _ | ListResponse _
  | HttpxBinaryResponseContent => no_attrs
  end.

Definition is_not_None (r : Response) : bool :=
  match r with NoResponse => false | _ => true end.

(** ** What the module takes from the rest of litellm and from the SDK *)

Record Env : Type := {
  (** [langfuse.version.__version__] *)
  langfuse_version : string;
  (** [litellm.constants.MAX_LANGFUSE_INITIALIZED_CLIENTS] *)
  MAX_LANGFUSE_INITIALIZED_CLIENTS : Z;
  (** [litellm.langfuse_default_tags] *)
  langfuse_default_tags : value;
  (** [os.environ.get("PROXY_BASE_URL")] *)
  PROXY_BASE_URL : value;
  (** [litellm.cache._get_preset_cache_key_from_kwargs], when
      [litellm.cache] is set *)
  preset_cache_key : option (dict -> result value);
  (** [redact_user_api_key_info] *)
  redact_user_api_key_info : dict -> dict;
  (** [litellm.utils.get_logging_id(start_time, response_obj)] *)
  get_logging_id : value -> Response -> value;
  (** the builtin [str], as used by f-strings *)
  str : value -> result string;
  (** [ChatPromptClient] over a [Prompt_Chat] built from the keywords [d],
      and the text variant *)
  chat_prompt_client : dict -> result value;
  text_prompt_client : dict -> result value;
  (** whether the SDK's prompt models have both [labels] and [tags] *)
  prompt_text_has_labels_tags : bool;
  prompt_chat_has_labels_tags : bool
}.

(** The Langfuse SDK over its own state [B]: a call may fail, and may
    fail differently the next time. *)
Record StatefulClient : Type := { trace_id : value }.

Record Sdk (B : Type) : Type := {
  sdk_Langfuse : dict -> B -> result value * B;
  sdk_trace : dict -> B -> result value * B;
  sdk_span : value -> dict -> B -> result value * B;
  sdk_span_end : value -> B -> result unit * B;
  sdk_generation : value -> dict -> B -> result StatefulClient * B;
  sdk_get_prompt : value -> B -> result value * B
}.
Arguments sdk_Langfuse {B}.
Arguments sdk_trace {B}.
Arguments sdk_span {B}.
Arguments sdk_span_end {B}.
Arguments sdk_generation {B}.
Arguments sdk_get_prompt {B}.

(** The calls made to the SDK, in order, each with its outcome. *)
Inductive Call : Type :=
| Call_Langfuse (parameters : dict) (ok : bool)
| Call_trace (trace_params : dict) (ok : bool)
| Call_span (span_params : dict) (ok : bool)
| Call_span_end (ok : bool)
| Call_generation (generation_params : dict) (ok : bool)
| Call_get_prompt (prompt_id : value) (ok : bool).

Definition call_ok (c : Call) : bool :=
  match c with
  | Call_Langfuse _ ok | Call_trace _ ok | Call_span _ ok | Call_span_end ok
  | Call_generation _ ok | Call_get_prompt _ ok => ok
  end.

(** A failed creation of a trace, a span or a generation. *)
Definition creation_failed (c : Call) : bool :=
  match c with
  | Call_trace _ ok | Call_span _ ok | Call_span_end ok
  | Call_generation _ ok => negb ok
  | Call_Langfuse _ _ | Call_get_prompt _ _ => false
  end.

(** ** The monad of the logger *)

Record World (B : Type) : Type := {
  backend : B;
  calls : list Call;
  (** [litellm.initialized_langfuse_clients] *)
  initialized_langfuse_clients : Z
}.
Arguments backend {B}.
Arguments calls {B}.
Arguments initialized_langfuse_clients {B}.

Definition M (B A : Type) : Type := World B -> result A * World B.

Definition ret {B A} (a : A) : M B A := fun w => (Ok a, w).

Definition raise {B A} (e : exn) : M B A := fun w => (Raise e, w).

Definition bind {B A C} (m : M B A) (k : A -> M B C) : M B C :=
  fun w =>
    match m w with
    | (Ok a, w') => k a w'
    | (Raise e, w') => (Raise e, w')
    end.

Definition lift {B A} (r : result A) : M B A := fun w => (r, w).

(** [try: m except Exception as e: h(e)] *)
Definition try_except {B A} (m : M B A) (h : exn -> M B A) : M B A :=
  fun w =>
    match m w with
    | (Ok a, w') => (Ok a, w')
    | (Raise e, w') => h e w'
    end.

Notation "x <- m ;; k" := (bind m (fun x => k))
  (at level 61, m at next level, right associativity).

Notation "' pat <- m ;; k" :=
  (bind m (fun x => match x with pat => k end))
  (at level 61, pat pattern, m at next level, right associativity).

Notation "m ;;; k" := (bind m (fun _ => k))
  (at level 61, right associativity).

(** [for x in xs: body(x)] *)
Fixpoint for_each {B X} (body : X -> M B unit) (xs : list X) : M B unit :=
  match xs with
  | [] => ret tt
  | x :: xs' => body x ;;; for_each body xs'
  end.

(** One SDK call, recorded with its outcome. *)
Definition sdk_call {B A} (op : B -> result A * B) (entry : bool -> Call)
  : M B A :=
  fun w =>
    let (r, b) := op (backend w) in
    (r, {| backend := b;
           calls := calls w ++ [entry (is_ok r)];
           initialized_langfuse_clients := initialized_langfuse_clients w |}).

(** ** The logger *)

(** The instance attributes the methods read. *)
Record LangFuseLogger : Type := {
  langfuse_sdk_version : string
}.

(** The locals of [_log_langfuse_v2] once the control fields are popped. *)
Module Locals.
Record t : Type := {
  metadata : value;
  standard_logging_object : value;
  tags : value;
  end_user_id : value;
  prompt_management_metadata : value;
  clean_metadata : dict;
  session_id : value;
  trace_name : value;
  trace_id : value;
  existing_trace_id : value;
  update_trace_keys : value;
  debug : value;
  mask_input : value;
  mask_output : value
}.
End Locals.

Definition redacted : value := VStr "redacted-by-litellm".

Section Logger.

Context {B : Type} (sdk : Sdk B) (env : Env) (self : LangFuseLogger).

(** *** Capabilities *)

Definition _is_langfuse_v2 : result bool :=
  Version.ge (langfuse_version env) "2.0.0".

Definition _supports_tags : result bool :=
  Version.ge (langfuse_sdk_version self) "2.6.3".

Definition _supports_prompt : result bool :=
  Version.ge (langfuse_sdk_version self) "2.7.3".

Definition _supports_costs : result bool :=
  Version.ge (langfuse_sdk_version self) "2.7.3".

Definition _supports_completion_start_time : result bool :=
  Version.ge (langfuse_sdk_version self) "2.7.3".

(** *** Client creation *)

Definition bump_initialized_langfuse_clients : M B unit :=
  fun w =>
    (Ok tt, {| backend := backend w;
               calls := calls w;
               initialized_langfuse_clients :=
                 initialized_langfuse_clients w + 1 |}).

Definition max_clients_reached : exn :=
  Exception "Max langfuse clients reached".

Definition safe_init_langfuse_client (parameters : dict) : M B value :=
  fun w =>
    if (MAX_LANGFUSE_INITIALIZED_CLIENTS env
        <=? initialized_langfuse_clients w)%Z
    then (Raise max_clients_reached, w)
    else (langfuse_client <-
            sdk_call (sdk_Langfuse sdk parameters)
                     (Call_Langfuse parameters) ;;
          bump_initialized_langfuse_clients ;;;
          ret langfuse_client) w.

(** Creation attempts one after the other, each with its outcome. *)
Fixpoint attempts (ps : list dict) (w : World B)
  : list (result value) * World B :=
  match ps with
  | [] => ([], w)
  | p :: ps' =>
      let (r, w') := safe_init_langfuse_client p w in
      let (rs, w'') := attempts ps' w' in
      (r :: rs, w'')
  end.

(** *** Header merge *)

Definition header_step (proxy_headers : value) (metadata key : value)
  : result value :=
  match key with
  | VStr metadata_param_key =>
      if PyStr.startswith "langfuse_" metadata_param_key
      then
        let trace_param_key :=
          PyStr.replace "langfuse_" "" (Some 1%nat) metadata_param_key in
        let? _ := Py.contains trace_param_key metadata in
        let? v := Py.get proxy_headers metadata_param_key VNone in
        Py.setitem metadata trace_param_key v
      else Ok metadata
  | _ => Raise AttributeError
  end.

Definition add_metadata_from_header (litellm_params metadata : value)
  : result value :=
  if is_none litellm_params then Ok metadata
  else
    let? proxy_server_request :=
      Py.get litellm_params "proxy_server_request" VNone in
    if is_none proxy_server_request then Ok metadata
    else
      let metadata := if is_none metadata then VDict [] else metadata in
      let? headers := Py.get proxy_server_request "headers" (VDict []) in
      let proxy_headers := if truthy headers then headers else VDict [] in
      let? keys := Py.iter proxy_headers in
      rfold (header_step proxy_headers) keys metadata.

(** *** Input and output of the event *)

Definition _get_chat_content_for_langfuse (choices : list Message) : value :=
  match choices with
  | m :: _ => json m
  | [] => VNone
  end.

Definition _get_text_completion_content_for_langfuse
           (choices : list value) : value :=
  match choices with
  | text :: _ => text
  | [] => VNone
  end.

Definition opt (o : option value) (default : value) : value :=
  match o with Some v => v | None => default end.

Definition is_str (v : value) : bool :=
  match v with VStr _ => true | _ => false end.

Definition is_EmbeddingResponse (r : Response) : bool :=
  match r with EmbeddingResponse _ => true | _ => false end.

Definition _get_langfuse_input_output_content
           (kwargs : dict) (response_obj : Response) (prompt : value)
           (level : string) (status_message : value) : value * value :=
  let call_type := Dict.get_default "call_type" VNone kwargs in
  if String.eqb level "ERROR"
     && negb (is_none status_message) && is_str status_message
  then (prompt, status_message)
  else if is_not_None response_obj
          && (eq_str call_type "embedding"
              || is_EmbeddingResponse response_obj)
  then (prompt, VNone)
  else
    match response_obj with
    | ModelResponse _ choices =>
        (prompt, _get_chat_content_for_langfuse choices)
    | HttpxBinaryResponseContent => (prompt, VStr "speech-output")
    | TextCompletionResponse _ choices =>
        (prompt, _get_text_completion_content_for_langfuse choices)
    | ImageResponse _ data => (prompt, opt data VNone)
    | TranscriptionResponse _ text => (prompt, opt text VNone)
    | RerankResponse _ results => (prompt, results)
    | ListResponse l =>
        if negb (is_none call_type) && eq_str call_type "_arealtime"
        then (Dict.get_default "input" VNone kwargs, VList l)
        else (VNone, VNone)
    | DictResponse d =>
        if negb (is_none call_type)
           && eq_str call_type "pass_through_endpoint"
        then (prompt, Dict.get_default "response" (VStr "") d)
        else (VNone, VNone)
    | NoResponse | EmbeddingResponse _ => (VNone, VNone)
    end.

(** *** Tags *)

Definition _get_langfuse_tags (standard_logging_object : value)
  : result value :=
  if is_none standard_logging_object then Ok (VList [])
  else
    let? request_tags :=
      Py.get standard_logging_object "request_tags" (VList []) in
    Ok (if truthy request_tags then request_tags else VList []).

(** [litellm.langfuse_default_tags is not None and isinstance(..., list)
    and key in litellm.langfuse_default_tags] *)
Definition in_default_tags (key : string) : bool :=
  match langfuse_default_tags env with
  | VList l => existsb (fun x => eq_str x key) l
  | _ => false
  end.

(** [tags.append(f"{label}:{v}")] *)
Definition append_tag (tags : value) (label : string) (v : value)
  : result value :=
  let? s := str env v in
  Py.append tags (VStr (label ++ ":" ++ s)).

Definition add_default_langfuse_tags (tags : value) (kwargs : dict)
           (metadata : value) : result value :=
  match langfuse_default_tags env with
  | VList _ =>
      let? tags :=
        if in_default_tags "cache_hit"
        then append_tag tags "cache_hit"
                        (Dict.get_default "cache_hit" (VBool false) kwargs)
        else Ok tags in
      if in_default_tags "cache_key"
      then
        let? hp := Py.get metadata "hidden_params" (VDict []) in
        let _hidden_params := if truthy hp then hp else VDict [] in
        let? _cache_key := Py.get _hidden_params "cache_key" VNone in
        let? _cache_key :=
          match is_none _cache_key, preset_cache_key env with
          | true, Some _get_preset_cache_key_from_kwargs =>
              _get_preset_cache_key_from_kwargs kwargs
          | _, _ => Ok _cache_key
          end in
        append_tag tags "cache_key" _cache_key
      else Ok tags
  | _ => Ok tags
  end.

(** *** [_log_langfuse_v2], up to the popping of the control fields *)

Definition dropped_key (key : string) : bool :=
  existsb (String.eqb key)
          ["headers"; "endpoint"; "caching_groups"; "previous_models"].

Definition clean_step (acc : value * dict) (kv : string * value)
  : result (value * dict) :=
  let '(tags, clean_metadata) := acc in
  let '(key, v) := kv in
  let? tags :=
    if in_default_tags key then append_tag tags key v else Ok tags in
  if dropped_key key then Ok (tags, clean_metadata)
  else Ok (tags, Dict.set key v clean_metadata).

Definition prepare (metadata : value) (kwargs : dict)
           (litellm_call_id : value) : result Locals.t :=
  let metadata := if truthy metadata then metadata else VDict [] in
  let standard_logging_object :=
    Dict.get_default "standard_logging_object" VNone kwargs in
  let? with_tags := _supports_tags in
  let? tags :=
    if with_tags then _get_langfuse_tags standard_logging_object
    else Ok (VList []) in
  let? ids :=
    if is_none standard_logging_object then Ok (VNone, VNone)
    else
      let? m := Py.item standard_logging_object "metadata" in
      let? end_user_id := Py.get m "user_api_key_end_user_id" VNone in
      let? m := Py.item standard_logging_object "metadata" in
      let? pmm := Py.get m "prompt_management_metadata" VNone in
      Ok (end_user_id, pmm) in
  let '(end_user_id, prompt_management_metadata) := ids in
  let clean_metadata : dict :=
    if is_none prompt_management_metadata then []
    else [("prompt_management_metadata", prompt_management_metadata)] in
  let? cleaned :=
    match metadata with
    | VDict items => rfold clean_step items (tags, clean_metadata)
    | _ => Ok (tags, clean_metadata)
    end in
  let '(tags, clean_metadata) := cleaned in
  let? tags := add_default_langfuse_tags tags kwargs metadata in
  let '(session_id, clean_metadata) :=
    Dict.pop "session_id" VNone clean_metadata in
  let '(trace_name, clean_metadata) :=
    Dict.pop "trace_name" VNone clean_metadata in
  let '(trace_id, clean_metadata) :=
    Dict.pop "trace_id" litellm_call_id clean_metadata in
  let '(existing_trace_id, clean_metadata) :=
    Dict.pop "existing_trace_id" VNone clean_metadata in
  let '(update_trace_keys, clean_metadata) :=
    Dict.pop "update_trace_keys" (VList []) clean_metadata in
  let '(debug, clean_metadata) :=
    Dict.pop "debug_langfuse" VNone clean_metadata in
  let '(mask_input, clean_metadata) :=
    Dict.pop "mask_input" (VBool false) clean_metadata in
  let '(mask_output, clean_metadata) :=
    Dict.pop "mask_output" (VBool false) clean_metadata in
  let clean_metadata := redact_user_api_key_info env clean_metadata in
  Ok {| Locals.metadata := metadata;
        Locals.standard_logging_object := standard_logging_object;
        Locals.tags := tags;
        Locals.end_user_id := end_user_id;
        Locals.prompt_management_metadata := prompt_management_metadata;
        Locals.clean_metadata := clean_metadata;
        Locals.session_id := session_id;
        Locals.trace_name := trace_name;
        Locals.trace_id := trace_id;
        Locals.existing_trace_id := existing_trace_id;
        Locals.update_trace_keys := update_trace_keys;
        Locals.debug := debug;
        Locals.mask_input := mask_input;
        Locals.mask_output := mask_output |}.

(** *** [_log_langfuse_v2]: the trace parameters *)

(** [f"litellm-{kwargs.get('call_type', 'completion')}"] *)
Definition default_name (kwargs : dict) : result value :=
  let? s := str env (Dict.get_default "call_type" (VStr "completion") kwargs)
  in Ok (VStr ("litellm-" ++ s)).

(** [key.replace("trace_", "")] *)
Definition strip_trace (key : string) : string :=
  PyStr.replace "trace_" "" None key.

(** [list(filter(lambda key: key.startswith("trace_"),
    clean_metadata.keys()))] *)
Definition trace_keys (clean_metadata : dict) : list string :=
  filter (PyStr.startswith "trace_") (Dict.keys clean_metadata).

(** [v if not mask else "redacted-by-litellm"] *)
Definition masked (mask v : value) : value :=
  if negb (truthy mask) then v else redacted.

Definition update_step (acc : dict * dict) (metadata_param_key : value)
  : result (dict * dict) :=
  let '(trace_params, clean_metadata) := acc in
  match metadata_param_key with
  | VStr key =>
      let trace_param_key := strip_trace key in
      if negb (Dict.mem trace_param_key trace_params)
      then
        let '(updated_trace_value, clean_metadata) :=
          Dict.pop key VNone clean_metadata in
        if negb (is_none updated_trace_value)
        then Ok (Dict.set trace_param_key updated_trace_value trace_params,
                 clean_metadata)
        else Ok (trace_params, clean_metadata)
      else Ok (trace_params, clean_metadata)
  | _ => Raise AttributeError
  end.

Definition pop_keys (keys : list string) (clean_metadata : dict) : dict :=
  fold_left (fun d key => snd (Dict.pop key VNone d)) keys clean_metadata.

(** The patch of an existing trace, with the metadata left. *)
Definition existing_trace_params (l : Locals.t) (input output : value)
  : result (dict * dict) :=
  let trace_params : dict := [("id", Locals.existing_trace_id l)] in
  let? keys := Py.iter (Locals.update_trace_keys l) in
  let? updated :=
    rfold update_step keys (trace_params, Locals.clean_metadata l) in
  let '(trace_params, clean_metadata) := updated in
  let clean_metadata := pop_keys (trace_keys clean_metadata) clean_metadata in
  let? has_input := Py.contains "input" (Locals.update_trace_keys l) in
  let trace_params :=
    if has_input
    then Dict.set "input" (masked (Locals.mask_input l) input) trace_params
    else trace_params in
  let? has_output := Py.contains "output" (Locals.update_trace_keys l) in
  let trace_params :=
    if has_output
    then Dict.set "output" (masked (Locals.mask_output l) output)
                  trace_params
    else trace_params in
  Ok (trace_params, clean_metadata).

Definition lift_step (acc : dict * dict) (key : string) : dict * dict :=
  let '(trace_params, clean_metadata) := acc in
  let '(v, clean_metadata) := Dict.pop key VNone clean_metadata in
  (Dict.set (strip_trace key) v trace_params, clean_metadata).

(** The parameters of a new trace, with the metadata left. *)
Definition new_trace_params (l : Locals.t) (trace_name input output : value)
           (level : string) : dict * dict :=
  let clean_metadata := Locals.clean_metadata l in
  let '(version, clean_metadata) :=
    Dict.pop "trace_version" (Dict.get_default "version" VNone clean_metadata)
             clean_metadata in
  let trace_params : dict :=
    [("id", Locals.trace_id l);
     ("name", trace_name);
     ("session_id", Locals.session_id l);
     ("input", masked (Locals.mask_input l) input);
     ("version", version);
     ("user_id", Locals.end_user_id l)] in
  let '(trace_params, clean_metadata) :=
    fold_left lift_step (trace_keys clean_metadata)
              (trace_params, clean_metadata) in
  let trace_params :=
    if String.eqb level "ERROR"
    then Dict.set "status_message" output trace_params
    else Dict.set "output" (masked (Locals.mask_output l) output)
                  trace_params in
  (trace_params, clean_metadata).

(** [debug is True or (isinstance(debug, str) and
    debug.lower() == "true")] *)
Definition debug_on (debug : value) : bool :=
  match debug with
  | VBool b => b
  | VStr s => String.eqb (Py.lower s) "true"
  | _ => false
  end.

Definition add_debug_metadata (l : Locals.t) (trace_params : dict)
  : result dict :=
  if debug_on (Locals.debug l)
  then
    match Dict.get "metadata" trace_params with
    | Some m =>
        let? m' :=
          Py.setitem m "metadata_passed_to_litellm" (Locals.metadata l) in
        Ok (Dict.set "metadata" m' trace_params)
    | None =>
        Ok (Dict.set "metadata"
              (VDict [("metadata_passed_to_litellm", Locals.metadata l)])
              trace_params)
    end
  else Ok trace_params.

Definition build_trace_params (l : Locals.t) (kwargs : dict)
           (input output : value) (level : string) : result (dict * dict) :=
  let? trace_name :=
    if is_none (Locals.trace_name l) && is_none (Locals.existing_trace_id l)
    then default_name kwargs
    else Ok (Locals.trace_name l) in
  let? built :=
    if negb (is_none (Locals.existing_trace_id l))
    then existing_trace_params l input output
    else Ok (new_trace_params l trace_name input output level) in
  let '(trace_params, clean_metadata) := built in
  let? trace_params := add_debug_metadata l trace_params in
  Ok (trace_params, clean_metadata).

(** *** [_log_langfuse_v2]: cost, provider fields, tags *)

Definition set_if_truthy (key : string) (v : value) (d : dict) : dict :=
  if truthy v then Dict.set key v d else d.

(** The proxy request is read and its headers are walked; nothing of it
    is kept. *)
Definition walk_proxy_server_request (litellm_params : value)
  : result unit :=
  let? proxy_server_request :=
    Py.get litellm_params "proxy_server_request" VNone in
  if truthy proxy_server_request
  then
    let? _ := Py.get proxy_server_request "method" VNone in
    let? _ := Py.get proxy_server_request "url" VNone in
    let? headers := Py.get proxy_server_request "headers" VNone in
    if truthy headers
    then let? _ := Py.as_dict headers in Ok tt
    else Ok tt
  else Ok tt.

(** Returns [kwargs] (its [cache_hit] may be reset), the trace
    parameters, the metadata and the cost. *)
Definition finish_trace_params (l : Locals.t) (kwargs : dict)
           (litellm_params : value) (trace_params clean_metadata : dict)
  : result (dict * dict * dict * value) :=
  let cost := Dict.get_default "response_cost" VNone kwargs in
  let clean_metadata := Dict.set "litellm_response_cost" cost clean_metadata in
  let? clean_metadata :=
    if negb (is_none (Locals.standard_logging_object l))
    then
      let? hp := Py.item (Locals.standard_logging_object l) "hidden_params"
      in Ok (Dict.set "hidden_params" hp clean_metadata)
    else Ok clean_metadata in
  let? tags :=
    if in_default_tags "proxy_base_url"
       && negb (is_none (PROXY_BASE_URL env))
    then append_tag (Locals.tags l) "proxy_base_url" (PROXY_BASE_URL env)
    else Ok (Locals.tags l) in
  let? api_base := Py.get litellm_params "api_base" VNone in
  let clean_metadata := set_if_truthy "api_base" api_base clean_metadata in
  let clean_metadata :=
    set_if_truthy "vertex_location"
      (Dict.get_default "vertex_location" VNone kwargs) clean_metadata in
  let clean_metadata :=
    set_if_truthy "aws_region_name"
      (Dict.get_default "aws_region_name" VNone kwargs) clean_metadata in
  let? with_tags := _supports_tags in
  let kwargs :=
    if with_tags
    then match Dict.get "cache_hit" kwargs with
         | Some VNone => Dict.set "cache_hit" (VBool false) kwargs
         | _ => kwargs
         end
    else kwargs in
  let clean_metadata :=
    if with_tags
    then match Dict.get "cache_hit" kwargs with
         | Some cache_hit => Dict.set "cache_hit" cache_hit clean_metadata
         | None => clean_metadata
         end
    else clean_metadata in
  let trace_params :=
    if with_tags && is_none (Locals.existing_trace_id l)
    then Dict.set "tags" tags trace_params
    else trace_params in
  let? _ := walk_proxy_server_request litellm_params in
  Ok (kwargs, trace_params, clean_metadata, cost).

(** *** Spans *)

Definition span (trace : value) (span_params : dict) : M B value :=
  sdk_call (sdk_span sdk trace span_params) (Call_span span_params).

Definition grounding : value := VStr "vertex_ai_grounding_metadata".

Definition log_provider_specific_information_as_span
           (trace : value) (clean_metadata : dict) : M B unit :=
  let _hidden_params := Dict.get_default "hidden_params" VNone clean_metadata
  in
  if is_none _hidden_params then ret tt
  else
    vertex_ai_grounding_metadata <-
      lift (Py.get _hidden_params "vertex_ai_grounding_metadata" VNone) ;;
    if is_none vertex_ai_grounding_metadata then ret tt
    else
      match vertex_ai_grounding_metadata with
      | VList elems =>
          for_each
            (fun elem =>
               match elem with
               | VDict items =>
                   for_each
                     (fun kv : string * value =>
                        span trace [("name", VStr (fst kv));
                                    ("input", snd kv)] ;;;
                        ret tt)
                     items
               | _ =>
                   span trace [("name", grounding); ("input", elem)] ;;;
                   ret tt
               end)
            elems
      | _ =>
          span trace [("name", grounding);
                      ("input", vertex_ai_grounding_metadata)] ;;;
          ret tt
      end.

Definition guardrail_span_params (guardrail_information : value)
  : result dict :=
  let? g := Py.as_dict guardrail_information in
  let field k := Dict.get_default k VNone g in
  Ok [("name", VStr "guardrail");
      ("input", field "guardrail_request");
      ("output", field "guardrail_response");
      ("metadata",
       VDict [("guardrail_name", field "guardrail_name");
              ("guardrail_mode", field "guardrail_mode");
              ("guardrail_masked_entity_count",
               field "masked_entity_count")]);
      ("start_time", field "start_time");
      ("end_time", field "end_time")].

Definition _log_guardrail_information_as_span
           (trace : value) (standard_logging_object : value) : M B unit :=
  if is_none standard_logging_object then ret tt
  else
    guardrail_information <-
      lift (Py.get standard_logging_object "guardrail_information" VNone) ;;
    if is_none guardrail_information then ret tt
    else
      span_params <- lift (guardrail_span_params guardrail_information) ;;
      s <- span trace span_params ;;
      sdk_call (sdk_span_end sdk s) Call_span_end.

(** *** The generation *)

Definition log_requester_metadata (clean_metadata : dict) : result dict :=
  let rm := Dict.get_default "requester_metadata" VNone clean_metadata in
  let requester_metadata := if truthy rm then rm else VDict [] in
  let? returned_metadata :=
    rfold (fun (acc : dict) (kv : string * value) =>
             let? inside := Py.contains (fst kv) requester_metadata in
             if negb inside then Ok (Dict.set (fst kv) (snd kv) acc)
             else Ok acc)
          clean_metadata [] in
  Ok (Dict.set "requester_metadata" requester_metadata returned_metadata).

(** [getattr(u, first, getattr(u, second, None))] *)
Definition getattr2 (first second : option value) : value :=
  match first with
  | Some v => v
  | None => opt second VNone
  end.

Definition usage_of (response_obj : Response) (cost : value)
  : result value :=
  match usage (attrs_of response_obj) with
  | Some _usage_obj =>
      let? with_costs := _supports_costs in
      Ok (VDict
            [("prompt_tokens",
              getattr2 (prompt_tokens _usage_obj) (input_tokens _usage_obj));
             ("completion_tokens",
              getattr2 (completion_tokens _usage_obj)
                       (output_tokens _usage_obj));
             ("total_cost", if with_costs then cost else VNone)])
  | None => Ok VNone
  end.

(** Returns the generation parameters, the metadata left and the
    [generation_id] derived from the response. *)
Definition build_generation_params
           (l : Locals.t) (kwargs clean_metadata optional_params : dict)
           (input output start_time end_time cost : value)
           (response_obj : Response) (level : string)
  : result (dict * dict * value) :=
  let generation_id :=
    if negb (is_none (id (attrs_of response_obj)))
    then get_logging_id env start_time response_obj
    else VNone in
  let? usage := usage_of response_obj cost in
  let '(generation_name, clean_metadata) :=
    Dict.pop "generation_name" VNone clean_metadata in
  let? generation_name :=
    if is_none generation_name
    then
      let _user_api_key_alias :=
        Dict.get_default "user_api_key_alias" VNone clean_metadata in
      let? by_call_type := default_name kwargs in
      if negb (is_none _user_api_key_alias)
      then let? s := str env _user_api_key_alias in
           Ok (VStr ("litellm:" ++ s))
      else Ok by_call_type
    else Ok generation_name in
  let system_fingerprint := system_fingerprint (attrs_of response_obj) in
  let optional_params :=
    if negb (is_none system_fingerprint)
    then Dict.set "system_fingerprint" system_fingerprint optional_params
    else optional_params in
  let '(gid, clean_metadata) :=
    Dict.pop "generation_id" generation_id clean_metadata in
  let? model := Py.item (VDict kwargs) "model" in
  let? requester := log_requester_metadata clean_metadata in
  let '(version, clean_metadata) :=
    Dict.pop "version" VNone clean_metadata in
  let generation_params : dict :=
    [("name", generation_name);
     ("id", gid);
     ("start_time", start_time);
     ("end_time", end_time);
     ("model", model);
     ("model_parameters", VDict optional_params);
     ("input", masked (Locals.mask_input l) input);
     ("output", masked (Locals.mask_output l) output);
     ("usage", usage);
     ("metadata", VDict requester);
     ("level", VStr level);
     ("version", version)] in
  let? parent_observation_id :=
    Py.get (Locals.metadata l) "parent_observation_id" VNone in
  let generation_params :=
    if negb (is_none parent_observation_id)
    then Dict.set "parent_observation_id" parent_observation_id
                  generation_params
    else generation_params in
  Ok (generation_params, clean_metadata, generation_id).

(** [x.get(key, []) or []] *)
Definition list_or_empty (key : string) (d : dict) : value :=
  let v := Dict.get_default key (VList []) d in
  if truthy v then v else VList [].

(** The keywords of [Prompt_Text] or [Prompt_Chat] for a prompt given
    with a version. *)
Definition prompt_data (user_prompt : dict) (labels_tags : bool)
  : result dict :=
  let? name := Py.item (VDict user_prompt) "name" in
  let? prompt := Py.item (VDict user_prompt) "prompt" in
  let? version := Py.item (VDict user_prompt) "version" in
  let _data : dict :=
    [("name", name); ("prompt", prompt); ("version", version);
     ("config", Dict.get_default "config" VNone user_prompt)] in
  if labels_tags
  then Ok (Dict.set "tags" (list_or_empty "tags" user_prompt)
             (Dict.set "labels" (list_or_empty "labels" user_prompt) _data))
  else Ok _data.

Definition get_prompt (prompt_id : value) : M B value :=
  sdk_call (sdk_get_prompt sdk prompt_id) (Call_get_prompt prompt_id).

Definition _add_prompt_to_generation_params
           (generation_params clean_metadata : dict)
           (prompt_management_metadata : value) : M B dict :=
  let '(user_prompt, _) := Dict.pop "prompt" VNone clean_metadata in
  let with_prompt (p : value) := Dict.set "prompt" p generation_params in
  if is_none user_prompt && is_none prompt_management_metadata
  then ret generation_params
  else
    match user_prompt with
    | VDict up =>
        let type := Dict.get_default "type" (VStr "") up in
        if eq_str type "chat"
        then p <- lift (chat_prompt_client env up) ;; ret (with_prompt p)
        else if eq_str type "text"
        then p <- lift (text_prompt_client env up) ;; ret (with_prompt p)
        else if Dict.mem "version" up && Dict.mem "prompt" up
        then
          match Dict.get_default "prompt" VNone up with
          | VStr _ =>
              _data <- lift (prompt_data up
                               (prompt_text_has_labels_tags env)) ;;
              p <- lift (text_prompt_client env _data) ;;
              ret (with_prompt p)
          | VList _ =>
              _data <- lift (prompt_data up
                               (prompt_chat_has_labels_tags env)) ;;
              p <- lift (chat_prompt_client env _data) ;;
              ret (with_prompt p)
          | _ => ret generation_params
          end
        else ret generation_params
    | _ =>
        if is_none prompt_management_metadata
        then ret (with_prompt user_prompt)
        else
          integration <-
            lift (Py.item prompt_management_metadata "prompt_integration") ;;
          if eq_str integration "langfuse"
          then
            try_except
              (prompt_id <-
                 lift (Py.item prompt_management_metadata "prompt_id") ;;
               p <- get_prompt prompt_id ;;
               ret (with_prompt p))
              (fun _ => ret generation_params)
          else ret (with_prompt user_prompt)
    end.

Definition trace (trace_params : dict) : M B value :=
  sdk_call (sdk_trace sdk trace_params) (Call_trace trace_params).

Definition generation (trace : value) (generation_params : dict)
  : M B StatefulClient :=
  sdk_call (sdk_generation sdk trace generation_params)
           (Call_generation generation_params).

(** [if output is not None and isinstance(output, str) and
    level == "ERROR": generation_params["status_message"] = output] *)
Definition with_status_message (output : value) (level : string)
           (generation_params : dict) : dict :=
  if negb (is_none output) && is_str output && String.eqb level "ERROR"
  then Dict.set "status_message" output generation_params
  else generation_params.

Definition with_completion_start_time (with_start : bool) (kwargs : dict)
           (generation_params : dict) : dict :=
  if with_start
  then Dict.set "completion_start_time"
                (Dict.get_default "completion_start_time" VNone kwargs)
                generation_params
  else generation_params.

(** *** [_log_langfuse_v2] *)

(** The spans and the generation under the trace [tr]: the function
    from the call of [log_provider_specific_information_as_span] on. *)
Definition log_generation
           (l : Locals.t) (kwargs clean_metadata optional_params : dict)
           (input output start_time end_time cost : value)
           (response_obj : Response) (level : string) (tr : value)
  : M B (value * value) :=
  log_provider_specific_information_as_span tr clean_metadata ;;;
  _log_guardrail_information_as_span
    tr (Locals.standard_logging_object l) ;;;
  ' (generation_params, clean_metadata, generation_id) <-
    lift (build_generation_params l kwargs clean_metadata optional_params
            input output start_time end_time cost response_obj level) ;;
  with_prompt <- lift _supports_prompt ;;
  generation_params <-
    (if with_prompt
     then _add_prompt_to_generation_params
            generation_params clean_metadata
            (Locals.prompt_management_metadata l)
     else ret generation_params) ;;
  let generation_params :=
    with_status_message output level generation_params in
  with_start <- lift _supports_completion_start_time ;;
  let generation_params :=
    with_completion_start_time with_start kwargs generation_params in
  generation_client <- generation tr generation_params ;;
  ret (trace_id generation_client, generation_id).

Definition _log_langfuse_v2
           (user_id metadata litellm_params output start_time end_time
              : value)
           (kwargs optional_params : dict) (input : value)
           (response_obj : Response) (level : string)
           (litellm_call_id : value) : M B (value * value) :=
  try_except
    (l <- lift (prepare metadata kwargs litellm_call_id) ;;
     ' (trace_params, clean_metadata) <-
       lift (build_trace_params l kwargs input output level) ;;
     ' (kwargs, trace_params, clean_metadata, cost) <-
       lift (finish_trace_params l kwargs litellm_params trace_params
                                 clean_metadata) ;;
     tr <- trace trace_params ;;
     log_generation l kwargs clean_metadata optional_params input output
                    start_time end_time cost response_obj level tr)
    (fun _ => ret (VNone, VNone)).

(** *** [_log_langfuse_v1] *)

Definition usage_attr (response_obj : Response)
           (field : Usage -> option value) : result value :=
  match usage (attrs_of response_obj) with
  | Some u =>
      match field u with
      | Some v => Ok v
      | None => Raise AttributeError
      end
  | None => Raise AttributeError
  end.

Definition _log_langfuse_v1
           (user_id metadata output start_time end_time : value)
           (kwargs optional_params : dict) (input : value)
           (response_obj : Response) : M B unit :=
  name <- lift (Py.get metadata "generation_name"
                       (VStr "litellm-completion")) ;;
  tr <- trace [("name", name); ("input", input); ("output", output);
               ("userId", user_id)] ;;
  name <- lift (Py.get metadata "generation_name"
                       (VStr "litellm-completion")) ;;
  model <- lift (Py.item (VDict kwargs) "model") ;;
  prompt_tokens <- lift (usage_attr response_obj prompt_tokens) ;;
  completion_tokens <- lift (usage_attr response_obj completion_tokens) ;;
  generation tr
    [("name", name);
     ("startTime", start_time);
     ("endTime", end_time);
     ("model", model);
     ("modelParameters", VDict optional_params);
     ("prompt", input);
     ("completion", output);
     ("usage", VDict [("prompt_tokens", prompt_tokens);
                      ("completion_tokens", completion_tokens)]);
     ("metadata", metadata)] ;;;
  ret tt.

(** *** [log_event_on_langfuse] *)

(** Langfuse only accepts str, int, bool, float: anything else is
    replaced by its [str], unless [str] fails. *)
Definition stringify (v : value) : value :=
  match v with
  | VStr _ | VInt _ | VBool _ | VFloat _ _ => v
  | _ => match str env v with Ok s => VStr s | Raise _ => v end
  end.

Definition ids (trace_id generation_id : value) : dict :=
  [("trace_id", trace_id); ("generation_id", generation_id)].

Definition log_event_on_langfuse
           (kwargs : dict) (response_obj : Response)
           (start_time end_time user_id : value) (level : string)
           (status_message : value) : M B dict :=
  try_except
    (let litellm_params :=
       Dict.get_default "litellm_params" (VDict []) kwargs in
     let litellm_call_id := Dict.get_default "litellm_call_id" VNone kwargs in
     md <- lift (Py.get litellm_params "metadata" (VDict [])) ;;
     let metadata := if truthy md then md else VDict [] in
     metadata <- lift (add_metadata_from_header litellm_params metadata) ;;
     optional_params <-
       lift (Py.as_dict
               (Dict.get_default "optional_params" (VDict []) kwargs)) ;;
     let prompt : dict :=
       [("messages", Dict.get_default "messages" VNone kwargs)] in
     let '(functions, optional_params) :=
       Dict.pop "functions" VNone optional_params in
     let '(tools, optional_params) :=
       Dict.pop "tools" VNone optional_params in
     let prompt :=
       if negb (is_none functions) then Dict.set "functions" functions prompt
       else prompt in
     let prompt :=
       if negb (is_none tools) then Dict.set "tools" tools prompt
       else prompt in
     let optional_params :=
       map (fun kv : string * value => (fst kv, stringify (snd kv)))
           optional_params in
     let '(input, output) :=
       _get_langfuse_input_output_content
         kwargs response_obj (VDict prompt) level status_message in
     v2 <- lift _is_langfuse_v2 ;;
     ' (trace_id, generation_id) <-
       (if v2
        then _log_langfuse_v2 user_id metadata litellm_params output
               start_time end_time kwargs optional_params input
               response_obj level litellm_call_id
        else if is_not_None response_obj
        then _log_langfuse_v1 user_id metadata output start_time end_time
               kwargs optional_params input response_obj ;;;
             ret (VNone, VNone)
        else ret (VNone, VNone)) ;;
     ret (ids trace_id generation_id))
    (fun _ => ret (ids VNone VNone)).

End Logger.

(** ** The calls a run adds *)

Definition new_calls {B} (w w' : World B) : list Call :=
  skipn (length (calls w)) (calls w').

(** Calls other than the creation of a client, a trace or a generation. *)
Definition side_call (c : Call) : bool :=
  match c with
  | Call_span _ _ | Call_span_end _ | Call_get_prompt _ _ => true
  | Call_Langfuse _ _ | Call_trace _ _ | Call_generation _ _ => false
  end.

(** A computation that makes side calls only, all of them successful
    creations when it returns. *)
Definition side_run {B A} (m : M B A) : Prop :=
  forall w r w',
    m w = (r, w') ->
    exists new,
      calls w' = calls w ++ new
      /\ forallb side_call new = true
      /\ (is_ok r = true -> existsb creation_failed new = false).


(** ** The extraction table of section 4.2 of the specification

    Written from the table, rule by rule, first match wins; it is compared
    with [_get_langfuse_input_output_content] below. Where a rule names no
    input the row leaves it open. *)

Module Table.

Record row : Type := {
  row_input : option value;       (* [None]: the rule names no input *)
  row_output : value
}.

Definition variant_is_embedding (r : Response) : bool :=
  match r with EmbeddingResponse _ => true | _ => false end.

Definition extract (kwargs : dict) (response : Response) (prompt : value)
           (level : string) (statusMessage : value) : row :=
  let call_type := Dict.get_default "call_type" VNone kwargs in
  match statusMessage, String.eqb level "ERROR" with
  | VStr _, true =>                                                (* 1 *)
      {| row_input := Some prompt; row_output := statusMessage |}
  | _, _ =>
      match response with
      | EmbeddingResponse _ =>                                     (* 2 *)
          {| row_input := Some prompt; row_output := VNone |}
      | ModelResponse _ (m :: _) =>                                (* 3 *)
          {| row_input := Some prompt; row_output := json m |}
      | ModelResponse _ [] =>
          {| row_input := Some prompt; row_output := VNone |}
      | HttpxBinaryResponseContent =>                              (* 4 *)
          {| row_input := None; row_output := VStr "speech-output" |}
      | TextCompletionResponse _ (text :: _) =>                    (* 5 *)
          {| row_input := None; row_output := text |}
      | TextCompletionResponse _ [] =>
          {| row_input := None; row_output := VNone |}
      | ImageResponse _ data =>                                    (* 6 *)
          {| row_input := None;
             row_output := match data with Some v => v | None => VNone end |}
      | TranscriptionResponse _ text =>                            (* 7 *)
          {| row_input := None;
             row_output := match text with Some v => v | None => VNone end |}
      | RerankResponse _ results =>                                (* 8 *)
          {| row_input := None; row_output := results |}
      | ListResponse l =>                                          (* 9 *)
          if eq_str call_type "_arealtime"
          then {| row_input := Some (Dict.get_default "input" VNone kwargs);
                  row_output := VList l |}
          else {| row_input := Some VNone; row_output := VNone |}  (* 11 *)
      | DictResponse d =>                                          (* 10 *)
          if eq_str call_type "pass_through_endpoint"
          then {| row_input := None;
                  row_output := Dict.get_default "response" (VStr "") d |}
          else {| row_input := Some VNone; row_output := VNone |}  (* 11 *)
      | NoResponse =>                                              (* 11 *)
          {| row_input := Some VNone; row_output := VNone |}
      end
  end.

(** A pair (input, output) agrees with a row. *)
Definition follows (io : value * value) (r : row) : Prop :=
  snd io = row_output r
  /\ match row_input r with Some i => fst io = i | None => True end.

End Table.

(** ** Instances: an environment, and an SDK that follows a script *)

Module Demo.

(** [str] on the values the instances print. *)
Definition render (v : value) : result string :=
  match v with
  | VStr s => Ok s
  | VNone => Ok "None"
  | VBool true => Ok "True"
  | VBool false => Ok "False"
  | VInt z => Ok (NilZero.string_of_int (Z.to_int z))
  | _ => Raise TypeError
  end.

Definition logging_id (start_time : value) (r : Response) : value :=
  match start_time, id (attrs_of r) with
  | VStr t, VStr i => VStr ("time-" ++ t ++ "_" ++ i)
  | _, _ => VNone
  end.

Definition env_at (version : string) : Env :=
  {| langfuse_version := version;
     MAX_LANGFUSE_INITIALIZED_CLIENTS := 2;
     langfuse_default_tags := VNone;
     PROXY_BASE_URL := VNone;
     preset_cache_key := None;
     redact_user_api_key_info := fun d => d;
     get_logging_id := logging_id;
     str := render;
     chat_prompt_client := fun _ => Ok (VObj "ChatPromptClient");
     text_prompt_client := fun _ => Ok (VObj "TextPromptClient");
     prompt_text_has_labels_tags := true;
     prompt_chat_has_labels_tags := true |}.

Definition self_at (version : string) : LangFuseLogger :=
  {| langfuse_sdk_version := version |}.

(** The state is the script: the outcome of each call to come, success
    once the script is over. *)
Definition scripted {A} (a : A) (what : string) (script : list bool)
  : result A * list bool :=
  match script with
  | false :: rest => (Raise (SdkError what), rest)
  | true :: rest => (Ok a, rest)
  | [] => (Ok a, [])
  end.

Definition sdk : Sdk (list bool) :=
  {| sdk_Langfuse := fun _ => scripted (VObj "Langfuse") "Langfuse";
     sdk_trace := fun p => scripted (Dict.get_default "id" VNone p) "trace";
     sdk_span := fun _ _ => scripted (VObj "span") "span";
     sdk_span_end := fun _ => scripted tt "end";
     sdk_generation :=
       fun tr _ => scripted {| trace_id := tr |} "generation";
     sdk_get_prompt := fun _ => scripted (VObj "prompt") "get_prompt" |}.

(** An SDK whose calls all succeed. *)
Definition working : Sdk unit :=
  {| sdk_Langfuse := fun _ b => (Ok (VObj "Langfuse"), b);
     sdk_trace := fun p b => (Ok (Dict.get_default "id" VNone p), b);
     sdk_span := fun _ _ b => (Ok (VObj "span"), b);
     sdk_span_end := fun _ b => (Ok tt, b);
     sdk_generation := fun tr _ b => (Ok {| trace_id := tr |}, b);
     sdk_get_prompt := fun _ b => (Ok (VObj "prompt"), b) |}.

Definition fresh : World unit :=
  {| backend := tt; calls := []; initialized_langfuse_clients := 0 |}.

Definition world (script : list bool) : World (list bool) :=
  {| backend := script; calls := []; initialized_langfuse_clients := 0 |}.

Definition hi : value :=
  VList [VDict [("role", VStr "user"); ("content", VStr "hi")]].

Definition hello : Message :=
  {| json := VDict [("role", VStr "assistant"); ("content", VStr "hello")] |}.

Definition chat_response : Response :=
  ModelResponse
    {| id := VStr "chatcmpl-1"; usage := None; system_fingerprint := VNone |}
    [hello].

(** A call record with the given request metadata. *)
Definition record (call_type : string) (metadata : dict) : dict :=
  [("model", VStr "gpt-4o");
   ("messages", hi);
   ("call_type", VStr call_type);
   ("litellm_call_id", VStr "call-1");
   ("litellm_params", VDict [("metadata", VDict metadata)])].

(** One logging call on a fresh world, at the given SDK version. *)
Definition log_at (version : string) (script : list bool) (kwargs : dict)
           (response : Response) (level : string) (status_message : value)
  : result dict * World (list bool) :=
  log_event_on_langfuse sdk (env_at version) (self_at version)
    kwargs response (VStr "t0") (VStr "t1") VNone level status_message
    (world script).

Definition log := log_at "2.7.3".

(** A proxy request with one [langfuse_] header and one other header. *)
Definition proxied_headers : dict :=
  [("langfuse_trace_id", VStr "abc"); ("content-type", VStr "json")].

Definition proxied_request : dict := [("headers", VDict proxied_headers)].

Definition proxied_params : dict :=
  [("proxy_server_request", VDict proxied_request)].

(** A chat completion logged under the call type of an embedding. *)
Definition embedding_record : dict := [("call_type", VStr "embedding")].

Definition traces (cs : list Call) : list dict :=
  flat_map (fun c => match c with Call_trace p _ => [p] | _ => [] end) cs.

Definition generations (cs : list Call) : list dict :=
  flat_map (fun c => match c with Call_generation p _ => [p] | _ => [] end)
           cs.

(** One call of [_log_langfuse_v2] on a fresh world, at version 2.7.3,
for a chat completion with the given request metadata. *)
Definition v2 (script : list bool) (metadata : dict) (input output : value)
           (level : string) : result (value * value) * World (list bool) :=
  _log_langfuse_v2 sdk (env_at "2.7.3") (self_at "2.7.3")
    VNone (VDict metadata) (VDict []) output (VStr "t0") (VStr "t1")
    (record "completion" metadata) [] input chat_response level
    (VStr "call-1") (world script).

Definition no_event : Locals.t :=
  {| Locals.metadata := VNone;
     Locals.standard_logging_object := VNone;
     Locals.tags := VNone;
     Locals.end_user_id := VNone;
     Locals.prompt_management_metadata := VNone;
     Locals.clean_metadata := [];
     Locals.session_id := VNone;
     Locals.trace_name := VNone;
     Locals.trace_id := VNone;
     Locals.existing_trace_id := VNone;
     Locals.update_trace_keys := VNone;
     Locals.debug := VNone;
     Locals.mask_input := VNone;
     Locals.mask_output := VNone |}.

(** The event of that call. *)
Definition event (metadata : dict) : Locals.t :=
  match prepare (env_at "2.7.3") (self_at "2.7.3") (VDict metadata)
                (record "completion" metadata) (VStr "call-1") with
  | Ok l => l
  | Raise _ => no_event
  end.

End Demo.

(** ** Rendering of what a run submits *)

(** The parameters of the spans among some calls. *)
Definition spans_of (cs : list Call) : list dict :=
  flat_map (fun c => match c with Call_span p _ => [p] | _ => [] end) cs.

Definition is_span (c : Call) : bool :=
  match c with Call_span _ _ => true | _ => false end.

(** The spans that the grounding metadata of Vertex AI asks for: one per
    entry of each mapping of a list, one per other element, one for a
    value that is no list. *)
Definition grounding_spans (vertex_ai_grounding_metadata : value)
  : list dict :=
  match vertex_ai_grounding_metadata with
  | VList elems =>
      flat_map
        (fun elem =>
           match elem with
           | VDict items =>
               map (fun kv : string * value =>
                      [("name", VStr (fst kv)); ("input", snd kv)]) items
           | _ => [[("name", VStr "vertex_ai_grounding_metadata");
                    ("input", elem)]]
           end)
        elems
  | v => [[("name", VStr "vertex_ai_grounding_metadata"); ("input", v)]]
  end.

(** A computation that only creates spans, those of [ps] in order, and
    stops at the first that fails. *)
Definition emits {B} (m : M B unit) (ps : list dict) : Prop :=
  forall w r w',
    m w = (r, w') ->
    exists new,
      calls w' = calls w ++ new
      /\ forallb is_span new = true
      /\ (exists rest, ps = spans_of new ++ rest)
      /\ (is_ok r = true ->
          spans_of new = ps /\ forallb call_ok new = true).

(** The spans asked for by the metadata of a call. *)
Definition provider_spans (clean_metadata : dict) : list dict :=
  match Dict.get "hidden_params" clean_metadata with
  | Some (VDict _hidden_params) =>
      match Dict.get_default "vertex_ai_grounding_metadata" VNone
                             _hidden_params with
      | VNone => []
      | v => grounding_spans v
      end
  | _ => []
  end.

(** [isinstance(v, (str, int, bool, float))] *)
Definition primitive (v : value) : bool :=
  match v with
  | VStr _ | VInt _ | VBool _ | VFloat _ _ => true
  | _ => false
  end.

(** ** Instances with default tags *)

Module DemoTags.

Definition env : Env :=
  {| langfuse_version := "2.7.3";
     MAX_LANGFUSE_INITIALIZED_CLIENTS := 2;
     langfuse_default_tags :=
       VList [VStr "cache_hit"; VStr "user_api_key_alias"];
     PROXY_BASE_URL := VNone;
     preset_cache_key := None;
     redact_user_api_key_info := fun d => d;
     get_logging_id := Demo.logging_id;
     str := Demo.render;
     chat_prompt_client := fun _ => Ok (VObj "ChatPromptClient");
     text_prompt_client := fun _ => Ok (VObj "TextPromptClient");
     prompt_text_has_labels_tags := true;
     prompt_chat_has_labels_tags := true |}.

Definition metadata : dict := [("user_api_key_alias", VStr "alice")].

(** A cached call of team a. *)
Definition kwargs : dict :=
  [("model", VStr "gpt-4o");
   ("call_type", VStr "completion");
   ("cache_hit", VBool true);
   ("standard_logging_object",
    VDict [("request_tags", VList [VStr "team-a"]);
           ("metadata", VDict []);
           ("hidden_params", VDict [])])].

Definition event : Locals.t :=
  match prepare env (Demo.self_at "2.7.3") (VDict metadata) kwargs
                (VStr "call-1") with
  | Ok l => l
  | Raise _ => Demo.no_event
  end.

Definition v2 : result (value * value) * World (list bool) :=
  _log_langfuse_v2 Demo.sdk env (Demo.self_at "2.7.3")
    VNone (VDict metadata) (VDict []) (VStr "out") (VStr "t0") (VStr "t1")
    kwargs [] (VStr "in") Demo.chat_response "DEFAULT" (VStr "call-1")
    (Demo.world []).

End DemoTags.

(** ** Construction of the logger

    [LangFuseLogger.__init__], with the process environment as a
    dictionary of strings that the call reads and may extend. *)

Module Init.

(** What the constructor takes from outside the module. *)
Record Deps (B : Type) : Type := {
  (** [_get_httpx_client().client] *)
  httpx_client : result value;
  (** the builtin [int] *)
  int : value -> result value;
  (** [client.projects.get().data[0].id] on the client just created *)
  projects_get : value -> B -> result value * B
}.
Arguments httpx_client {B}.
Arguments int {B}.
Arguments projects_get {B}.

(** The instance attributes set by the constructor. *)
Record t : Type := {
  logger : LangFuseLogger;
  secret_key : value;
  public_key : value;
  langfuse_host : string;
  langfuse_release : value;
  langfuse_debug : value;
  langfuse_flush_interval : value;
  langfuse_client : value;
  Langfuse : value;
  upstream_langfuse : value
}.

End Init.

(** [a or b] *)
Definition py_or (a b : value) : value := if truthy a then a else b.

(** [os.getenv(name)] *)
Definition getenv (name : string) (environ : dict) : value :=
  Dict.get_default name VNone environ.

Section Construction.

Context {B : Type} (sdk : Sdk B) (env : Env) (deps : Init.Deps B).

(** [int(os.getenv("LANGFUSE_FLUSH_INTERVAL") or flush_interval)] *)
Definition _get_langfuse_flush_interval (flush_interval : value)
           (environ : dict) : result value :=
  Init.int deps (py_or (getenv "LANGFUSE_FLUSH_INTERVAL" environ)
                       flush_interval).

(** A host without scheme is taken to be on a private network. *)
Definition with_scheme (langfuse_host : value) : result string :=
  match langfuse_host with
  | VStr host =>
      if negb (PyStr.startswith "http://" host
               || PyStr.startswith "https://" host)
      then Ok ("http://" ++ host)%string
      else Ok host
  | _ => Raise AttributeError
  end.

(** The try block around the project id: a failure leaves the
    environment as it is. *)
Definition resolve_project_id (client : value) (environ : dict)
  : M B dict :=
  fun w =>
    let (r, b) := Init.projects_get deps client (backend w) in
    (Ok match r with
        | Ok (VStr project_id) =>
            Dict.set "LANGFUSE_PROJECT_ID" (VStr project_id) environ
        | _ => environ
        end,
     {| backend := b;
        calls := calls w;
        initialized_langfuse_clients := initialized_langfuse_clients w |}).

Definition __init__
           (langfuse_public_key langfuse_secret langfuse_host
              flush_interval : value) (environ : dict)
  : M B (Init.t * dict) :=
  let secret_key := py_or langfuse_secret (getenv "LANGFUSE_SECRET_KEY" environ)
  in
  let public_key :=
    py_or langfuse_public_key (getenv "LANGFUSE_PUBLIC_KEY" environ) in
  host <-
    lift (with_scheme
            (py_or langfuse_host
                   (Dict.get_default "LANGFUSE_HOST"
                      (VStr "https://cloud.langfuse.com") environ))) ;;
  let langfuse_release := getenv "LANGFUSE_RELEASE" environ in
  let langfuse_debug := getenv "LANGFUSE_DEBUG" environ in
  langfuse_flush_interval <-
    lift (_get_langfuse_flush_interval flush_interval environ) ;;
  langfuse_client <- lift (Init.httpx_client deps) ;;
  let parameters : dict :=
    [("public_key", public_key);
     ("secret_key", secret_key);
     ("host", VStr host);
     ("release", langfuse_release);
     ("debug", langfuse_debug);
     ("flush_interval", langfuse_flush_interval);
     ("httpx_client", langfuse_client)] in
  let langfuse_sdk_version := langfuse_version env in
  integration <- lift (Version.ge langfuse_sdk_version "2.6.0") ;;
  let parameters :=
    if integration
    then Dict.set "sdk_integration" (VStr "litellm") parameters
    else parameters in
  client <- safe_init_langfuse_client sdk env parameters ;;
  environ <- resolve_project_id client environ ;;
  if negb (is_none (getenv "UPSTREAM_LANGFUSE_SECRET_KEY" environ))
  then
    (* [self.upstream_langfuse_debug] is read before it is assigned *)
    raise AttributeError
  else
    ret ({| Init.logger :=
              {| langfuse_sdk_version := langfuse_sdk_version |};
            Init.secret_key := secret_key;
            Init.public_key := public_key;
            Init.langfuse_host := host;
            Init.langfuse_release := langfuse_release;
            Init.langfuse_debug := langfuse_debug;
            Init.langfuse_flush_interval := langfuse_flush_interval;
            Init.langfuse_client := langfuse_client;
            Init.Langfuse := client;
            Init.upstream_langfuse := VNone |},
         environ).

End Construction.

(** Instances for the construction. *)
Module DemoInit.

Fixpoint digits (s : string) (acc : N) : option N :=
  match s with
  | EmptyString => Some acc
  | String c s' =>
      match Version.digit c with
      | Some d => digits s' (10 * acc + d)%N
      | None => None
      end
  end.

(** [int] on integers and on plain decimal strings. *)
Definition parse_int (v : value) : result value :=
  match v with
  | VInt z => Ok (VInt z)
  | VStr (String c s) =>
      match digits (String c s) 0 with
      | Some n => Ok (VInt (Z.of_N n))
      | None => Raise (Exception "invalid literal for int()")
      end
  | _ => Raise TypeError
  end.

Definition deps : Init.Deps unit :=
  {| Init.httpx_client := Ok (VObj "httpx");
     Init.int := parse_int;
     Init.projects_get := fun _ b => (Ok (VStr "project-1"), b) |}.

(** The same, with a backend that does not answer for the project. *)
Definition deps_offline : Init.Deps unit :=
  {| Init.httpx_client := Ok (VObj "httpx");
     Init.int := parse_int;
     Init.projects_get := fun _ b => (Raise (SdkError "projects"), b) |}.

Definition construct (host : value) (environ : dict)
  : result (Init.t * dict) * World unit :=
  __init__ Demo.working (Demo.env_at "2.7.3") deps
           (VStr "pk") (VStr "sk") host (VInt 1) environ Demo.fresh.

End DemoInit.

(** ** Instances with token counts *)

Module DemoUsage.

Definition counted : Usage :=
  {| prompt_tokens := Some (VInt 3);
     input_tokens := None;
     completion_tokens := Some (VInt 5);
     output_tokens := None |}.

Definition response : Response :=
  ModelResponse
    {| id := VStr "chatcmpl-2";
       usage := Some counted;
       system_fingerprint := VNone |}
    [Demo.hello].

(** One logging call through an SDK older than 2.0.0. *)
Definition legacy : result dict * World (list bool) :=
  Demo.log_at "1.9.9" [] (Demo.record "completion" []) response "DEFAULT"
              VNone.

End DemoUsage.

(** ** Runs whose calls are all of one kind *)

Definition is_span_call (c : Call) : bool :=
  match c with
  | Call_span _ _ | Call_span_end _ => true
  | _ => false
  end.

(** Every call of a run of [m] satisfies [P]. *)
Definition only {B A} (P : Call -> bool) (m : M B A) : Prop :=
  forall w r w',
    m w = (r, w') ->
    exists new, calls w' = calls w ++ new /\ forallb P new = true.

Definition is_get_prompt (c : Call) : bool :=
  match c with Call_get_prompt _ _ => true | _ => false end.

(** ** What [log_event_on_langfuse] hands on

    The metadata, the prompt and the content that
    [log_event_on_langfuse] computes from the call record before it
    chooses between [_log_langfuse_v2] and [_log_langfuse_v1]. *)

(** [litellm_params.get("metadata", {}) or {}], then
    [add_metadata_from_header] *)
Definition logged_metadata (kwargs : dict) : result value :=
  let litellm_params := Dict.get_default "litellm_params" (VDict []) kwargs in
  let? md := Py.get litellm_params "metadata" (VDict []) in
  add_metadata_from_header litellm_params
                           (if truthy md then md else VDict []).

(** [prompt], with the [functions] and [tools] popped from the optional
    parameters *)
Definition logged_prompt (kwargs optional_params : dict) : dict :=
  let prompt : dict :=
    [("messages", Dict.get_default "messages" VNone kwargs)] in
  let '(functions, optional_params) :=
    Dict.pop "functions" VNone optional_params in
  let '(tools, _) := Dict.pop "tools" VNone optional_params in
  let prompt :=
    if negb (is_none functions) then Dict.set "functions" functions prompt
    else prompt in
  if negb (is_none tools) then Dict.set "tools" tools prompt else prompt.

(** [input, output] *)
Definition logged_content (kwargs : dict) (response_obj : Response)
           (level : string) (status_message : value)
  : result (value * value) :=
  let? optional_params :=
    Py.as_dict (Dict.get_default "optional_params" (VDict []) kwargs) in
  Ok (_get_langfuse_input_output_content
        kwargs response_obj (VDict (logged_prompt kwargs optional_params))
        level status_message).

(** * Properties *)

(** ** Dictionaries *)

Module DictFacts.

Lemma get_set_eq k v d : Dict.get k (Dict.set k v d) = Some v.
Proof.
  induction d as [|[k' v'] d IH]; simpl.
  - now rewrite String.eqb_refl.
  - destruct (String.eqb k k') eqn:E; simpl; rewrite E; auto.
Qed.

Lemma get_set_neq k k' v d :
  k <> k' -> Dict.get k' (Dict.set k v d) = Dict.get k' d.
Proof.
  intros N. induction d as [|[k0 v0] d IH]; simpl.
  - destruct (String.eqb k' k) eqn:E; auto.
    apply String.eqb_eq in E. congruence.
  - destruct (String.eqb k k0) eqn:E; simpl.
    + apply String.eqb_eq in E. subst k0.
      destruct (String.eqb k' k) eqn:E'; auto.
      apply String.eqb_eq in E'. congruence.
    + now rewrite IH.
Qed.

Lemma get_remove_eq k d : Dict.get k (Dict.remove k d) = None.
Proof.
  induction d as [|[k' v'] d IH]; simpl; auto.
  destruct (String.eqb k k') eqn:E; simpl; auto. now rewrite E.
Qed.

Lemma get_remove_neq k k' d :
  k <> k' -> Dict.get k' (Dict.remove k d) = Dict.get k' d.
Proof.
  intros N. induction d as [|[k0 v0] d IH]; simpl; auto.
  destruct (String.eqb k k0) eqn:E; simpl.
  - apply String.eqb_eq in E. subst k0.
    destruct (String.eqb k' k) eqn:E'; auto.
    apply String.eqb_eq in E'. congruence.
  - now rewrite IH.
Qed.

Lemma get_in_keys k d : Dict.get k d <> None <-> In k (Dict.keys d).
Proof.
  induction d as [|[k' v'] d IH]; simpl.
  - tauto.
  - destruct (String.eqb k k') eqn:E.
    + apply String.eqb_eq in E. subst. split; auto. discriminate.
    + apply String.eqb_neq in E. rewrite IH. split; auto.
      intros [H|H]; congruence.
Qed.

Lemma get_none_not_key k d : Dict.get k d = None <-> ~ In k (Dict.keys d).
Proof.
  rewrite <- get_in_keys. destruct (Dict.get k d); split; intro H;
    try congruence; try (intro; congruence). exfalso. apply H. discriminate.
Qed.


Lemma keys_set k v d x :
  In x (Dict.keys (Dict.set k v d)) <-> x = k \/ In x (Dict.keys d).
Proof.
  rewrite <- !get_in_keys.
  destruct (string_dec k x) as [->|N].
  - rewrite get_set_eq. split; auto. discriminate.
  - rewrite get_set_neq by assumption. split; auto.
    intros [H|H]; congruence.
Qed.

Lemma keys_remove k d x :
  In x (Dict.keys (Dict.remove k d)) <-> x <> k /\ In x (Dict.keys d).
Proof.
  rewrite <- !get_in_keys.
  destruct (string_dec k x) as [->|N].
  - rewrite get_remove_eq. split; [congruence|]. intros [H _]. congruence.
  - rewrite get_remove_neq by assumption. split.
    + intros H. split; [congruence | assumption].
    + tauto.
Qed.

Lemma mem_true k d : Dict.mem k d = true <-> In k (Dict.keys d).
Proof.
  unfold Dict.mem. rewrite <- get_in_keys.
  destruct (Dict.get k d); split; intro H;
    solve [congruence | discriminate | exfalso; now apply H].
Qed.

End DictFacts.

(** ** Strings *)

Module StrFacts.

Import PyStr.

Lemma prefix_split p s :
  String.prefix p s = true -> s = (p ++ drop (String.length p) s)%string.
Proof.
  revert s. induction p as [|c p IH]; intros s H.
  - reflexivity.
  - destruct s as [|c' s]; simpl in H; [discriminate|].
    destruct (Ascii.ascii_dec c c') as [->|N]; [|discriminate].
    simpl. f_equal. now apply IH.
Qed.

Lemma strip_prefix_inj p a b :
  startswith p a = true -> startswith p b = true ->
  strip_prefix p a = strip_prefix p b -> a = b.
Proof.
  unfold strip_prefix, startswith. intros Ha Hb. rewrite Ha, Hb.
  intros E. rewrite (prefix_split p a Ha), (prefix_split p b Hb).
  now rewrite E.
Qed.

Lemma replace_spent old new n s :
  replace_from old new (Some 0%nat) n s = drop n s.
Proof.
  revert n. induction s as [|c s IH]; intros n; simpl.
  - now destruct n.
  - destruct n; simpl.
    + f_equal. rewrite IH. reflexivity.
    + apply IH.
Qed.

(** With a count of one and the prefix in place, [replace] removes
    exactly the prefix. *)
Lemma replace_once_prefix p s :
  p <> "" -> startswith p s = true ->
  replace p "" (Some 1%nat) s = strip_prefix p s.
Proof.
  intros Np H. unfold strip_prefix. rewrite H.
  unfold replace, startswith in *.
  destruct s as [|c s].
  - destruct p; [congruence|discriminate].
  - cbn [replace_from may_replace andb spend Nat.pred]. rewrite H.
    rewrite replace_spent. destruct p as [|c' p]; [congruence|].
    reflexivity.
Qed.

End StrFacts.

(** ** Capability gating *)

Module VersionFacts.

Import Version.

(** On three-part releases the comparison with a threshold whose last
    part is not zero is the lexicographic order. *)
Lemma ge_release_threshold (a b c x y z : N) :
  z <> 0%N ->
  ge_release [a; b; c] [x; y; z] = true <->
  (x < a \/ (a = x /\ (y < b \/ (b = y /\ z <= c))))%N.
Proof.
  intros Hz. unfold ge_release. simpl.
  destruct (N.eqb_spec z 0) as [?|_]; [congruence|].
  destruct (N.eqb_spec c 0) as [->|Hc].
  - destruct (N.eqb_spec b 0) as [->|Hb].
    + destruct (N.eqb_spec a 0) as [->|Ha]; simpl.
      * split; [discriminate|]. lia.
      * destruct (N.compare_spec a x); simpl; split; intros; try lia;
          try discriminate; auto.
    + simpl. destruct (N.compare_spec a x); simpl; try (split; intros; try lia; try discriminate; auto; fail).
      destruct (N.compare_spec b y); simpl; split; intros; try lia;
        try discriminate; auto.
  - simpl. destruct (N.compare_spec a x); simpl;
      try (split; intros; try lia; try discriminate; auto; fail).
    destruct (N.compare_spec b y); simpl;
      try (split; intros; try lia; try discriminate; auto; fail).
    destruct (N.compare_spec c z); simpl; split; intros; try lia;
      try discriminate; auto.
Qed.

(** Against 2.0.0 only the major part counts. *)
Lemma ge_release_major (a b c x : N) :
  x <> 0%N ->
  ge_release [a; b; c] [x; 0; 0]%N = true <-> (x <= a)%N.
Proof.
  intros Hx. unfold ge_release. simpl.
  destruct (N.eqb_spec x 0) as [?|_]; [congruence|].
  destruct (N.eqb_spec c 0) as [->|Hc];
    [destruct (N.eqb_spec b 0) as [->|Hb];
     [destruct (N.eqb_spec a 0) as [->|Ha]|]|];
    simpl; try (split; [discriminate | lia]);
    destruct (N.compare_spec a x); simpl; split; intros;
    try lia; try discriminate; auto.
Qed.

End VersionFacts.

(** ** Header merge *)

Module HeaderFacts.

Import PyStr.

Local Abbreviation strip := (strip_prefix "langfuse_").
Local Abbreviation prefixed := (startswith "langfuse_").

Lemma header_step_dict h md k :
  header_step (VDict h) (VDict md) (VStr k) =
  Ok (VDict (if prefixed k
             then Dict.set (strip k) (Dict.get_default k VNone h) md
             else md)).
Proof.
  unfold header_step. destruct (startswith "langfuse_" k) eqn:E.
  - rewrite StrFacts.replace_once_prefix by (assumption || discriminate).
    reflexivity.
  - reflexivity.
Qed.

Lemma merge_fold h ks :
  forall md,
  exists md',
    rfold (header_step (VDict h)) (map VStr ks) (VDict md) = Ok (VDict md')
    /\ (forall k, In k ks -> prefixed k = true ->
                  Dict.get (strip k) md' = Some (Dict.get_default k VNone h))
    /\ (forall k', (forall k, In k ks -> prefixed k = true -> strip k <> k')
                   -> Dict.get k' md' = Dict.get k' md)
    /\ ((forall k, In k ks -> prefixed k = false) -> md' = md).
Proof.
  induction ks as [|k ks IH]; intros md.
  - exists md. simpl. repeat split; auto. intros k [].
  - cbn [map rfold]. rewrite header_step_dict. cbn [rbind].
    set (md1 := if prefixed k then _ else md).
    destruct (IH md1) as (md' & Hrun & Hset & Hkeep & Hsame).
    exists md'. split; [exact Hrun|]. split; [|split].
    + intros k0 [<-|Hin] Hp.
      * destruct (in_dec string_dec k ks) as [Hin|Hout].
        -- now apply Hset.
        -- rewrite Hkeep.
           ++ unfold md1. rewrite Hp. apply DictFacts.get_set_eq.
           ++ intros k1 H1 Hp1 E. apply Hout.
              rewrite <- (StrFacts.strip_prefix_inj _ _ _ Hp1 Hp E).
              exact H1.
      * now apply Hset.
    + intros k' Hk'. rewrite Hkeep.
      * unfold md1. destruct (prefixed k) eqn:Hp; auto.
        apply DictFacts.get_set_neq. apply Hk'; auto. now left.
      * intros k1 H1. apply Hk'. now right.
    + intros Hno. rewrite Hsame.
      * unfold md1. rewrite (Hno k) by now left. reflexivity.
      * intros k1 H1. apply Hno. now right.
Qed.

End HeaderFacts.

(** C9. A header of the proxy request whose name starts with [langfuse_]
    sets the metadata entry named by the rest of the header name to the
    header's value, whatever was stored there; the other metadata entries
    are kept; headers without the prefix leave the metadata as it is, and
    so does a call without a proxy request. *)
Theorem add_metadata_from_header_merges (litellm_params metadata : dict) :
  (Dict.get_default "proxy_server_request" VNone litellm_params = VNone ->
   add_metadata_from_header (VDict litellm_params) (VDict metadata)
   = Ok (VDict metadata))
  /\ (forall request headers,
        Dict.get "proxy_server_request" litellm_params = Some (VDict request) ->
        Dict.get "headers" request = Some (VDict headers) ->
        exists merged,
          add_metadata_from_header (VDict litellm_params) (VDict metadata)
          = Ok (VDict merged)
          /\ (forall name v,
                Dict.get name headers = Some v ->
                PyStr.startswith "langfuse_" name = true ->
                Dict.get (PyStr.strip_prefix "langfuse_" name) merged = Some v)
          /\ (forall key,
                (forall name, In name (Dict.keys headers) ->
                              PyStr.startswith "langfuse_" name = true ->
                              PyStr.strip_prefix "langfuse_" name <> key) ->
                Dict.get key merged = Dict.get key metadata)
          /\ ((forall name, In name (Dict.keys headers) ->
                            PyStr.startswith "langfuse_" name = false) ->
              merged = metadata)).
Proof.
  split.
  - intros H. unfold add_metadata_from_header. simpl. rewrite H. reflexivity.
  - intros request headers Hreq Hhead.
    unfold add_metadata_from_header. simpl.
    unfold Dict.get_default. rewrite Hreq. simpl.
    unfold Dict.get_default. rewrite Hhead.
    replace (if truthy (VDict headers) then VDict headers else VDict [])
      with (VDict headers) by (destruct headers; reflexivity).
    cbn [Py.iter rbind].
    destruct (HeaderFacts.merge_fold headers (Dict.keys headers) metadata)
      as (merged & Hrun & Hset & Hkeep & Hsame).
    exists merged. split; [exact Hrun|]. split; [|split].
    + intros name v Hget Hp.
      rewrite (Hset name).
      * unfold Dict.get_default. now rewrite Hget.
      * apply DictFacts.get_in_keys. congruence.
      * exact Hp.
    + exact Hkeep.
    + exact Hsame.
Qed.

Lemma add_metadata_from_header_merges_witness :
  exists merged,
    add_metadata_from_header (VDict Demo.proxied_params)
                             (VDict [("trace_id", VStr "old")])
    = Ok (VDict merged)
    /\ Dict.get "trace_id" merged = Some (VStr "abc")
    /\ Dict.get "content-type" merged = None.
Proof.
  destruct (proj2 (add_metadata_from_header_merges
                     Demo.proxied_params [("trace_id", VStr "old")])
                  Demo.proxied_request Demo.proxied_headers
                  eq_refl eq_refl)
    as (merged & Hrun & Hset & Hkeep & _).
  exists merged. split; [exact Hrun|]. split.
  - apply (Hset "langfuse_trace_id"); reflexivity.
  - rewrite Hkeep; [reflexivity|].
    intros name [<-|[<-|[]]] Hp; vm_compute; discriminate.
Defined.

(** ** Capability gating, on the versions of the specification *)

(** C2, as stated: a client at 2.5.0 has no tags and takes the legacy v1
    path. The second half fails: 2.5.0 is at least 2.0.0, and the call is
    logged through the v2 protocol, which returns the trace id. *)
Lemma version_2_5_0_is_not_legacy :
  ~ (_supports_tags (Demo.self_at "2.5.0") = Ok false
     /\ _is_langfuse_v2 (Demo.env_at "2.5.0") = Ok false)
  /\ fst (Demo.log_at "2.5.0" [] (Demo.record "completion" [])
                      Demo.chat_response "DEFAULT" VNone)
     = Ok (ids (VStr "call-1") (VStr "time-t0_chatcmpl-1")).
Proof.
  split.
  - intros [_ H]. vm_compute in H. discriminate.
  - vm_compute. reflexivity.
Qed.

(** C2, amended. A client at 2.5.0 reports no support for tags and uses
    the v2 protocol (2.5.0 is at least 2.0.0; the legacy v1 path is taken
    below 2.0.0 only, as by 1.9.9); at 2.6.3 tags are supported; at 2.7.3
    tags, prompt, cost and completion start time all are. Each answer is a
    threshold comparison on the version alone: for a release a.b.c, tags
    are supported from 2.6.3 on, prompt, cost and completion start time
    from 2.7.3 on, and the v2 protocol is used from major version 2 on. *)
Theorem capability_gating :
  _supports_tags (Demo.self_at "2.5.0") = Ok false
  /\ _is_langfuse_v2 (Demo.env_at "2.5.0") = Ok true
  /\ _is_langfuse_v2 (Demo.env_at "1.9.9") = Ok false
  /\ _supports_tags (Demo.self_at "2.6.3") = Ok true
  /\ _supports_prompt (Demo.self_at "2.6.3") = Ok false
  /\ _supports_tags (Demo.self_at "2.7.3") = Ok true
  /\ _supports_prompt (Demo.self_at "2.7.3") = Ok true
  /\ _supports_costs (Demo.self_at "2.7.3") = Ok true
  /\ _supports_completion_start_time (Demo.self_at "2.7.3") = Ok true
  /\ (forall (env : Env) (self : LangFuseLogger) (a b c : N),
        Version.parse (langfuse_sdk_version self) = Some [a; b; c] ->
        Version.parse (langfuse_version env) = Some [a; b; c] ->
        let from x y z :=
          (x < a \/ (a = x /\ (y < b \/ (b = y /\ z <= c))))%N in
        exists tags prompt costs start v2,
          _supports_tags self = Ok tags
          /\ _supports_prompt self = Ok prompt
          /\ _supports_costs self = Ok costs
          /\ _supports_completion_start_time self = Ok start
          /\ _is_langfuse_v2 env = Ok v2
          /\ (tags = true <-> from 2 6 3)%N
          /\ (prompt = true <-> from 2 7 3)%N
          /\ (costs = true <-> from 2 7 3)%N
          /\ (start = true <-> from 2 7 3)%N
          /\ (v2 = true <-> 2 <= a)%N).
Proof.
  repeat (split; [vm_compute; reflexivity|]).
  intros env self a b c Hself Henv from.
  unfold _supports_tags, _supports_prompt, _supports_costs,
    _supports_completion_start_time, _is_langfuse_v2, Version.ge.
  rewrite Hself, Henv.
  change (Version.parse "2.6.3") with (Some [2; 6; 3]%N).
  change (Version.parse "2.7.3") with (Some [2; 7; 3]%N).
  change (Version.parse "2.0.0") with (Some [2; 0; 0]%N).
  do 5 eexists. repeat (split; [reflexivity|]).
  repeat split; intros H;
    first [ apply VersionFacts.ge_release_threshold in H; [exact H | lia]
          | apply VersionFacts.ge_release_threshold; [lia | exact H]
          | apply VersionFacts.ge_release_major in H; [exact H | lia]
          | apply VersionFacts.ge_release_major; [lia | exact H] ].
Qed.

Lemma capability_gating_witness :
  exists tags v2,
    _supports_tags (Demo.self_at "2.5.0") = Ok tags
    /\ _is_langfuse_v2 (Demo.env_at "2.5.0") = Ok v2
    /\ tags <> true /\ v2 = true.
Proof.
  destruct capability_gating as (_ & _ & _ & _ & _ & _ & _ & _ & _ & H).
  destruct (H (Demo.env_at "2.5.0") (Demo.self_at "2.5.0") 2 5 0
              eq_refl eq_refl)%N
    as (tags & prompt & costs & start & v2
        & Ht & _ & _ & _ & Hv & Htags & _ & _ & _ & Hv2).
  exists tags, v2. split; [exact Ht|]. split; [exact Hv|]. split.
  - intros E. apply Htags in E. lia.
  - apply Hv2. lia.
Defined.

(** ** Client creation *)

Module CapFacts.

Section Cap.

Context {B : Type} (sdk : Sdk B) (env : Env).

Local Abbreviation MAX := (MAX_LANGFUSE_INITIALIZED_CLIENTS env).
Local Abbreviation count := (@initialized_langfuse_clients B).

(** At the ceiling the SDK is not called and nothing changes. *)
Lemma full w p :
  (MAX <= count w)%Z ->
  safe_init_langfuse_client sdk env p w = (Raise max_clients_reached, w).
Proof.
  intros H. unfold safe_init_langfuse_client.
  destruct (Z.leb_spec MAX (count w)); [reflexivity | lia].
Qed.

(** Below the ceiling the outcome is the constructor's, and the
    counter moves only when it succeeds. *)
Lemma below w p :
  (count w < MAX)%Z ->
  exists w',
    safe_init_langfuse_client sdk env p w
    = (fst (sdk_Langfuse sdk p (backend w)), w')
    /\ count w' = (if is_ok (fst (sdk_Langfuse sdk p (backend w)))
                   then count w + 1 else count w)%Z.
Proof.
  intros H. unfold safe_init_langfuse_client.
  destruct (Z.leb_spec MAX (count w)); [lia|].
  unfold bind, sdk_call, bump_initialized_langfuse_clients, ret.
  destruct (sdk_Langfuse sdk p (backend w)) as [[c|e] b];
    simpl; eexists; split; reflexivity.
Qed.

Lemma never_above ps :
  forall w, (count w <= MAX)%Z ->
            (count (snd (attempts sdk env ps w)) <= MAX)%Z.
Proof.
  induction ps as [|p ps IH]; intros w H; simpl; auto.
  destruct (safe_init_langfuse_client sdk env p w) as [r w1] eqn:E.
  specialize (IH w1).
  destruct (attempts sdk env ps w1) as [rs w2]. simpl in *.
  apply IH.
  destruct (Z.lt_ge_cases (count w) MAX) as [Hlt|Hge].
  - destruct (below w p Hlt) as (w' & E' & Hc). rewrite E in E'.
    inversion E'; subst. rewrite Hc.
    destruct (is_ok _); lia.
  - rewrite (full w p Hge) in E. inversion E; subst. exact H.
Qed.

Lemma with_a_working_sdk ps :
  (forall p b, is_ok (fst (sdk_Langfuse sdk p b)) = true) ->
  forall w, (count w <= MAX)%Z ->
  count (snd (attempts sdk env ps w))
  = Z.min (count w + Z.of_nat (length ps)) MAX
  /\ forall i r,
       nth_error (fst (attempts sdk env ps w)) i = Some r ->
       if (count w + Z.of_nat i <? MAX)%Z then is_ok r = true
       else r = Raise max_clients_reached.
Proof.
  intros Hsdk. induction ps as [|p ps IH]; intros w H.
  - simpl. split; [lia|]. intros [|i] r; discriminate.
  - simpl.
    destruct (safe_init_langfuse_client sdk env p w) as [r1 w1] eqn:E.
    specialize (IH w1).
    destruct (attempts sdk env ps w1) as [rs w2]. simpl in *.
    destruct (Z.lt_ge_cases (count w) MAX) as [Hlt|Hge].
    + destruct (below w p Hlt) as (w' & E' & Hc). rewrite E in E'.
      inversion E'; subst. rewrite Hsdk in Hc.
      destruct IH as [IH1 IH2]; [lia|]. split; [lia|].
      intros [|i] r Hr; simpl in Hr.
      * inversion Hr; subst. cbn [Z.of_nat].
        destruct (Z.ltb_spec (count w + 0) MAX); [apply Hsdk | lia].
      * specialize (IH2 i r Hr). rewrite Hc in IH2.
        replace (count w + Z.of_nat (S i))%Z
          with (count w + 1 + Z.of_nat i)%Z by lia.
        exact IH2.
    + rewrite (full w p Hge) in E. inversion E; subst.
      destruct IH as [IH1 IH2]; [lia|]. split; [lia|].
      intros [|i] r Hr; simpl in Hr.
      * inversion Hr; subst. cbn [Z.of_nat].
        destruct (Z.ltb_spec (count w1 + 0) MAX); [lia | reflexivity].
      * specialize (IH2 i r Hr).
        destruct (Z.ltb_spec (count w1 + Z.of_nat i) MAX); [lia|].
        destruct (Z.ltb_spec (count w1 + Z.of_nat (S i)) MAX); [lia|].
        exact IH2.
Qed.

End Cap.

End CapFacts.

(** C4. From a counter at zero and with a ceiling [MAX], whatever the
    creation attempts and whatever the SDK constructor does, the counter
    never exceeds [MAX]; an attempt made at the ceiling fails with the
    capacity error, without calling the SDK and without moving the
    counter; and when the constructor works, the counter after the
    attempts is their number capped at [MAX], attempt number [i] (from
    zero) succeeding if [i < MAX] and failing with the capacity error
    otherwise: the first [MAX] creations succeed, each adding one, and
    creation [MAX + 1] fails. *)
Theorem client_creation_is_capped
        {B : Type} (sdk : Sdk B) (env : Env) (w : World B) (ps : list dict) :
  (0 <= MAX_LANGFUSE_INITIALIZED_CLIENTS env)%Z ->
  initialized_langfuse_clients w = 0%Z ->
  let MAX := MAX_LANGFUSE_INITIALIZED_CLIENTS env in
  let after := snd (attempts sdk env ps w) in
  (initialized_langfuse_clients after <= MAX)%Z
  /\ (forall p, initialized_langfuse_clients after = MAX ->
                safe_init_langfuse_client sdk env p after
                = (Raise max_clients_reached, after))
  /\ ((forall p b, is_ok (fst (sdk_Langfuse sdk p b)) = true) ->
      initialized_langfuse_clients after = Z.min (Z.of_nat (length ps)) MAX
      /\ forall i r,
           nth_error (fst (attempts sdk env ps w)) i = Some r ->
           if (Z.of_nat i <? MAX)%Z then is_ok r = true
           else r = Raise max_clients_reached).
Proof.
  intros Hmax H0 MAX after. split; [|split].
  - apply CapFacts.never_above. lia.
  - intros p E. apply CapFacts.full. fold MAX. lia.
  - intros Hsdk.
    destruct (CapFacts.with_a_working_sdk sdk env ps Hsdk w) as [H1 H2];
      [lia|].
    rewrite H0 in *. simpl in *. split; [exact H1|].
    intros i r Hr. exact (H2 i r Hr).
Qed.

Lemma client_creation_is_capped_witness :
  let run := attempts Demo.working (Demo.env_at "2.7.3") [[]; []; []]
                      Demo.fresh in
  initialized_langfuse_clients (snd run) = 2%Z
  /\ nth_error (fst run) 2 = Some (Raise max_clients_reached).
Proof.
  pose proof (client_creation_is_capped
                Demo.working (Demo.env_at "2.7.3") Demo.fresh [[]; []; []]
                (proj1 (Z.leb_le 0 2) eq_refl) eq_refl) as H.
  destruct H as (_ & _ & H).
  destruct (H (fun _ _ => eq_refl)) as [Hcount Hnth].
  split; [exact Hcount|].
  specialize (Hnth 2%nat (Raise max_clients_reached) eq_refl).
  reflexivity.
Defined.

(** ** Input and output of the event *)

(** C3, as stated: the extraction follows the table of section 4.2. It
    does not on a chat completion logged with the call type [embedding]:
    the table's rule for embeddings looks at the response variant, the
    code also at the call type, and returns no output. *)
Lemma embedding_call_type_shadows_the_table :
  ~ Table.follows
      (_get_langfuse_input_output_content
         Demo.embedding_record Demo.chat_response (VStr "prompt")
         "DEFAULT" VNone)
      (Table.extract
         Demo.embedding_record Demo.chat_response (VStr "prompt")
         "DEFAULT" VNone).
Proof.
  unfold Table.follows. vm_compute. intros [H _]. discriminate.
Qed.

(** C3, amended. The rule for embeddings applies when the response is an
    embedding or, whatever the non-null response, when the call type is
    [embedding]: then the result is (prompt, None), unless the rule for an
    error with a status message applies first. On every other record and
    response the extraction follows the table, first match winning: error
    with status message, embedding, chat completion, speech, text
    completion, image, transcription, rerank, realtime list, pass-through,
    and (None, None) for the rest. *)
Theorem input_output_extraction
        (kwargs : dict) (response : Response) (prompt : value)
        (level : string) (status_message : value) :
  let io := _get_langfuse_input_output_content
              kwargs response prompt level status_message in
  let error_first := String.eqb level "ERROR" && is_str status_message in
  let by_call_type :=
    eq_str (Dict.get_default "call_type" VNone kwargs) "embedding"
    && is_not_None response in
  (error_first = true -> io = (prompt, status_message))
  /\ (error_first = false -> by_call_type = true -> io = (prompt, VNone))
  /\ (error_first = true \/ by_call_type = false ->
      Table.follows io (Table.extract kwargs response prompt level
                                      status_message)).
Proof.
  unfold _get_langfuse_input_output_content, Table.extract, Table.follows.
  destruct (String.eqb level "ERROR");
    destruct status_message; simpl;
    destruct (Dict.get_default "call_type" VNone kwargs) as [| | | |ct| | |];
    simpl;
    try destruct (String.eqb ct "embedding") eqn:E1;
    try destruct (String.eqb ct "_arealtime") eqn:E2;
    try destruct (String.eqb ct "pass_through_endpoint") eqn:E3;
    destruct response
      as [|rd|rl|ra|ra [|c0 cs]|ra [|t0 ts]|ra [dat|]|ra [txt|]|ra res|];
    simpl; repeat split; intros; try discriminate; try reflexivity;
    try (destruct H; discriminate).
Qed.

Lemma input_output_extraction_witness :
  _get_langfuse_input_output_content
    Demo.embedding_record Demo.chat_response (VStr "prompt") "DEFAULT" VNone
  = (VStr "prompt", VNone)
  /\ Table.follows
       (_get_langfuse_input_output_content
          (Demo.record "completion" []) Demo.chat_response (VStr "prompt")
          "DEFAULT" VNone)
       (Table.extract
          (Demo.record "completion" []) Demo.chat_response (VStr "prompt")
          "DEFAULT" VNone).
Proof.
  split.
  - exact (proj1 (proj2 (input_output_extraction
                           Demo.embedding_record Demo.chat_response
                           (VStr "prompt") "DEFAULT" VNone))
                 eq_refl eq_refl).
  - exact (proj2 (proj2 (input_output_extraction
                           (Demo.record "completion" []) Demo.chat_response
                           (VStr "prompt") "DEFAULT" VNone))
                 (or_intror eq_refl)).
Defined.

(** ** Runs in the monad *)

Module RunFacts.

Lemma new_calls_app {B} (w w' : World B) new :
  calls w' = calls w ++ new -> new_calls w w' = new.
Proof.
  intros E. unfold new_calls. rewrite E.
  rewrite skipn_app, skipn_all, Nat.sub_diag. reflexivity.
Qed.

Lemma sdk_call_run {B A} (op : B -> result A * B) entry w r w' :
  sdk_call op entry w = (r, w') ->
  calls w' = calls w ++ [entry (is_ok r)].
Proof.
  unfold sdk_call. destruct (op (backend w)) as [r0 b].
  intros E. inversion E; subst. reflexivity.
Qed.

Lemma side_ret {B A} (a : A) : side_run (@ret B A a).
Proof.
  intros w r w' E. inversion E; subst. exists []. rewrite app_nil_r. auto.
Qed.

Lemma side_lift {B A} (x : result A) : side_run (@lift B A x).
Proof.
  intros w r w' E. inversion E; subst. exists []. rewrite app_nil_r. auto.
Qed.

Lemma side_bind {B A C} (m : M B A) (k : A -> M B C) :
  side_run m -> (forall a, side_run (k a)) -> side_run (bind m k).
Proof.
  intros Hm Hk w r w' E. unfold bind in E.
  destruct (m w) as [[a|e] w1] eqn:Em.
  - destruct (Hm _ _ _ Em) as (n1 & E1 & S1 & F1).
    destruct (Hk a _ _ _ E) as (n2 & E2 & S2 & F2).
    exists (n1 ++ n2). rewrite E2, E1, app_assoc. split; [reflexivity|].
    rewrite forallb_app, existsb_app, S1, S2. split; [reflexivity|].
    intros Hr. rewrite F1, F2; auto.
  - inversion E; subst.
    destruct (Hm _ _ _ Em) as (n1 & E1 & S1 & F1).
    exists n1. split; [exact E1|]. split; [exact S1|]. discriminate.
Qed.

Lemma side_for_each {B X} (body : X -> M B unit) xs :
  (forall x, side_run (body x)) -> side_run (for_each body xs).
Proof.
  intros Hb. induction xs as [|x xs IH]; simpl.
  - apply side_ret.
  - apply side_bind; auto.
Qed.

Lemma side_sdk_call {B A} (op : B -> result A * B) (entry : bool -> Call) :
  (forall ok, side_call (entry ok) = true) ->
  (forall ok, creation_failed (entry ok) = negb ok) ->
  side_run (sdk_call op entry).
Proof.
  intros Hs Hf w r w' E. apply sdk_call_run in E.
  exists [entry (is_ok r)]. split; [exact E|]. simpl.
  rewrite Hs, Hf. split; [reflexivity|]. intros ->. reflexivity.
Qed.

Section Spans.

Context {B : Type} (sdk : Sdk B).

Lemma side_span tr p : side_run (span sdk tr p).
Proof. apply side_sdk_call; reflexivity. Qed.

Lemma side_provider tr cm :
  side_run (log_provider_specific_information_as_span sdk tr cm).
Proof.
  unfold log_provider_specific_information_as_span.
  destruct (is_none _); [apply side_ret|].
  apply side_bind; [apply side_lift|]. intros v.
  destruct (is_none v); [apply side_ret|].
  destruct v; try (apply side_bind; [apply side_span | intros; apply side_ret]).
  apply side_for_each. intros elem.
  destruct elem;
    try (apply side_bind; [apply side_span | intros; apply side_ret]).
  apply side_for_each. intros kv.
  apply side_bind; [apply side_span | intros; apply side_ret].
Qed.

Lemma side_guardrail tr slo :
  side_run (_log_guardrail_information_as_span sdk tr slo).
Proof.
  unfold _log_guardrail_information_as_span.
  destruct (is_none slo); [apply side_ret|].
  apply side_bind; [apply side_lift|]. intros g.
  destruct (is_none g); [apply side_ret|].
  apply side_bind; [apply side_lift|]. intros p.
  apply side_bind; [apply side_span|]. intros s.
  apply side_sdk_call; reflexivity.
Qed.

End Spans.

End RunFacts.

(** ** The prompt of a generation *)

Module PromptFacts.

Section Prompt.

Context {B : Type} (sdk : Sdk B) (env : Env).

Ltac finish_quiet :=
  match goal with
  | E : (_, ?w) = (_, ?w') |- _ =>
      inversion E; subst; clear E; exists []; rewrite app_nil_r;
      repeat split; auto;
      try (intros ? Hok; inversion Hok; subst; clear Hok; intros;
           try reflexivity;
           apply DictFacts.get_set_neq; congruence)
  end.

(** Only [get_prompt] is called, and only the entry [prompt] of the
    generation parameters may change. *)
Lemma prompt_run gp cm pmm w r w' :
  _add_prompt_to_generation_params sdk env gp cm pmm w = (r, w') ->
  exists new,
    calls w' = calls w ++ new
    /\ forallb side_call new = true
    /\ existsb creation_failed new = false
    /\ (forall gp1, r = Ok gp1 ->
                    forall k, k <> "prompt" ->
                              Dict.get k gp1 = Dict.get k gp).
Proof.
  unfold _add_prompt_to_generation_params.
  destruct (Dict.pop "prompt" VNone cm) as [user_prompt cm'].
  destruct (is_none user_prompt && is_none pmm).
  { intros E. unfold ret in E. finish_quiet. }
  assert (Hother :
    forall w r w',
      (if is_none pmm
       then ret (Dict.set "prompt" user_prompt gp)
       else
         integration <- lift (Py.item pmm "prompt_integration") ;;
         if eq_str integration "langfuse"
         then
           try_except
             (prompt_id <- lift (Py.item pmm "prompt_id") ;;
              p <- get_prompt sdk prompt_id ;;
              ret (Dict.set "prompt" p gp))
             (fun _ => ret gp)
         else ret (Dict.set "prompt" user_prompt gp)) w = (r, w') ->
      exists new,
        calls w' = calls w ++ new
        /\ forallb side_call new = true
        /\ existsb creation_failed new = false
        /\ (forall gp1, r = Ok gp1 ->
                        forall k, k <> "prompt" ->
                                  Dict.get k gp1 = Dict.get k gp)).
  { clear w r w'. intros w r w'.
    destruct (is_none pmm).
    { intros E. unfold ret in E. finish_quiet. }
    unfold bind, lift, try_except, ret, get_prompt.
    destruct (Py.item pmm "prompt_integration") as [integration|e].
    2:{ intros E. finish_quiet. }
    destruct (eq_str integration "langfuse").
    2:{ intros E. finish_quiet. }
    destruct (Py.item pmm "prompt_id") as [prompt_id|e].
    2:{ intros E. finish_quiet. }
    destruct (sdk_call (sdk_get_prompt sdk prompt_id)
                       (Call_get_prompt prompt_id) w) as [rp wp] eqn:Ep.
    apply RunFacts.sdk_call_run in Ep.
    intros E. exists [Call_get_prompt prompt_id (is_ok rp)].
    destruct rp as [p|e]; inversion E; subst; clear E;
      (split; [exact Ep|]); repeat split; auto;
      intros ? Hok; inversion Hok; subst; intros; try reflexivity;
      apply DictFacts.get_set_neq; congruence. }
  destruct user_prompt as [| | | | | |up|]; try exact (Hother w r w').
  unfold bind, lift, ret.
  destruct (eq_str (Dict.get_default "type" (VStr "") up) "chat").
  { destruct (chat_prompt_client env up); intros E; finish_quiet. }
  destruct (eq_str (Dict.get_default "type" (VStr "") up) "text").
  { destruct (text_prompt_client env up); intros E; finish_quiet. }
  destruct (Dict.mem "version" up && Dict.mem "prompt" up).
  2:{ intros E. finish_quiet. }
  destruct (Dict.get_default "prompt" VNone up);
    try (intros E; finish_quiet; fail).
  - destruct (prompt_data up (prompt_text_has_labels_tags env));
      [|intros E; finish_quiet].
    destruct (text_prompt_client env a); intros E; finish_quiet.
  - destruct (prompt_data up (prompt_chat_has_labels_tags env));
      [|intros E; finish_quiet].
    destruct (chat_prompt_client env a); intros E; finish_quiet.
Qed.

End Prompt.

End PromptFacts.

(** ** The calls of [_log_langfuse_v2] *)

Module V2Facts.

Section V2.

Context {B : Type} (sdk : Sdk B) (env : Env) (self : LangFuseLogger).

(** The part after the trace: side calls, then at most one generation,
    whose parameters are the built ones up to the prompt, the status
    message and the completion start time. *)
Lemma generation_run
      l kwargs clean_metadata optional_params input output start_time
      end_time cost response_obj level tr w r w' :
  log_generation sdk env self l kwargs clean_metadata optional_params
    input output start_time end_time cost response_obj level tr w
  = (r, w') ->
  exists new,
    calls w' = calls w ++ new
    /\ (is_ok r = true -> existsb creation_failed new = false)
    /\ (forallb side_call new = true
        \/ exists side gp0 cm1 gid gp1 ws okg,
            new = side
                  ++ [Call_generation
                        (with_completion_start_time ws kwargs
                           (with_status_message output level gp1))
                        okg]
            /\ forallb side_call side = true
            /\ build_generation_params env self l kwargs clean_metadata
                 optional_params input output start_time end_time cost
                 response_obj level
               = Ok (gp0, cm1, gid)
            /\ (forall k, k <> "prompt" ->
                          Dict.get k gp1 = Dict.get k gp0)).
Proof.
  intros E. unfold log_generation in E.
  unfold bind at 1 in E.
  destruct (log_provider_specific_information_as_span sdk tr clean_metadata w)
    as [r1 w1] eqn:E1.
  apply RunFacts.side_provider in E1 as (n1 & C1 & S1 & F1).
  destruct r1 as [[]|e1].
  2:{ inversion E; subst. exists n1. split; [exact C1|].
      split; [discriminate|]. now left. }
  unfold bind at 1 in E.
  destruct (_log_guardrail_information_as_span sdk tr
              (Locals.standard_logging_object l) w1) as [r2 w2] eqn:E2.
  apply RunFacts.side_guardrail in E2 as (n2 & C2 & S2 & F2).
  assert (C12 : calls w2 = calls w ++ (n1 ++ n2))
    by (rewrite C2, C1, app_assoc; reflexivity).
  assert (S12 : forallb side_call (n1 ++ n2) = true)
    by (rewrite forallb_app, S1, S2; reflexivity).
  destruct r2 as [[]|e2].
  2:{ inversion E; subst. exists (n1 ++ n2). split; [exact C12|].
      split; [discriminate|]. now left. }
  assert (F12 : existsb creation_failed (n1 ++ n2) = false)
    by (rewrite existsb_app, F1, F2; auto).
  clear C1 C2 S1 S2 F1 F2.
  unfold bind at 1 in E. unfold lift at 1 in E.
  destruct (build_generation_params env self l kwargs clean_metadata
              optional_params input output start_time end_time cost
              response_obj level) as [[[gp0 cm1] gid]|e] eqn:Hg.
  2:{ inversion E; subst. exists (n1 ++ n2). split; [exact C12|].
      split; [discriminate|]. now left. }
  unfold bind at 1 in E. unfold lift at 1 in E.
  destruct (_supports_prompt self) as [with_prompt|e].
  2:{ inversion E; subst. exists (n1 ++ n2). split; [exact C12|].
      split; [discriminate|]. now left. }
  unfold bind at 1 in E.
  destruct ((if with_prompt
             then _add_prompt_to_generation_params sdk env gp0 cm1
                    (Locals.prompt_management_metadata l)
             else ret gp0) w2) as [r3 w3] eqn:E3.
  assert (H3 : exists n3,
             calls w3 = calls w2 ++ n3
             /\ forallb side_call n3 = true
             /\ existsb creation_failed n3 = false
             /\ (forall gp1, r3 = Ok gp1 ->
                             forall k, k <> "prompt" ->
                                       Dict.get k gp1 = Dict.get k gp0)).
  { destruct with_prompt.
    - exact (PromptFacts.prompt_run sdk env _ _ _ _ _ _ E3).
    - inversion E3; subst. exists []. rewrite app_nil_r.
      repeat split; auto. intros ? Hok. inversion Hok; subst. auto. }
  destruct H3 as (n3 & C3 & S3 & F3 & K3).
  assert (C123 : calls w3 = calls w ++ ((n1 ++ n2) ++ n3))
    by (rewrite C3, C12, !app_assoc; reflexivity).
  assert (S123 : forallb side_call ((n1 ++ n2) ++ n3) = true)
    by (rewrite forallb_app, S12, S3; reflexivity).
  assert (F123 : existsb creation_failed ((n1 ++ n2) ++ n3) = false)
    by (rewrite existsb_app, F12, F3; reflexivity).
  clear E3 C3 C12 S3 S12 F3 F12.
  destruct r3 as [gp1|e3].
  2:{ inversion E; subst. exists ((n1 ++ n2) ++ n3). split; [exact C123|].
      split; [discriminate|]. now left. }
  unfold bind at 1 in E. unfold lift at 1 in E.
  destruct (_supports_completion_start_time self) as [ws|e].
  2:{ inversion E; subst. exists ((n1 ++ n2) ++ n3). split; [exact C123|].
      split; [discriminate|]. now left. }
  unfold bind at 1 in E. unfold generation in E.
  match type of E with
  | context [sdk_call ?op ?entry w3] =>
      destruct (sdk_call op entry w3) as [r4 w4] eqn:E4
  end.
  apply RunFacts.sdk_call_run in E4.
  assert (Ew : w' = w4 /\ is_ok r = is_ok r4)
    by (destruct r4; inversion E; subst; auto).
  destruct Ew as [-> Hok].
  exists (((n1 ++ n2) ++ n3)
          ++ [Call_generation
                (with_completion_start_time ws kwargs
                   (with_status_message output level gp1))
                (is_ok r4)]).
  split; [rewrite E4, C123, !app_assoc; reflexivity|].
  split.
  - intros Hr. rewrite existsb_app, F123. simpl.
    rewrite <- Hok, Hr. reflexivity.
  - right. exists ((n1 ++ n2) ++ n3), gp0, cm1, gid, gp1, ws, (is_ok r4).
    repeat split; auto.
Qed.

(** The calls of one run of [_log_langfuse_v2]: none, or the trace
    built from the event followed by the calls of [log_generation].
    The run never raises, and answers (None, None) as soon as a
    creation failed. *)
Lemma v2_run
      user_id metadata litellm_params output start_time end_time
      kwargs optional_params input response_obj level litellm_call_id
      w r w' :
  _log_langfuse_v2 sdk env self user_id metadata litellm_params output
    start_time end_time kwargs optional_params input response_obj level
    litellm_call_id w = (r, w') ->
  exists new,
    calls w' = calls w ++ new
    /\ (exists t g, r = Ok (t, g))
    /\ (existsb creation_failed new = true -> r = Ok (VNone, VNone))
    /\ (new = []
        \/ exists l tp0 cm0 kw tp cm cost ok rest,
            prepare env self metadata kwargs litellm_call_id = Ok l
            /\ build_trace_params env l kwargs input output level
               = Ok (tp0, cm0)
            /\ finish_trace_params env self l kwargs litellm_params
                                   tp0 cm0
               = Ok (kw, tp, cm, cost)
            /\ new = Call_trace tp ok :: rest
            /\ (forallb side_call rest = true
                \/ exists side gp0 cm1 gid gp1 ws okg,
                    rest = side
                           ++ [Call_generation
                                 (with_completion_start_time ws kw
                                    (with_status_message output level
                                                         gp1))
                                 okg]
                    /\ forallb side_call side = true
                    /\ build_generation_params env self l kw cm
                         optional_params input output start_time
                         end_time cost response_obj level
                       = Ok (gp0, cm1, gid)
                    /\ (forall k, k <> "prompt" ->
                                  Dict.get k gp1 = Dict.get k gp0))).
Proof.
  intros E. unfold _log_langfuse_v2, try_except in E.
  assert (Quiet : forall e : exn,
             ret (B := B) (VNone, VNone) w = (r, w') ->
             exists new,
               calls w' = calls w ++ new
               /\ (exists t g, r = Ok (t, g))
               /\ (existsb creation_failed new = true ->
                   r = Ok (VNone, VNone))
               /\ (new = [] \/ False)).
  { intros _ E0. inversion E0; subst. exists []. rewrite app_nil_r.
    repeat split; eauto. }
  unfold bind at 1 in E. unfold lift at 1 in E.
  destruct (prepare env self metadata kwargs litellm_call_id)
    as [l|e] eqn:Hp.
  2:{ destruct (Quiet e E) as (new & C & R & F & [N|[]]).
      exists new. repeat split; auto. }
  unfold bind at 1 in E. unfold lift at 1 in E.
  destruct (build_trace_params env l kwargs input output level)
    as [[tp0 cm0]|e] eqn:Hb.
  2:{ destruct (Quiet e E) as (new & C & R & F & [N|[]]).
      exists new. repeat split; auto. }
  unfold bind at 1 in E. unfold lift at 1 in E.
  destruct (finish_trace_params env self l kwargs litellm_params tp0 cm0)
    as [[[[kw tp] cm] cost]|e] eqn:Hf.
  2:{ destruct (Quiet e E) as (new & C & R & F & [N|[]]).
      exists new. repeat split; auto. }
  clear Quiet.
  unfold bind at 1 in E. unfold trace in E.
  destruct (sdk_call (sdk_trace sdk tp) (Call_trace tp) w)
    as [r1 w1] eqn:E1.
  apply RunFacts.sdk_call_run in E1.
  destruct r1 as [tr|e1].
  - destruct (log_generation sdk env self l kw cm optional_params input
                output start_time end_time cost response_obj level tr w1)
      as [r2 w2] eqn:E2.
    apply generation_run in E2 as (n2 & C2 & F2 & G2).
    exists (Call_trace tp true :: n2).
    assert (Ew : w' = w2) by (destruct r2; inversion E; auto).
    subst w'.
    split; [rewrite C2, E1, <- app_assoc; reflexivity|].
    split; [destruct r2 as [[t g]|e2]; inversion E; eauto|].
    split.
    + simpl. intros Hfail. destruct r2 as [[t g]|e2]; inversion E; subst;
        [|reflexivity].
      rewrite F2 in Hfail by reflexivity. discriminate.
    + right. exists l, tp0, cm0, kw, tp, cm, cost, true, n2.
      repeat split; auto.
  - inversion E; subst. exists [Call_trace tp false].
    split; [exact E1|]. split; [eauto|]. split; [reflexivity|].
    right. exists l, tp0, cm0, kw, tp, cm, cost, false, [].
    repeat split; auto.
Qed.

End V2.

End V2Facts.

(** ** The logging call never raises *)

(** C1. For every call record, response, level and status message, and
    whatever the SDK does, [log_event_on_langfuse] returns the pair of
    identifiers [trace_id], [generation_id] and does not raise; if the
    creation of a trace, a span or a generation failed during the call,
    both identifiers are None. *)
Theorem log_event_never_raises
        {B : Type} (sdk : Sdk B) (env : Env) (self : LangFuseLogger)
        (kwargs : dict) (response_obj : Response)
        (start_time end_time user_id : value) (level : string)
        (status_message : value) (w : World B) :
  exists trace_id generation_id w',
    log_event_on_langfuse sdk env self kwargs response_obj start_time
      end_time user_id level status_message w
    = (Ok (ids trace_id generation_id), w')
    /\ (existsb creation_failed (new_calls w w') = true ->
        trace_id = VNone /\ generation_id = VNone).
Proof.
  unfold log_event_on_langfuse, try_except.
  match goal with
  | |- context [let (r, w') := ?body w in _] =>
      destruct (body w) as [rb wb] eqn:E
  end.
  destruct rb as [d|e].
  2:{ exists VNone, VNone, wb. split; [reflexivity | auto]. }
  unfold bind at 1 in E. unfold lift at 1 in E.
  destruct (Py.get _ "metadata" _) as [md|?]; [|discriminate].
  unfold bind at 1 in E. unfold lift at 1 in E.
  destruct (add_metadata_from_header _ _) as [metadata|?]; [|discriminate].
  unfold bind at 1 in E. unfold lift at 1 in E.
  destruct (Py.as_dict _) as [optional_params|?]; [|discriminate].
  destruct (Dict.pop "functions" VNone optional_params) as [functions op1].
  destruct (Dict.pop "tools" VNone op1) as [tools op2].
  destruct (_get_langfuse_input_output_content _ _ _ _ _) as [input output].
  unfold bind at 1 in E. unfold lift at 1 in E.
  destruct (_is_langfuse_v2 env) as [v2|?]; [|discriminate].
  unfold bind at 1 in E.
  destruct v2.
  - match type of E with
    | context [_log_langfuse_v2 ?a ?b ?c ?d ?e ?f ?g ?h ?i ?j ?k ?l ?m ?n ?o w] =>
        destruct (_log_langfuse_v2 a b c d e f g h i j k l m n o w)
          as [r2 w2] eqn:E2
    end.
    apply V2Facts.v2_run in E2 as (new & C & (t & g & ->) & F & _).
    unfold ret in E. inversion E; subst.
    exists t, g, wb. split; [reflexivity|].
    rewrite (RunFacts.new_calls_app _ _ _ C). intros Hfail.
    specialize (F Hfail). inversion F. auto.
  - destruct (is_not_None response_obj).
    + unfold bind at 1 in E.
      destruct (_log_langfuse_v1 _ _ _ _ _ _ _ _ _ _ w) as [[[]|?] w1];
        [|discriminate].
      unfold ret in E. inversion E; subst.
      exists VNone, VNone, wb. auto.
    + unfold ret in E. inversion E; subst.
      exists VNone, VNone, wb. auto.
Qed.

(** ** The parameters built for a trace and a generation *)

Module BuildFacts.

Ltac other_key :=
  repeat (rewrite DictFacts.get_set_neq by (discriminate || congruence)).

Lemma pop_keys_get ks : forall d x,
  Dict.get x (pop_keys ks d) = if in_dec string_dec x ks then None
                               else Dict.get x d.
Proof.
  induction ks as [|k ks IH]; intros d x; simpl; auto.
  unfold pop_keys in *. simpl. rewrite IH.
  destruct (in_dec string_dec x ks) as [Hin|Hout].
  - destruct (string_dec k x); reflexivity.
  - destruct (string_dec k x) as [->|N].
    + apply DictFacts.get_remove_eq.
    + apply DictFacts.get_remove_neq. exact N.
Qed.

Lemma in_trace_keys k d :
  In k (trace_keys d) <->
  In k (Dict.keys d) /\ PyStr.startswith "trace_" k = true.
Proof. unfold trace_keys. apply filter_In. Qed.

(** After the trace keys are popped no key of the metadata starts with
    [trace_]. *)
Lemma no_trace_key_left d k :
  PyStr.startswith "trace_" k = true ->
  Dict.get k (pop_keys (trace_keys d) d) = None.
Proof.
  intros Hp. rewrite pop_keys_get.
  destruct (in_dec string_dec k (trace_keys d)) as [Hin|Hout]; auto.
  apply DictFacts.get_none_not_key. intros Hk. apply Hout.
  apply in_trace_keys. auto.
Qed.

(** The lifting of the [trace_] keys leaves alone every parameter that
    no key is lifted onto. *)
Lemma lift_fold_get ks : forall tp cm x,
  (forall k, In k ks -> strip_trace k <> x) ->
  Dict.get x (fst (fold_left lift_step ks (tp, cm))) = Dict.get x tp.
Proof.
  induction ks as [|k ks IH]; intros tp cm x H; simpl; auto.
  rewrite IH by (intros; apply H; now right).
  apply DictFacts.get_set_neq. apply H. now left.
Qed.

Lemma lift_fold_metadata ks : forall tp cm,
  snd (fold_left lift_step ks (tp, cm)) = pop_keys ks cm.
Proof.
  induction ks as [|k ks IH]; intros tp cm; simpl; auto.
Qed.

Section New.

Context (l : Locals.t) (trace_name input output : value) (level : string).

Local Abbreviation built :=
  (new_trace_params l trace_name input output level).

Local Abbreviation no_lift_onto x :=
  (forall k, In k (Dict.keys (Locals.clean_metadata l)) ->
             PyStr.startswith "trace_" k = true -> strip_trace k <> x).

Lemma trace_keys_after_version k :
  In k (trace_keys (Dict.remove "trace_version" (Locals.clean_metadata l)))
  -> In k (Dict.keys (Locals.clean_metadata l))
     /\ PyStr.startswith "trace_" k = true.
Proof.
  intros H. apply in_trace_keys in H as [H1 H2].
  apply DictFacts.keys_remove in H1 as [_ H1]. auto.
Qed.

Lemma new_input :
  no_lift_onto "input" ->
  Dict.get "input" (fst built)
  = Some (masked (Locals.mask_input l) input).
Proof.
  intros H. unfold new_trace_params, Dict.pop.
  destruct (fold_left lift_step _ _) as [tp cm] eqn:E.
  assert (Hin : Dict.get "input" tp
                = Some (masked (Locals.mask_input l) input)).
  { change tp with (fst (tp, cm)). rewrite <- E.
    rewrite lift_fold_get; [reflexivity|].
    intros k Hk. apply trace_keys_after_version in Hk as [H1 H2]. auto. }
  destruct (String.eqb level "ERROR"); simpl; other_key; exact Hin.
Qed.

Lemma new_error :
  String.eqb level "ERROR" = true ->
  Dict.get "status_message" (fst built) = Some output
  /\ (no_lift_onto "output" -> Dict.get "output" (fst built) = None).
Proof.
  intros Hl. unfold new_trace_params, Dict.pop.
  destruct (fold_left lift_step _ _) as [tp cm] eqn:E.
  rewrite Hl. simpl. split; [apply DictFacts.get_set_eq|].
  intros H. other_key.
  change tp with (fst (tp, cm)). rewrite <- E.
  rewrite lift_fold_get; [reflexivity|].
  intros k Hk. apply trace_keys_after_version in Hk as [H1 H2]. auto.
Qed.

Lemma new_default :
  String.eqb level "ERROR" = false ->
  Dict.get "output" (fst built)
  = Some (masked (Locals.mask_output l) output)
  /\ (no_lift_onto "status_message" ->
      Dict.get "status_message" (fst built) = None).
Proof.
  intros Hl. unfold new_trace_params, Dict.pop.
  destruct (fold_left lift_step _ _) as [tp cm] eqn:E.
  rewrite Hl. simpl. split; [apply DictFacts.get_set_eq|].
  intros H. other_key.
  change tp with (fst (tp, cm)). rewrite <- E.
  rewrite lift_fold_get; [reflexivity|].
  intros k Hk. apply trace_keys_after_version in Hk as [H1 H2]. auto.
Qed.

End New.

(** *** The patch of an existing trace *)


Lemma update_keeps_absent tp cm v tp' cm' k :
  update_step (tp, cm) v = Ok (tp', cm') ->
  Dict.get k cm = None -> Dict.get k cm' = None.
Proof.
  unfold update_step, Dict.pop. destruct v; try discriminate.
  intros E H.
  assert (Hr : Dict.get k (Dict.remove s cm) = None).
  { destruct (string_dec s k) as [->|N].
    - apply DictFacts.get_remove_eq.
    - rewrite DictFacts.get_remove_neq; assumption. }
  destruct (negb (Dict.mem _ tp));
    [destruct (negb (is_none _))|]; inversion E; subst; assumption.
Qed.

Lemma update_step_keys tp cm v tp' cm' x :
  update_step (tp, cm) v = Ok (tp', cm') ->
  In x (Dict.keys tp') ->
  In x (Dict.keys tp) \/ exists k, v = VStr k /\ strip_trace k = x.
Proof.
  unfold update_step, Dict.pop. destruct v; try discriminate.
  intros E H.
  destruct (negb (Dict.mem _ tp));
    [destruct (negb (is_none _))|]; inversion E; subst; auto.
  apply DictFacts.keys_set in H as [->|H]; eauto.
Qed.

Lemma update_fold_keys ks : forall tp cm tp' cm' x,
  rfold update_step ks (tp, cm) = Ok (tp', cm') ->
  In x (Dict.keys tp') ->
  In x (Dict.keys tp) \/ exists k, In (VStr k) ks /\ strip_trace k = x.
Proof.
  induction ks as [|v ks IH]; intros tp cm tp' cm' x E H;
    cbn [rfold] in E.
  - inversion E; subst. auto.
  - destruct (update_step (tp, cm) v) as [[tp1 cm1]|e] eqn:E1;
      [|discriminate].
    cbn [rbind] in E. destruct (IH _ _ _ _ _ E H) as [H1|(k & Hk & Hs)].
    + destruct (update_step_keys _ _ _ _ _ _ E1 H1) as [H2|(k & -> & Hs)];
        auto.
      right. exists k. split; auto. now left.
    + right. exists k. split; auto. now right.
Qed.


Lemma contains_list_in x ks :
  Py.contains x (VList ks) = Ok true -> In (VStr x) ks.
Proof.
  simpl. intros E. inversion E as [E']. apply existsb_exists in E'.
  destruct E' as (v & Hin & Hv). destruct v; try discriminate.
  simpl in Hv. apply String.eqb_eq in Hv. now subst.
Qed.


Section Patch.

Context (l : Locals.t) (input output : value) (tp cm : dict).
Hypothesis Built : existing_trace_params l input output = Ok (tp, cm).

Lemma patch_shape :
  exists elems tp1 cm1 has_input has_output,
    Py.iter (Locals.update_trace_keys l) = Ok elems
    /\ rfold update_step elems
             ([("id", Locals.existing_trace_id l)], Locals.clean_metadata l)
       = Ok (tp1, cm1)
    /\ Py.contains "input" (Locals.update_trace_keys l) = Ok has_input
    /\ Py.contains "output" (Locals.update_trace_keys l) = Ok has_output
    /\ cm = pop_keys (trace_keys cm1) cm1
    /\ tp = (if has_output
             then Dict.set "output" (masked (Locals.mask_output l) output)
             else fun d => d)
              ((if has_input
                then Dict.set "input" (masked (Locals.mask_input l) input)
                else fun d => d) tp1).
Proof.
  unfold existing_trace_params in Built.
  destruct (Py.iter _) as [elems|] eqn:He; [|discriminate].
  cbn [rbind] in Built.
  destruct (rfold update_step elems _) as [[tp1 cm1]|] eqn:Hf;
    [|discriminate].
  cbn [rbind] in Built.
  destruct (Py.contains "input" _) as [hi|] eqn:Hi; [|discriminate].
  cbn [rbind] in Built.
  destruct (Py.contains "output" _) as [ho|] eqn:Ho; [|discriminate].
  cbn [rbind] in Built. inversion Built; subst.
  exists elems, tp1, cm1, hi, ho. repeat split; auto.
  destruct ho, hi; reflexivity.
Qed.

Lemma patch_input :
  Py.contains "input" (Locals.update_trace_keys l) = Ok true ->
  Dict.get "input" tp = Some (masked (Locals.mask_input l) input).
Proof.
  intros H.
  destruct patch_shape as (e & tp1 & cm1 & hi & ho & _ & _ & Hi & _ & _ & ->).
  rewrite H in Hi. inversion Hi; subst.
  destruct ho; other_key; apply DictFacts.get_set_eq.
Qed.

Lemma patch_output :
  Py.contains "output" (Locals.update_trace_keys l) = Ok true ->
  Dict.get "output" tp = Some (masked (Locals.mask_output l) output).
Proof.
  intros H.
  destruct patch_shape as (e & tp1 & cm1 & hi & ho & _ & _ & _ & Ho & _ & ->).
  rewrite H in Ho. inversion Ho; subst.
  apply DictFacts.get_set_eq.
Qed.

Lemma patch_keys ks x :
  Locals.update_trace_keys l = VList ks ->
  In x (Dict.keys tp) ->
  x = "id" \/ exists k, In (VStr k) ks /\ strip_trace k = x.
Proof.
  intros Hks H.
  destruct patch_shape
    as (e & tp1 & cm1 & hi & ho & He & Hf & Hi & Ho & _ & ->).
  rewrite Hks in *. simpl in He. inversion He; subst e.
  assert (H1 : In x (Dict.keys tp1)
               \/ (x = "input" /\ hi = true)
               \/ (x = "output" /\ ho = true)).
  { destruct ho, hi;
      repeat (apply DictFacts.keys_set in H as [->|H]); auto. }
  destruct H1 as [H1|[[-> ->]|[-> ->]]].
  - destruct (update_fold_keys _ _ _ _ _ _ Hf H1) as [[<-|[]]|?]; auto.
  - right. exists "input". split; [now apply contains_list_in|reflexivity].
  - right. exists "output". split; [now apply contains_list_in|reflexivity].
Qed.

Lemma patch_metadata k :
  PyStr.startswith "trace_" k = true -> Dict.get k cm = None.
Proof.
  intros H.
  destruct patch_shape as (e & tp1 & cm1 & hi & ho & _ & _ & _ & _ & -> & _).
  now apply no_trace_key_left.
Qed.

End Patch.

(** *** Debug metadata, tags *)

Lemma debug_facts l tp tp' :
  add_debug_metadata l tp = Ok tp' ->
  (forall x, x <> "metadata" -> Dict.get x tp' = Dict.get x tp)
  /\ (forall x, In x (Dict.keys tp') ->
                In x (Dict.keys tp)
                \/ (x = "metadata" /\ debug_on (Locals.debug l) = true)).
Proof.
  unfold add_debug_metadata.
  destruct (debug_on (Locals.debug l)).
  - destruct (Dict.get "metadata" tp) as [m|].
    + destruct (Py.setitem m _ _) as [m'|]; [|discriminate].
      cbn [rbind]. intros E. inversion E; subst. split.
      * intros x N. apply DictFacts.get_set_neq. congruence.
      * intros x H. apply DictFacts.keys_set in H as [->|H]; auto.
    + intros E. inversion E; subst. split.
      * intros x N. apply DictFacts.get_set_neq. congruence.
      * intros x H. apply DictFacts.keys_set in H as [->|H]; auto.
  - intros E. inversion E; subst. auto.
Qed.

Lemma build_shape env l kwargs input output level tp0 cm0 :
  build_trace_params env l kwargs input output level = Ok (tp0, cm0) ->
  (is_none (Locals.existing_trace_id l) = true ->
   exists name,
     add_debug_metadata
       l (fst (new_trace_params l name input output level)) = Ok tp0
     /\ cm0 = snd (new_trace_params l name input output level))
  /\ (is_none (Locals.existing_trace_id l) = false ->
      exists tp,
        existing_trace_params l input output = Ok (tp, cm0)
        /\ add_debug_metadata l tp = Ok tp0).
Proof.
  unfold build_trace_params. intros E.
  destruct (if is_none (Locals.trace_name l) && _ then _ else _)
    as [name|]; [|discriminate].
  cbn [rbind] in E.
  destruct (is_none (Locals.existing_trace_id l)); cbn [negb rbind] in E.
  - split; [|discriminate]. intros _. exists name.
    destruct (new_trace_params l name input output level) as [tp cm].
    cbn [fst snd].
    destruct (add_debug_metadata l tp) eqn:Ed; [|discriminate].
    inversion E; subst. auto.
  - split; [discriminate|]. intros _.
    destruct (existing_trace_params l input output) as [[tp cm]|] eqn:Ee;
      [|discriminate].
    cbn [rbind] in E.
    destruct (add_debug_metadata l tp) eqn:Ed; [|discriminate].
    inversion E; subst. eauto.
Qed.

Ltac not_prefixed Hp :=
  let E := fresh in
  intros E; first [rewrite <- E in Hp | rewrite E in Hp];
  vm_compute in Hp; discriminate.

Lemma set_if_truthy_get key v d x :
  x <> key -> Dict.get x (set_if_truthy key v d) = Dict.get x d.
Proof.
  intros N. unfold set_if_truthy. destruct (truthy v); auto.
  apply DictFacts.get_set_neq. congruence.
Qed.

Lemma finish_facts env self l kwargs lp tp0 cm0 kw tp cm cost :
  finish_trace_params env self l kwargs lp tp0 cm0 = Ok (kw, tp, cm, cost) ->
  (forall x, x <> "tags" -> Dict.get x tp = Dict.get x tp0)
  /\ (forall x, In x (Dict.keys tp) ->
                In x (Dict.keys tp0)
                \/ (x = "tags"
                    /\ is_none (Locals.existing_trace_id l) = true))
  /\ (forall x, PyStr.startswith "trace_" x = true ->
                Dict.get x cm0 = None -> Dict.get x cm = None).
Proof.
  unfold finish_trace_params. intros E.
  destruct (if negb (is_none (Locals.standard_logging_object l))
            then _ else _) as [cm1|] eqn:E1; [|discriminate].
  cbn [rbind] in E.
  destruct (if in_default_tags env "proxy_base_url" && _ then _ else _)
    as [tags|]; [|discriminate].
  cbn [rbind] in E.
  destruct (Py.get lp "api_base" VNone) as [api_base|]; [|discriminate].
  cbn [rbind] in E.
  destruct (_supports_tags self) as [with_tags|]; [|discriminate].
  cbn [rbind] in E.
  destruct (walk_proxy_server_request lp); [|discriminate].
  cbn [rbind] in E. inversion E; subst; clear E.
  split; [|split].
  - intros x N.
    destruct (with_tags && is_none (Locals.existing_trace_id l)); auto.
    apply DictFacts.get_set_neq. congruence.
  - intros x H.
    destruct with_tags; simpl in H; auto.
    destruct (is_none (Locals.existing_trace_id l)); auto.
    apply DictFacts.keys_set in H as [->|H]; auto.
  - intros x Hp Hx.
    assert (H1 : Dict.get x cm1 = None).
    { destruct (negb (is_none (Locals.standard_logging_object l))).
      - destruct (Py.item _ "hidden_params"); [|discriminate].
        inversion E1; subst.
        rewrite !DictFacts.get_set_neq; auto; not_prefixed Hp.
      - inversion E1; subst.
        rewrite DictFacts.get_set_neq; auto; not_prefixed Hp. }
    assert (H2 : Dict.get x
                   (set_if_truthy "aws_region_name"
                      (Dict.get_default "aws_region_name" VNone kwargs)
                      (set_if_truthy "vertex_location"
                         (Dict.get_default "vertex_location" VNone kwargs)
                         (set_if_truthy "api_base" api_base cm1))) = None).
    { rewrite !set_if_truthy_get; auto; not_prefixed Hp. }
    destruct with_tags; auto.
    destruct (Dict.get "cache_hit" _); auto.
    rewrite DictFacts.get_set_neq; auto. not_prefixed Hp.
Qed.

(** *** The generation *)

Lemma requester_fold items : forall acc rm out x,
  rfold (fun (acc : dict) (kv : string * value) =>
           let? inside := Py.contains (fst kv) rm in
           if negb inside then Ok (Dict.set (fst kv) (snd kv) acc)
           else Ok acc) items acc = Ok out ->
  In x (Dict.keys out) ->
  In x (Dict.keys acc) \/ In x (Dict.keys items).
Proof.
  induction items as [|[k v] items IH]; intros acc rm out x E H;
    cbn [rfold] in E.
  - inversion E; subst. auto.
  - cbn [fst snd] in E.
    destruct (Py.contains k rm) as [inside|]; [|discriminate].
    cbn [rbind] in E.
    destruct (negb inside); cbn [rbind] in E;
      (destruct (IH _ _ _ _ E H) as [H1|H1]; [|right; now right]); auto.
    apply DictFacts.keys_set in H1 as [->|H1]; auto.
    right. now left.
Qed.

Lemma requester_keys cm m x :
  log_requester_metadata cm = Ok m ->
  In x (Dict.keys m) ->
  x = "requester_metadata" \/ In x (Dict.keys cm).
Proof.
  unfold log_requester_metadata. intros E H.
  match type of E with
  | context [rfold ?f cm ?a] => destruct (rfold f cm a) as [out|] eqn:Ef
  end; [|discriminate].
  cbn [rbind] in E. inversion E; subst.
  apply DictFacts.keys_set in H as [->|H]; auto.
  destruct (requester_fold _ _ _ _ _ Ef H) as [[]|H1]; auto.
Qed.

Lemma generation_facts env self l kwargs cm optional_params input output
      start_time end_time cost response_obj level gp0 cm1 gid :
  build_generation_params env self l kwargs cm optional_params input output
    start_time end_time cost response_obj level = Ok (gp0, cm1, gid) ->
  Dict.get "input" gp0 = Some (masked (Locals.mask_input l) input)
  /\ Dict.get "output" gp0 = Some (masked (Locals.mask_output l) output)
  /\ Dict.get "status_message" gp0 = None
  /\ exists m,
      Dict.get "metadata" gp0 = Some (VDict m)
      /\ forall x, PyStr.startswith "trace_" x = true ->
                   Dict.get x cm = None -> Dict.get x m = None.
Proof.
  unfold build_generation_params, Dict.pop. intros E.
  destruct (usage_of self response_obj cost) as [usage|];
    [|discriminate].
  cbn [rbind] in E.
  destruct (if is_none (Dict.get_default "generation_name" VNone cm)
            then _ else _) as [generation_name|]; [|discriminate].
  cbn [rbind] in E.
  destruct (Py.item (VDict kwargs) "model") as [model|]; [|discriminate].
  cbn [rbind] in E.
  destruct (log_requester_metadata _) as [m|] eqn:Em; [|discriminate].
  cbn [rbind] in E.
  destruct (Py.get (Locals.metadata l) "parent_observation_id" VNone)
    as [parent|]; [|discriminate].
  cbn [rbind] in E. inversion E; subst; clear E.
  assert (Hm : forall x, PyStr.startswith "trace_" x = true ->
                         Dict.get x cm = None -> Dict.get x m = None).
  { intros x Hp Hx. apply DictFacts.get_none_not_key. intros Hin.
    destruct (requester_keys _ _ _ Em Hin) as [->|Hk];
      [vm_compute in Hp; discriminate|].
    apply DictFacts.keys_remove in Hk as [_ Hk].
    apply DictFacts.keys_remove in Hk as [_ Hk].
    apply DictFacts.get_none_not_key in Hx. contradiction. }
  destruct (negb (is_none parent)); other_key;
    repeat split; try reflexivity; exists m; split; auto.
Qed.

Lemma final_generation_other ws kw output level gp x :
  x <> "status_message" -> x <> "completion_start_time" ->
  Dict.get x (with_completion_start_time ws kw
                (with_status_message output level gp))
  = Dict.get x gp.
Proof.
  intros N1 N2. unfold with_completion_start_time, with_status_message.
  destruct ws, (negb (is_none output) && is_str output
                && String.eqb level "ERROR"); other_key; reflexivity.
Qed.

Lemma final_generation_status ws kw output level gp :
  is_str output = true -> String.eqb level "ERROR" = true ->
  Dict.get "status_message"
           (with_completion_start_time ws kw
              (with_status_message output level gp))
  = Some output.
Proof.
  intros Hs Hl. unfold with_completion_start_time, with_status_message.
  rewrite Hs, Hl. destruct output; try discriminate. simpl.
  destruct ws; other_key; apply DictFacts.get_set_eq.
Qed.

End BuildFacts.

(** ** What a run submits *)

Module Submitted.

Lemma side_not_trace rest tp ok :
  forallb side_call rest = true -> ~ In (Call_trace tp ok) rest.
Proof.
  intros H Hin. rewrite forallb_forall in H.
  specialize (H _ Hin). discriminate.
Qed.

Lemma side_not_generation rest gp ok :
  forallb side_call rest = true -> ~ In (Call_generation gp ok) rest.
Proof.
  intros H Hin. rewrite forallb_forall in H.
  specialize (H _ Hin). discriminate.
Qed.

Section Run.

Context {B : Type} (sdk : Sdk B) (env : Env) (self : LangFuseLogger).
Context (user_id metadata litellm_params output start_time end_time
           : value)
        (kwargs optional_params : dict) (input : value)
        (response_obj : Response) (level : string)
        (litellm_call_id : value) (w w' : World B)
        (r : result (value * value)).

Hypothesis Run :
  _log_langfuse_v2 sdk env self user_id metadata litellm_params output
    start_time end_time kwargs optional_params input response_obj level
    litellm_call_id w = (r, w').

(** A submitted trace carries the parameters built from the event. *)
Lemma trace tp ok :
  In (Call_trace tp ok) (new_calls w w') ->
  exists l tp0 cm0 kw cm cost,
    prepare env self metadata kwargs litellm_call_id = Ok l
    /\ build_trace_params env l kwargs input output level = Ok (tp0, cm0)
    /\ finish_trace_params env self l kwargs litellm_params tp0 cm0
       = Ok (kw, tp, cm, cost).
Proof.
  destruct (V2Facts.v2_run _ _ _ _ _ _ _ _ _ _ _ _ _ _ _ _ _ _ Run)
    as (new & C & _ & _ & Shape).
  rewrite (RunFacts.new_calls_app _ _ _ C). intros Hin.
  destruct Shape as [->|(l & tp0 & cm0 & kw & tp1 & cm & cost & ok1 & rest
                           & Hp & Hb & Hf & -> & Rest)]; [destruct Hin|].
  destruct Hin as [Heq|Hin].
  - inversion Heq; subst. eauto 10.
  - exfalso. destruct Rest as [S|(side & gp0 & cm1 & gid & gp1 & ws & okg
                                    & -> & S & _)].
    + exact (side_not_trace _ _ _ S Hin).
    + apply in_app_or in Hin as [Hin|[Hin|[]]]; [|discriminate].
      exact (side_not_trace _ _ _ S Hin).
Qed.

(** A submitted generation carries the parameters built from the
    event, up to the prompt, with the status message and the
    completion start time added. *)
Lemma generation gp ok :
  In (Call_generation gp ok) (new_calls w w') ->
  exists l tp0 cm0 kw tp cm cost gp0 cm1 gid gp1 ws,
    prepare env self metadata kwargs litellm_call_id = Ok l
    /\ build_trace_params env l kwargs input output level = Ok (tp0, cm0)
    /\ finish_trace_params env self l kwargs litellm_params tp0 cm0
       = Ok (kw, tp, cm, cost)
    /\ build_generation_params env self l kw cm optional_params input
         output start_time end_time cost response_obj level
       = Ok (gp0, cm1, gid)
    /\ (forall k, k <> "prompt" -> Dict.get k gp1 = Dict.get k gp0)
    /\ gp = with_completion_start_time ws kw
              (with_status_message output level gp1).
Proof.
  destruct (V2Facts.v2_run _ _ _ _ _ _ _ _ _ _ _ _ _ _ _ _ _ _ Run)
    as (new & C & _ & _ & Shape).
  rewrite (RunFacts.new_calls_app _ _ _ C). intros Hin.
  destruct Shape as [->|(l & tp0 & cm0 & kw & tp1 & cm & cost & ok1 & rest
                           & Hp & Hb & Hf & -> & Rest)]; [destruct Hin|].
  destruct Hin as [Heq|Hin]; [discriminate|].
  destruct Rest as [S|(side & gp0 & cm1 & gid & gp1 & ws & okg
                         & -> & S & Hg & Hk)].
  - exfalso. exact (side_not_generation _ _ _ S Hin).
  - apply in_app_or in Hin as [Hin|[Hin|[]]].
    + exfalso. exact (side_not_generation _ _ _ S Hin).
    + inversion Hin; subst.
      exists l, tp0, cm0, kw, tp1, cm, cost, gp0, cm1, gid, gp1, ws.
      repeat split; auto.
Qed.

End Run.

End Submitted.

(** ** From the logging call to [_log_langfuse_v2] *)

Module EntryFacts.

(** With an SDK from 2.0.0 on, a run of [log_event_on_langfuse] that
    submits anything is a run of [_log_langfuse_v2] on the metadata and
    the content computed from the call record. *)
Lemma runs_v2 {B} (sdk : Sdk B) env self kwargs response_obj
      start_time end_time user_id level status_message w r w' :
  _is_langfuse_v2 env = Ok true ->
  log_event_on_langfuse sdk env self kwargs response_obj start_time end_time
    user_id level status_message w = (r, w') ->
  new_calls w w' = []
  \/ exists metadata optional_params input output r2,
      logged_metadata kwargs = Ok metadata
      /\ logged_content kwargs response_obj level status_message
         = Ok (input, output)
      /\ _log_langfuse_v2 sdk env self user_id metadata
           (Dict.get_default "litellm_params" (VDict []) kwargs) output
           start_time end_time kwargs optional_params input response_obj
           level (Dict.get_default "litellm_call_id" VNone kwargs) w
         = (r2, w').
Proof.
  intros Hv2 Run.
  assert (Hnil : forall v : World B, new_calls v v = []).
  { intros v. apply RunFacts.new_calls_app. rewrite app_nil_r. reflexivity. }
  unfold log_event_on_langfuse, try_except, bind, lift, ret in Run.
  rewrite Hv2 in Run.
  unfold logged_metadata, logged_content, logged_prompt.
  destruct (Py.get _ "metadata" (VDict [])) as [md|e];
    [|inversion Run; subst; rewrite Hnil; auto].
  cbn [rbind].
  destruct (add_metadata_from_header _ _) as [metadata|e];
    [|inversion Run; subst; rewrite Hnil; auto].
  destruct (Py.as_dict _) as [optional_params|e];
    [|inversion Run; subst; rewrite Hnil; auto].
  cbn [rbind]. unfold Dict.pop in *.
  destruct (_get_langfuse_input_output_content _ _ _ _ _)
    as [input output] eqn:Hio.
  match type of Run with
  | context [_log_langfuse_v2 ?s ?e ?sf ?u ?m ?lp ?o ?st ?et ?k ?op ?i ?ro
                              ?lv ?cid w] =>
      destruct (_log_langfuse_v2 s e sf u m lp o st et k op i ro lv cid w)
        as [r2 w2] eqn:V2
  end.
  right. eexists metadata, _, input, output, r2.
  split; [reflexivity|]. split; [reflexivity|].
  assert (w' = w2) by (destruct r2 as [[t g]|e]; inversion Run; reflexivity).
  subst w2. exact V2.
Qed.

End EntryFacts.

(** ** Masking *)

Lemma masked_on mask v : truthy mask = true -> masked mask v = redacted.
Proof. intros H. unfold masked. now rewrite H. Qed.

(** C5, as stated: with [mask_input] on, the input of the submitted
    trace is the marker. It is not when the metadata holds [trace_input]:
    a new trace lifts every [trace_] key onto the trace after the input is
    set, and the value of the key replaces the marker. The generation of
    the same call carries the marker. *)
Lemma lifted_input_escapes_masking :
  let run :=
    Demo.log [] (Demo.record "completion"
                   [("mask_input", VBool true); ("trace_input", VStr "raw")])
             Demo.chat_response "DEFAULT" VNone in
  exists tp gp,
    Demo.traces (calls (snd run)) = [tp]
    /\ Demo.generations (calls (snd run)) = [gp]
    /\ Dict.get "input" gp = Some redacted
    /\ Dict.get "input" tp = Some (VStr "raw")
    /\ Dict.get "input" tp <> Some redacted.
Proof.
  vm_compute. do 2 eexists. repeat split; try reflexivity. discriminate.
Qed.

(** C5, amended. For every call logged with an SDK from version 2.0.0
    on (through [_log_langfuse_v2]) whose event has [mask_input] on, the
    input of the submitted generation is the marker
    "redacted-by-litellm", and so is the input of the submitted trace: of
    a new trace when no [trace_] key of the metadata is lifted onto
    [input], of a patch when "input" is among the keys to update; all of
    it whatever the input is. With [mask_output] on the output of the
    generation is the marker, and so is the output of the trace: of a new
    trace when the level is not ERROR (at ERROR a new trace has a status
    message in the place of the output), of a patch when "output" is
    among the keys to update. *)
Theorem masking_forces_marker
        {B : Type} (sdk : Sdk B) (env : Env) (self : LangFuseLogger)
        (kwargs : dict) (response_obj : Response)
        (start_time end_time user_id : value) (level : string)
        (status_message : value) (w w' : World B) (r : result dict)
        (metadata : value) (l : Locals.t) :
  _is_langfuse_v2 env = Ok true ->
  log_event_on_langfuse sdk env self kwargs response_obj start_time end_time
    user_id level status_message w = (r, w') ->
  logged_metadata kwargs = Ok metadata ->
  prepare env self metadata kwargs
          (Dict.get_default "litellm_call_id" VNone kwargs) = Ok l ->
  (truthy (Locals.mask_input l) = true ->
   (forall gp ok, In (Call_generation gp ok) (new_calls w w') ->
                  Dict.get "input" gp = Some redacted)
   /\ (forall tp ok,
         In (Call_trace tp ok) (new_calls w w') ->
         (is_none (Locals.existing_trace_id l) = true ->
          (forall k, In k (Dict.keys (Locals.clean_metadata l)) ->
                     PyStr.startswith "trace_" k = true ->
                     strip_trace k <> "input") ->
          Dict.get "input" tp = Some redacted)
         /\ (is_none (Locals.existing_trace_id l) = false ->
             Py.contains "input" (Locals.update_trace_keys l) = Ok true ->
             Dict.get "input" tp = Some redacted)))
  /\ (truthy (Locals.mask_output l) = true ->
      (forall gp ok, In (Call_generation gp ok) (new_calls w w') ->
                     Dict.get "output" gp = Some redacted)
      /\ (forall tp ok,
            In (Call_trace tp ok) (new_calls w w') ->
            (is_none (Locals.existing_trace_id l) = true ->
             String.eqb level "ERROR" = false ->
             Dict.get "output" tp = Some redacted)
            /\ (is_none (Locals.existing_trace_id l) = false ->
                Py.contains "output" (Locals.update_trace_keys l) = Ok true ->
                Dict.get "output" tp = Some redacted))).
Proof.
  intros Hv2 Entry Hmeta Hl.
  destruct (EntryFacts.runs_v2 _ _ _ _ _ _ _ _ _ _ _ _ _ Hv2 Entry)
    as [Hnil|(metadata' & optional_params & input & output & r2 & Hm & _
              & Run)].
  { rewrite Hnil. split; intros _; split; intros ? ? []. }
  rewrite Hmeta in Hm. inversion Hm; subst metadata'. clear Hm.
  assert (Gen : forall gp ok,
             In (Call_generation gp ok) (new_calls w w') ->
             Dict.get "input" gp = Some (masked (Locals.mask_input l) input)
             /\ Dict.get "output" gp
                = Some (masked (Locals.mask_output l) output)).
  { intros gp ok Hin.
    destruct (Submitted.generation _ _ _ _ _ _ _ _ _ _ _ _ _ _ _ _ _ _
                Run gp ok Hin)
      as (l' & tp0 & cm0 & kw & tp & cm & cost & gp0 & cm1 & gid & gp1 & ws
          & Hp & _ & _ & Hg & Hk & ->).
    rewrite Hl in Hp. inversion Hp; subst l'.
    destruct (BuildFacts.generation_facts _ _ _ _ _ _ _ _ _ _ _ _ _ _ _ _ Hg)
      as (Hi & Ho & _).
    rewrite !BuildFacts.final_generation_other by discriminate.
    rewrite !Hk by discriminate. auto. }
  assert (Tr : forall tp ok,
             In (Call_trace tp ok) (new_calls w w') ->
             exists tp0 cm0,
               build_trace_params env l kwargs input output level
               = Ok (tp0, cm0)
               /\ forall x, x <> "tags" -> Dict.get x tp = Dict.get x tp0).
  { intros tp ok Hin.
    destruct (Submitted.trace _ _ _ _ _ _ _ _ _ _ _ _ _ _ _ _ _ _
                Run tp ok Hin)
      as (l' & tp0 & cm0 & kw & cm & cost & Hp & Hb & Hf).
    rewrite Hl in Hp. inversion Hp; subst l'.
    exists tp0, cm0. split; [exact Hb|].
    exact (proj1 (BuildFacts.finish_facts _ _ _ _ _ _ _ _ _ _ _ Hf)). }
  split; intros Hmask; (split; [intros gp ok Hin|intros tp ok Hin]).
  - rewrite (proj1 (Gen gp ok Hin)). now rewrite masked_on.
  - destruct (Tr tp ok Hin) as (tp0 & cm0 & Hb & Hk).
    rewrite Hk by discriminate.
    destruct (BuildFacts.build_shape _ _ _ _ _ _ _ _ Hb) as [New Patch].
    split.
    + intros Hnew Hlift. destruct (New Hnew) as (name & Hd & _).
      rewrite (proj1 (BuildFacts.debug_facts _ _ _ Hd)) by discriminate.
      rewrite BuildFacts.new_input by exact Hlift. now rewrite masked_on.
    + intros Hold Hin'. destruct (Patch Hold) as (tp1 & He & Hd).
      rewrite (proj1 (BuildFacts.debug_facts _ _ _ Hd)) by discriminate.
      rewrite (BuildFacts.patch_input _ _ _ _ _ He Hin').
      now rewrite masked_on.
  - rewrite (proj2 (Gen gp ok Hin)). now rewrite masked_on.
  - destruct (Tr tp ok Hin) as (tp0 & cm0 & Hb & Hk).
    rewrite Hk by discriminate.
    destruct (BuildFacts.build_shape _ _ _ _ _ _ _ _ Hb) as [New Patch].
    split.
    + intros Hnew Hlevel. destruct (New Hnew) as (name & Hd & _).
      rewrite (proj1 (BuildFacts.debug_facts _ _ _ Hd)) by discriminate.
      rewrite (proj1 (BuildFacts.new_default _ _ _ _ _ Hlevel)).
      now rewrite masked_on.
    + intros Hold Hin'. destruct (Patch Hold) as (tp1 & He & Hd).
      rewrite (proj1 (BuildFacts.debug_facts _ _ _ Hd)) by discriminate.
      rewrite (BuildFacts.patch_output _ _ _ _ _ He Hin').
      now rewrite masked_on.
Qed.

Lemma masking_forces_marker_witness :
  let md := [("mask_input", VBool true); ("mask_output", VBool true)] in
  let run :=
    Demo.log [] (Demo.record "completion" md) Demo.chat_response "DEFAULT"
             VNone in
  exists tp gp,
    In (Call_trace tp true) (new_calls (Demo.world []) (snd run))
    /\ In (Call_generation gp true) (new_calls (Demo.world []) (snd run))
    /\ Dict.get "input" tp = Some redacted
    /\ Dict.get "output" tp = Some redacted
    /\ Dict.get "input" gp = Some redacted
    /\ Dict.get "output" gp = Some redacted.
Proof.
  intros md run.
  exists (hd [] (Demo.traces (calls (snd run)))),
         (hd [] (Demo.generations (calls (snd run)))).
  assert (Hin : In (Call_trace (hd [] (Demo.traces (calls (snd run)))) true)
                   (new_calls (Demo.world []) (snd run)))
    by (vm_compute; left; reflexivity).
  assert (Hgen : In (Call_generation
                       (hd [] (Demo.generations (calls (snd run)))) true)
                    (new_calls (Demo.world []) (snd run)))
    by (vm_compute; right; left; reflexivity).
  split; [exact Hin|]. split; [exact Hgen|].
  pose proof (masking_forces_marker
                Demo.sdk (Demo.env_at "2.7.3") (Demo.self_at "2.7.3")
                (Demo.record "completion" md) Demo.chat_response
                (VStr "t0") (VStr "t1") VNone "DEFAULT" VNone
                (Demo.world []) (snd run) (fst run) (VDict md)
                (Demo.event md)
                eq_refl (surjective_pairing run) eq_refl eq_refl)
    as [Hi Ho].
  split; [|split; [|split]].
  - apply (proj1 (proj2 (Hi eq_refl) _ _ Hin) eq_refl).
    intros k Hk. destruct Hk.
  - apply (proj1 (proj2 (Ho eq_refl) _ _ Hin) eq_refl). reflexivity.
  - exact (proj1 (Hi eq_refl) _ _ Hgen).
  - exact (proj1 (Ho eq_refl) _ _ Hgen).
Defined.

(** ** The trace of an error *)

(** C6, as stated: a new trace has exactly one of [output] and
    [status_message]. It has both when the metadata holds [trace_output]
    and the level is ERROR: the key is lifted onto the trace as [output]
    before the status message is set. *)
Lemma lifted_output_joins_status_message :
  let run :=
    Demo.log [] (Demo.record "completion" [("trace_output", VStr "x")])
             NoResponse "ERROR" (VStr "boom") in
  exists tp,
    Demo.traces (calls (snd run)) = [tp]
    /\ Dict.get "status_message" tp = Some (VStr "boom")
    /\ Dict.get "output" tp = Some (VStr "x").
Proof. vm_compute. eexists. repeat split; reflexivity. Qed.

(** C6, amended. For every new (non-patch) trace submitted for a call
    logged with an SDK from version 2.0.0 on (through
    [_log_langfuse_v2]), provided no [trace_] key of the metadata is
    lifted onto [output] or [status_message], exactly one of the two is
    set: at level ERROR the trace has [status_message], equal to the
    output of the event, and no [output]; at any other level it has
    [output] (the output or the redaction marker) and no
    [status_message]. The output of an event at level ERROR with a
    status message is that message, "boom" for "boom". *)
Theorem new_trace_output_xor_status
        {B : Type} (sdk : Sdk B) (env : Env) (self : LangFuseLogger)
        (kwargs : dict) (response_obj : Response)
        (start_time end_time user_id : value) (level : string)
        (status_message : value) (w w' : World B) (r : result dict)
        (metadata input output : value) (l : Locals.t) :
  _is_langfuse_v2 env = Ok true ->
  log_event_on_langfuse sdk env self kwargs response_obj start_time end_time
    user_id level status_message w = (r, w') ->
  logged_metadata kwargs = Ok metadata ->
  logged_content kwargs response_obj level status_message
  = Ok (input, output) ->
  prepare env self metadata kwargs
          (Dict.get_default "litellm_call_id" VNone kwargs) = Ok l ->
  is_none (Locals.existing_trace_id l) = true ->
  (forall k, In k (Dict.keys (Locals.clean_metadata l)) ->
             PyStr.startswith "trace_" k = true ->
             strip_trace k <> "output" /\ strip_trace k <> "status_message") ->
  (forall tp ok,
     In (Call_trace tp ok) (new_calls w w') ->
     if String.eqb level "ERROR"
     then Dict.get "status_message" tp = Some output
          /\ Dict.get "output" tp = None
     else Dict.get "output" tp = Some (masked (Locals.mask_output l) output)
          /\ Dict.get "status_message" tp = None)
  /\ (forall record response prompt message,
        _get_langfuse_input_output_content
          record response prompt "ERROR" (VStr message)
        = (prompt, VStr message)).
Proof.
  intros Hv2 Entry Hmeta Hcontent Hl Hnew Hlift. split; [|reflexivity].
  intros tp ok Hin.
  destruct (EntryFacts.runs_v2 _ _ _ _ _ _ _ _ _ _ _ _ _ Hv2 Entry)
    as [Hnil|(metadata' & optional_params & input' & output' & r2 & Hm & Hc
              & Run)].
  { rewrite Hnil in Hin. destruct Hin. }
  rewrite Hmeta in Hm. inversion Hm; subst metadata'. clear Hm.
  rewrite Hcontent in Hc. inversion Hc; subst input' output'. clear Hc.
  destruct (Submitted.trace _ _ _ _ _ _ _ _ _ _ _ _ _ _ _ _ _ _
              Run tp ok Hin)
    as (l' & tp0 & cm0 & kw & cm & cost & Hp & Hb & Hf).
  rewrite Hl in Hp. inversion Hp; subst l'.
  pose proof (proj1 (BuildFacts.finish_facts _ _ _ _ _ _ _ _ _ _ _ Hf)) as Hk.
  destruct (proj1 (BuildFacts.build_shape _ _ _ _ _ _ _ _ Hb) Hnew)
    as (name & Hd & _).
  pose proof (proj1 (BuildFacts.debug_facts _ _ _ Hd)) as Hk'.
  rewrite !Hk, !Hk' by discriminate.
  destruct (String.eqb level "ERROR") eqn:Hlevel.
  - destruct (BuildFacts.new_error l name input output level Hlevel)
      as [H1 H2].
    split; [exact H1|]. apply H2. intros k Hk1 Hk2.
    exact (proj1 (Hlift k Hk1 Hk2)).
  - destruct (BuildFacts.new_default l name input output level Hlevel)
      as [H1 H2].
    split; [exact H1|]. apply H2. intros k Hk1 Hk2.
    exact (proj2 (Hlift k Hk1 Hk2)).
Qed.

Lemma new_trace_output_xor_status_witness :
  let run :=
    Demo.log [] (Demo.record "completion" []) NoResponse "ERROR"
             (VStr "boom") in
  exists tp,
    In (Call_trace tp true) (new_calls (Demo.world []) (snd run))
    /\ Dict.get "status_message" tp = Some (VStr "boom")
    /\ Dict.get "output" tp = None.
Proof.
  intros run.
  exists (hd [] (Demo.traces (calls (snd run)))).
  assert (Hin : In (Call_trace (hd [] (Demo.traces (calls (snd run)))) true)
                   (new_calls (Demo.world []) (snd run)))
    by (vm_compute; left; reflexivity).
  split; [exact Hin|].
  refine (proj1 (new_trace_output_xor_status
                   Demo.sdk (Demo.env_at "2.7.3") (Demo.self_at "2.7.3")
                   (Demo.record "completion" []) NoResponse
                   (VStr "t0") (VStr "t1") VNone "ERROR" (VStr "boom")
                   (Demo.world []) (snd run) (fst run) (VDict [])
                   (VDict [("messages", Demo.hi)]) (VStr "boom")
                   (Demo.event [])
                   eq_refl (surjective_pairing run) eq_refl eq_refl eq_refl
                   eq_refl _) _ _ Hin).
  intros k Hk. destruct Hk.
Defined.

(** ** The generation of an error *)

(** C7, as stated: at level ERROR with a string output the generation has
    [status_message] and the output field is not included. It is: the
    generation parameters always hold [output], and the status message is
    added to them. *)
Lemma generation_keeps_output_beside_status_message :
  let run :=
    Demo.log [] (Demo.record "completion" []) NoResponse "ERROR"
             (VStr "boom") in
  exists gp,
    Demo.generations (calls (snd run)) = [gp]
    /\ Dict.get "status_message" gp = Some (VStr "boom")
    /\ Dict.get "output" gp = Some (VStr "boom").
Proof. vm_compute. eexists. repeat split; reflexivity. Qed.

(** C7, amended. For every call logged with an SDK from version 2.0.0
    on (through [_log_langfuse_v2]) where the level is ERROR and the
    output of the event is a string, the submitted generation has
    [status_message] set to that string, and it has its [output] field as
    well, holding the same string, or the redaction marker when
    [mask_output] is on. *)
Theorem error_generation_has_status_message
        {B : Type} (sdk : Sdk B) (env : Env) (self : LangFuseLogger)
        (kwargs : dict) (response_obj : Response)
        (start_time end_time user_id : value) (level : string)
        (status_message : value) (w w' : World B) (r : result dict)
        (metadata input output : value) (l : Locals.t) :
  _is_langfuse_v2 env = Ok true ->
  log_event_on_langfuse sdk env self kwargs response_obj start_time end_time
    user_id level status_message w = (r, w') ->
  logged_metadata kwargs = Ok metadata ->
  logged_content kwargs response_obj level status_message
  = Ok (input, output) ->
  prepare env self metadata kwargs
          (Dict.get_default "litellm_call_id" VNone kwargs) = Ok l ->
  String.eqb level "ERROR" = true ->
  is_str output = true ->
  forall gp ok,
    In (Call_generation gp ok) (new_calls w w') ->
    Dict.get "status_message" gp = Some output
    /\ Dict.get "output" gp = Some (masked (Locals.mask_output l) output).
Proof.
  intros Hv2 Entry Hmeta Hcontent Hl Hlevel Hstr gp ok Hin.
  destruct (EntryFacts.runs_v2 _ _ _ _ _ _ _ _ _ _ _ _ _ Hv2 Entry)
    as [Hnil|(metadata' & optional_params & input' & output' & r2 & Hm & Hc
              & Run)].
  { rewrite Hnil in Hin. destruct Hin. }
  rewrite Hmeta in Hm. inversion Hm; subst metadata'. clear Hm.
  rewrite Hcontent in Hc. inversion Hc; subst input' output'. clear Hc.
  destruct (Submitted.generation _ _ _ _ _ _ _ _ _ _ _ _ _ _ _ _ _ _
              Run gp ok Hin)
    as (l' & tp0 & cm0 & kw & tp & cm & cost & gp0 & cm1 & gid & gp1 & ws
        & Hp & _ & _ & Hg & Hk & ->).
  rewrite Hl in Hp. inversion Hp; subst l'.
  destruct (BuildFacts.generation_facts _ _ _ _ _ _ _ _ _ _ _ _ _ _ _ _ Hg)
    as (_ & Ho & _).
  split.
  - now apply BuildFacts.final_generation_status.
  - rewrite BuildFacts.final_generation_other by discriminate.
    rewrite Hk by discriminate. exact Ho.
Qed.

Lemma error_generation_has_status_message_witness :
  let run :=
    Demo.log [] (Demo.record "completion" []) NoResponse "ERROR"
             (VStr "boom") in
  exists gp,
    In (Call_generation gp true) (new_calls (Demo.world []) (snd run))
    /\ Dict.get "status_message" gp = Some (VStr "boom")
    /\ Dict.get "output" gp = Some (VStr "boom").
Proof.
  intros run.
  exists (hd [] (Demo.generations (calls (snd run)))).
  assert (Hin : In (Call_generation
                      (hd [] (Demo.generations (calls (snd run)))) true)
                   (new_calls (Demo.world []) (snd run)))
    by (vm_compute; right; left; reflexivity).
  split; [exact Hin|].
  exact (error_generation_has_status_message
           Demo.sdk (Demo.env_at "2.7.3") (Demo.self_at "2.7.3")
           (Demo.record "completion" []) NoResponse
           (VStr "t0") (VStr "t1") VNone "ERROR" (VStr "boom")
           (Demo.world []) (snd run) (fst run) (VDict [])
           (VDict [("messages", Demo.hi)]) (VStr "boom") (Demo.event [])
           eq_refl (surjective_pairing run) eq_refl eq_refl eq_refl
           eq_refl eq_refl _ _ Hin).
Defined.

(** ** The patch of an existing trace *)

Module StripFacts.

Import PyStr.

Lemma drop_length n : forall s, String.length (drop n s) <= String.length s.
Proof.
  induction n as [|n IH]; intros s; simpl; auto.
  destruct s as [|c s]; simpl; [auto|]. specialize (IH s). lia.
Qed.

Lemma replace_skip old new cnt s : forall n,
  replace_from old new cnt n s = replace_from old new cnt 0 (drop n s).
Proof.
  induction s as [|c s IH]; intros n.
  - destruct n; reflexivity.
  - destruct n as [|n]; [reflexivity|]. simpl. apply IH.
Qed.

(** Replacing by the empty string does not lengthen. *)
Lemma replace_shrinks old s : forall cnt n,
  String.length (replace_from old "" cnt n s) <= String.length (drop n s).
Proof.
  induction s as [|c s IH]; intros cnt n.
  - destruct n; simpl; auto.
  - destruct n as [|n]; [|simpl; apply IH].
    cbn [replace_from drop].
    destruct (may_replace cnt && String.prefix old (String c s)).
    + cbn [String.append]. specialize (IH (spend cnt) (Nat.pred (String.length old))).
      pose proof (drop_length (Nat.pred (String.length old)) s).
      simpl. lia.
    + specialize (IH cnt 0%nat). simpl in *. lia.
Qed.

Lemma append_length a b :
  String.length (a ++ b) = String.length a + String.length b.
Proof. induction a as [|c a IH]; simpl; auto. Qed.

Lemma prefix_length p s :
  String.prefix p s = true ->
  String.length s = String.length p + String.length (drop (String.length p) s).
Proof.
  intros H. rewrite (StrFacts.prefix_split p s H) at 1.
  apply append_length.
Qed.

(** On a key that starts with [trace_], removing every occurrence goes
    on under the prefix. *)
Lemma strip_trace_prefixed k :
  startswith "trace_" k = true ->
  strip_trace k = strip_trace (drop 6 k).
Proof.
  intros H. unfold strip_trace, replace.
  destruct k as [|c k]; [discriminate|].
  cbn [replace_from may_replace andb]. unfold startswith in H. rewrite H.
  cbn [String.append String.length Nat.pred]. rewrite replace_skip.
  reflexivity.
Qed.

Lemma strip_trace_le k : String.length (strip_trace k) <= String.length k.
Proof. exact (replace_shrinks "trace_" k None 0). Qed.

(** A key on which removing every occurrence is removing the prefix has
    no second [trace_] under the first. *)
Lemma single_prefix k :
  strip_trace k = strip_prefix "trace_" k ->
  startswith "trace_" k = true ->
  startswith "trace_" (strip_prefix "trace_" k) = false.
Proof.
  intros E H. unfold strip_prefix in *. rewrite H in *.
  destruct (startswith "trace_" (drop (String.length "trace_") k)) eqn:H2;
    [|reflexivity].
  exfalso. rewrite strip_trace_prefixed in E by exact H.
  change (String.length "trace_") with 6%nat in *.
  rewrite strip_trace_prefixed in E by exact H2.
  pose proof (strip_trace_le (drop 6 (drop 6 k))) as L.
  rewrite E in L.
  pose proof (prefix_length "trace_" (drop 6 k) H2) as P.
  change (String.length "trace_") with 6%nat in P. lia.
Qed.

Lemma strip_prefix_cases p k x :
  strip_prefix p k = x -> k = x \/ k = (p ++ x)%string.
Proof.
  unfold strip_prefix, startswith. destruct (String.prefix p k) eqn:H.
  - intros <-. right. now apply StrFacts.prefix_split.
  - auto.
Qed.

End StripFacts.

(** C8, as stated: the patch of an existing trace holds, besides the id,
    only keys listed in [update_trace_keys]. With [debug_langfuse] on it
    also holds [metadata], which no list asked for. *)
Lemma debug_adds_metadata_to_the_patch :
  let run :=
    Demo.log [] (Demo.record "completion"
                   [("existing_trace_id", VStr "t1");
                    ("debug_langfuse", VBool true)])
             Demo.chat_response "DEFAULT" VNone in
  exists tp,
    Demo.traces (calls (snd run)) = [tp]
    /\ Dict.keys tp = ["id"; "metadata"]
    /\ ~ (forall x, In x (Dict.keys tp) ->
                    x = "id"
                    \/ exists k, In (VStr k) []
                                 /\ x = PyStr.strip_prefix "trace_" k).
Proof.
  vm_compute. eexists. split; [reflexivity|]. split; [reflexivity|].
  intros H. destruct (H "metadata") as [E|(k & [] & _)].
  - right. left. reflexivity.
  - discriminate.
Qed.

(** C8, amended. For every call with an existing trace id, whose
    [update_trace_keys] is a list of keys in which [trace_] occurs as a
    leading prefix only, the submitted patch holds besides the id only
    keys of the list with the prefix stripped, and [metadata] when
    [debug_langfuse] is on; it holds [name] only if the list asks for it;
    a metadata key that starts with [trace_] and is not in the list does
    not appear in the patch; and no key that starts with [trace_] is left
    in the metadata of the submitted generation. *)
Theorem patch_holds_requested_keys
        {B : Type} (sdk : Sdk B) (env : Env) (self : LangFuseLogger)
        (user_id metadata litellm_params output start_time end_time : value)
        (kwargs optional_params : dict) (input : value)
        (response_obj : Response) (level : string) (litellm_call_id : value)
        (w w' : World B) (r : result (value * value)) (l : Locals.t)
        (keys : list value) :
  _log_langfuse_v2 sdk env self user_id metadata litellm_params output
    start_time end_time kwargs optional_params input response_obj level
    litellm_call_id w = (r, w') ->
  prepare env self metadata kwargs litellm_call_id = Ok l ->
  is_none (Locals.existing_trace_id l) = false ->
  Locals.update_trace_keys l = VList keys ->
  (forall k, In (VStr k) keys ->
             strip_trace k = PyStr.strip_prefix "trace_" k) ->
  (forall tp ok,
     In (Call_trace tp ok) (new_calls w w') ->
     (forall x, In x (Dict.keys tp) ->
                x = "id"
                \/ (x = "metadata" /\ debug_on (Locals.debug l) = true)
                \/ exists k, In (VStr k) keys
                             /\ x = PyStr.strip_prefix "trace_" k)
     /\ (In "name" (Dict.keys tp) ->
         In (VStr "name") keys \/ In (VStr "trace_name") keys)
     /\ (forall x, PyStr.startswith "trace_" x = true ->
                   ~ In (VStr x) keys -> ~ In x (Dict.keys tp)))
  /\ (forall gp ok,
        In (Call_generation gp ok) (new_calls w w') ->
        exists m,
          Dict.get "metadata" gp = Some (VDict m)
          /\ forall x, PyStr.startswith "trace_" x = true ->
                       Dict.get x m = None).
Proof.
  intros Run Hl Hold Hkeys Hprefix.
  assert (Patch : forall tp0 cm0,
             build_trace_params env l kwargs input output level
             = Ok (tp0, cm0) ->
             (forall x, In x (Dict.keys tp0) ->
                        x = "id"
                        \/ (x = "metadata" /\ debug_on (Locals.debug l) = true)
                        \/ exists k, In (VStr k) keys
                                     /\ x = PyStr.strip_prefix "trace_" k)
             /\ forall x, PyStr.startswith "trace_" x = true ->
                          Dict.get x cm0 = None).
  { intros tp0 cm0 Hb.
    destruct (proj2 (BuildFacts.build_shape _ _ _ _ _ _ _ _ Hb) Hold)
      as (tp1 & He & Hd).
    split.
    - intros x Hx.
      destruct (proj2 (BuildFacts.debug_facts _ _ _ Hd) x Hx) as [H1|H1];
        [|auto].
      destruct (BuildFacts.patch_keys _ _ _ _ _ He keys x Hkeys H1)
        as [->|(k & Hk & <-)]; auto.
      right. right. exists k. split; auto.
    - intros x Hx. exact (BuildFacts.patch_metadata _ _ _ _ _ He x Hx). }
  split.
  - intros tp ok Hin.
    destruct (Submitted.trace _ _ _ _ _ _ _ _ _ _ _ _ _ _ _ _ _ _
                Run tp ok Hin)
      as (l' & tp0 & cm0 & kw & cm & cost & Hp & Hb & Hf).
    rewrite Hl in Hp. inversion Hp; subst l'.
    destruct (BuildFacts.finish_facts _ _ _ _ _ _ _ _ _ _ _ Hf)
      as (_ & Htags & _).
    assert (Keys : forall x, In x (Dict.keys tp) ->
                x = "id"
                \/ (x = "metadata" /\ debug_on (Locals.debug l) = true)
                \/ exists k, In (VStr k) keys
                             /\ x = PyStr.strip_prefix "trace_" k).
    { intros x Hx. destruct (Htags x Hx) as [H0|[_ H0]].
      - exact (proj1 (Patch tp0 cm0 Hb) x H0).
      - rewrite Hold in H0. discriminate. }
    split; [exact Keys|]. split.
    + intros Hname.
      destruct (Keys "name" Hname) as [E|[[E _]|(k & Hk & E)]];
        try discriminate.
      symmetry in E.
      destruct (StripFacts.strip_prefix_cases _ _ _ E) as [->| ->]; auto.
    + intros x Hx Hout Hin'.
      destruct (Keys x Hin') as [E|[[E _]|(k & Hk & E)]].
      * rewrite E in Hx. discriminate.
      * rewrite E in Hx. discriminate.
      * destruct (PyStr.startswith "trace_" k) eqn:Hk'.
        -- pose proof (StripFacts.single_prefix k (Hprefix k Hk) Hk') as F.
           rewrite <- E in F. congruence.
        -- unfold PyStr.strip_prefix in E. rewrite Hk' in E. subst x.
           contradiction.
  - intros gp ok Hin.
    destruct (Submitted.generation _ _ _ _ _ _ _ _ _ _ _ _ _ _ _ _ _ _
                Run gp ok Hin)
      as (l' & tp0 & cm0 & kw & tp & cm & cost & gp0 & cm1 & gid & gp1 & ws
          & Hp & Hb & Hf & Hg & Hk & ->).
    rewrite Hl in Hp. inversion Hp; subst l'.
    destruct (BuildFacts.generation_facts _ _ _ _ _ _ _ _ _ _ _ _ _ _ _ _ Hg)
      as (_ & _ & _ & m & Hm & Hclean).
    exists m. split.
    + rewrite BuildFacts.final_generation_other by discriminate.
      rewrite Hk by discriminate. exact Hm.
    + intros x Hx. apply Hclean; [exact Hx|].
      apply (proj2 (proj2 (BuildFacts.finish_facts _ _ _ _ _ _ _ _ _ _ _ Hf)));
        [exact Hx|].
      exact (proj2 (Patch tp0 cm0 Hb) x Hx).
Qed.

Lemma patch_holds_requested_keys_witness :
  let md := [("existing_trace_id", VStr "t1");
             ("update_trace_keys", VList [VStr "trace_release"; VStr "input"]);
             ("trace_release", VStr "r1");
             ("trace_other", VStr "kept out")] in
  let run := Demo.v2 [] md (VStr "in") (VStr "out") "DEFAULT" in
  exists tp,
    In (Call_trace tp true) (new_calls (Demo.world []) (snd run))
    /\ Dict.get "release" tp = Some (VStr "r1")
    /\ ~ In "name" (Dict.keys tp)
    /\ ~ In "trace_other" (Dict.keys tp).
Proof.
  intros md run.
  exists (hd [] (Demo.traces (calls (snd run)))).
  assert (Hin : In (Call_trace (hd [] (Demo.traces (calls (snd run)))) true)
                   (new_calls (Demo.world []) (snd run)))
    by (vm_compute; left; reflexivity).
  split; [exact Hin|]. split; [reflexivity|].
  assert (Hprefix : forall k,
             In (VStr k) [VStr "trace_release"; VStr "input"] ->
             strip_trace k = PyStr.strip_prefix "trace_" k).
  { intros k [E|[E|[]]]; inversion E; reflexivity. }
  destruct (proj1 (patch_holds_requested_keys
                     Demo.sdk (Demo.env_at "2.7.3") (Demo.self_at "2.7.3")
                     VNone (VDict md) (VDict []) (VStr "out") (VStr "t0")
                     (VStr "t1") (Demo.record "completion" md) []
                     (VStr "in") Demo.chat_response "DEFAULT"
                     (VStr "call-1") (Demo.world []) (snd run) (fst run)
                     (Demo.event md) [VStr "trace_release"; VStr "input"]
                     (surjective_pairing run) eq_refl eq_refl eq_refl
                     Hprefix) _ _ Hin)
    as (_ & Hname & Hother).
  split.
  - intros H. destruct (Hname H) as [[E|[E|[]]]|[E|[E|[]]]]; discriminate.
  - apply Hother; [reflexivity|]. intros [E|[E|[]]]; discriminate.
Defined.

(** ** Control keys in the list of keys to update *)

Module ControlFacts.


End ControlFacts.




(** * Further properties *)

(** ** Requester metadata *)

Module RequesterFacts.

Lemma fold_get rm items : forall acc,
  NoDup (Dict.keys items) ->
  exists out,
    rfold (fun (acc : dict) (kv : string * value) =>
             let? inside := Py.contains (fst kv) (VDict rm) in
             if negb inside then Ok (Dict.set (fst kv) (snd kv) acc)
             else Ok acc) items acc = Ok out
    /\ forall k,
        Dict.get k out
        = if Dict.mem k rm then Dict.get k acc
          else match Dict.get k items with
               | Some v => Some v
               | None => Dict.get k acc
               end.
Proof.
  induction items as [|[k0 v0] items IH]; intros acc Hnd.
  - exists acc. split; [reflexivity|]. intros k. simpl.
    destruct (Dict.mem k rm); reflexivity.
  - inversion Hnd as [|? ? Hout Hnd']; subst.
    cbn [rfold fst snd Py.contains rbind].
    set (acc' := if negb (Dict.mem k0 rm) then Dict.set k0 v0 acc else acc).
    destruct (IH acc' Hnd') as (out & Hrun & Hget).
    exists out. split.
    + unfold acc' in Hrun. destruct (negb (Dict.mem k0 rm)); exact Hrun.
    + intros k. rewrite Hget. simpl.
      destruct (String.eqb_spec k k0) as [->|N].
      * apply DictFacts.get_none_not_key in Hout. rewrite Hout.
        unfold acc'. destruct (Dict.mem k0 rm); simpl; auto.
        apply DictFacts.get_set_eq.
      * assert (E : Dict.get k acc' = Dict.get k acc).
        { unfold acc'. destruct (negb (Dict.mem k0 rm)); auto.
          apply DictFacts.get_set_neq. congruence. }
        rewrite E. reflexivity.
Qed.

End RequesterFacts.

(** X1. When [requester_metadata] is a mapping (or is missing or empty,
    which counts as the empty mapping), [log_requester_metadata] returns
    the metadata without the keys that the requester's mapping holds, and
    with [requester_metadata] set to that mapping: what the requester sent
    is not repeated at the top level. *)
Theorem requester_keys_leave_the_top_level (clean_metadata rm : dict) :
  NoDup (Dict.keys clean_metadata) ->
  py_or (Dict.get_default "requester_metadata" VNone clean_metadata)
        (VDict []) = VDict rm ->
  exists returned,
    log_requester_metadata clean_metadata = Ok returned
    /\ Dict.get "requester_metadata" returned = Some (VDict rm)
    /\ forall k, k <> "requester_metadata" ->
                 Dict.get k returned
                 = if Dict.mem k rm then None else Dict.get k clean_metadata.
Proof.
  intros Hnd Hrm. unfold log_requester_metadata.
  unfold py_or in Hrm. rewrite Hrm.
  destruct (RequesterFacts.fold_get rm clean_metadata [] Hnd)
    as (out & Hrun & Hget).
  rewrite Hrun. cbn [rbind]. eexists. split; [reflexivity|]. split.
  - apply DictFacts.get_set_eq.
  - intros k N. rewrite DictFacts.get_set_neq by congruence.
    rewrite Hget. simpl. destruct (Dict.mem k rm); auto.
    destruct (Dict.get k clean_metadata); reflexivity.
Qed.

Lemma requester_keys_leave_the_top_level_witness :
  exists returned,
    log_requester_metadata
      [("user", VStr "u1"); ("cost", VInt 3);
       ("requester_metadata", VDict [("user", VStr "u1")])]
    = Ok returned
    /\ Dict.get "user" returned = None
    /\ Dict.get "cost" returned = Some (VInt 3).
Proof.
  assert (Hnd : NoDup (Dict.keys
                         [("user", VStr "u1"); ("cost", VInt 3);
                          ("requester_metadata",
                           VDict [("user", VStr "u1")])])).
  { repeat constructor; simpl; intuition discriminate. }
  destruct (requester_keys_leave_the_top_level
              _ [("user", VStr "u1")] Hnd eq_refl)
    as (returned & Hrun & _ & Hget).
  exists returned. split; [exact Hrun|]. split.
  - rewrite Hget by discriminate. reflexivity.
  - rewrite Hget by discriminate. reflexivity.
Defined.

(** ** Spans *)

Module SpanFacts.

Lemma spans_of_app a b : spans_of (a ++ b) = spans_of a ++ spans_of b.
Proof. unfold spans_of. apply flat_map_app. Qed.

Lemma emits_ret {B} : emits (@ret B unit tt) [].
Proof.
  intros w r w' E. inversion E; subst.
  exists []. rewrite app_nil_r. repeat split; auto.
  exists []. reflexivity.
Qed.

Lemma emits_raise {B} e ps : emits (@lift B unit (Raise e)) ps.
Proof.
  intros w r w' E. inversion E; subst.
  exists []. rewrite app_nil_r. split; [reflexivity|]. split; [reflexivity|].
  split; [exists ps; reflexivity|]. discriminate.
Qed.

Lemma emits_seq {B} (m1 m2 : M B unit) p1 p2 :
  emits m1 p1 -> emits m2 p2 -> emits (m1 ;;; m2) (p1 ++ p2).
Proof.
  intros H1 H2 w r w' E. unfold bind in E.
  destruct (m1 w) as [[[]|e] w1] eqn:E1.
  - destruct (H1 _ _ _ E1) as (n1 & C1 & S1 & _ & F1).
    destruct (F1 eq_refl) as [P1 O1].
    destruct (H2 _ _ _ E) as (n2 & C2 & S2 & (rest & R2) & F2).
    exists (n1 ++ n2). rewrite C2, C1, app_assoc. split; [reflexivity|].
    rewrite forallb_app, S1, S2. split; [reflexivity|].
    rewrite spans_of_app, P1. split.
    + exists rest. rewrite R2, app_assoc. reflexivity.
    + intros Hr. destruct (F2 Hr) as [P2 O2].
      rewrite P2, forallb_app, O1, O2. auto.
  - inversion E; subst.
    destruct (H1 _ _ _ E1) as (n1 & C1 & S1 & (rest & R1) & _).
    exists n1. split; [exact C1|]. split; [exact S1|]. split.
    + exists (rest ++ p2). rewrite R1, app_assoc. reflexivity.
    + discriminate.
Qed.

Lemma emits_for_each {B X} (body : X -> M B unit) (f : X -> list dict) xs :
  (forall x, emits (body x) (f x)) ->
  emits (for_each body xs) (flat_map f xs).
Proof.
  intros H. induction xs as [|x xs IH]; simpl.
  - apply emits_ret.
  - apply emits_seq; auto.
Qed.

Lemma emits_span {B} (sdk : Sdk B) tr p :
  emits (span sdk tr p ;;; ret tt) [p].
Proof.
  intros w r w' E. unfold bind, span in E.
  destruct (sdk_call (sdk_span sdk tr p) (Call_span p) w) as [r1 w1] eqn:E1.
  apply RunFacts.sdk_call_run in E1.
  exists [Call_span p (is_ok r1)].
  destruct r1 as [s|e]; inversion E; subst;
    (split; [exact E1|]); split; try reflexivity;
    (split; [exists []; reflexivity|]); auto; discriminate.
Qed.

Lemma flat_map_single {X Y} (f : X -> Y) xs :
  flat_map (fun x => [f x]) xs = map f xs.
Proof. induction xs; simpl; congruence. Qed.

End SpanFacts.

(** X2. [log_provider_specific_information_as_span] creates spans and
    nothing else, and never ends one. The spans are those the grounding
    metadata of Vertex AI asks for, in order: one per entry of each
    mapping of a list, one per other element of a list, one for a value
    that is no list, none when [hidden_params] or the grounding metadata
    is missing. It stops at the first span that fails: when it returns,
    all of them were created. *)
Theorem provider_spans_follow_the_grounding_metadata
        {B : Type} (sdk : Sdk B) (tr : value) (clean_metadata : dict)
        (w w' : World B) (r : result unit) :
  log_provider_specific_information_as_span sdk tr clean_metadata w
  = (r, w') ->
  exists new,
    calls w' = calls w ++ new
    /\ forallb is_span new = true
    /\ (exists rest, provider_spans clean_metadata = spans_of new ++ rest)
    /\ (is_ok r = true ->
        spans_of new = provider_spans clean_metadata
        /\ forallb call_ok new = true).
Proof.
  revert w r w'.
  change (emits (log_provider_specific_information_as_span
                   sdk tr clean_metadata)
                (provider_spans clean_metadata)).
  unfold log_provider_specific_information_as_span, provider_spans,
    Dict.get_default.
  destruct (Dict.get "hidden_params" clean_metadata) as [hp|];
    [|apply SpanFacts.emits_ret].
  assert (Hraise : forall (k : value -> M B unit),
             emits (x <- lift (Raise AttributeError) ;; k x) []).
  { intros k w r w' E. inversion E; subst. exists [].
    rewrite app_nil_r. split; [reflexivity|]. split; [reflexivity|].
    split; [exists []; reflexivity | discriminate]. }
  destruct hp as [| | | | | |hp|];
    [apply SpanFacts.emits_ret
    |apply Hraise|apply Hraise|apply Hraise|apply Hraise|apply Hraise
    | |apply Hraise].
  cbn [is_none].
  cbn [Py.get]. unfold Dict.get_default.
  set (v := match Dict.get "vertex_ai_grounding_metadata" hp with
            | Some v => v
            | None => VNone
            end).
  assert (Hbind : forall (k : value -> M B unit) ps,
             emits (k v) ps -> emits (x <- lift (Ok v) ;; k x) ps).
  { intros k ps H w r w' E. exact (H w r w' E). }
  apply Hbind.
  destruct v as [| | | | |elems| |]; cbn [is_none grounding_spans];
    try apply SpanFacts.emits_ret;
    try apply (SpanFacts.emits_span sdk tr).
  apply SpanFacts.emits_for_each. intros elem.
  destruct elem as [| | | | | |items|];
    try apply (SpanFacts.emits_span sdk tr).
  rewrite <- SpanFacts.flat_map_single.
  apply SpanFacts.emits_for_each. intros kv.
  apply (SpanFacts.emits_span sdk tr).
Qed.

Lemma provider_spans_follow_the_grounding_metadata_witness :
  let cm :=
    [("hidden_params",
      VDict [("vertex_ai_grounding_metadata",
              VList [VDict [("a", VInt 1); ("b", VInt 2)]; VStr "x"])])] in
  let run :=
    log_provider_specific_information_as_span
      Demo.working (VObj "trace") cm Demo.fresh in
  spans_of (calls (snd run))
  = [[("name", VStr "a"); ("input", VInt 1)];
     [("name", VStr "b"); ("input", VInt 2)];
     [("name", VStr "vertex_ai_grounding_metadata"); ("input", VStr "x")]].
Proof.
  intros cm run.
  destruct (provider_spans_follow_the_grounding_metadata
              Demo.working (VObj "trace") cm Demo.fresh (snd run) (fst run)
              (surjective_pairing run))
    as (new & C & _ & _ & F).
  rewrite C. exact (proj1 (F eq_refl)).
Defined.

(** X3. [_log_guardrail_information_as_span] makes no call when the
    standard logging object is None or holds no guardrail information.
    Otherwise it creates exactly one span, named "guardrail", whose
    input, output, metadata and times are read from the guardrail
    information (None for what is missing), and ends it; a span that
    could not be created is not ended, and the failure is raised. *)
Theorem guardrail_span_is_created_once
        {B : Type} (sdk : Sdk B) (tr : value) (slo : dict)
        (w w' : World B) (r : result unit) :
  _log_guardrail_information_as_span sdk tr (VDict slo) w = (r, w') ->
  match Dict.get_default "guardrail_information" VNone slo with
  | VNone => r = Ok tt /\ w' = w
  | VDict g =>
      let field k := Dict.get_default k VNone g in
      let p :=
        [("name", VStr "guardrail");
         ("input", field "guardrail_request");
         ("output", field "guardrail_response");
         ("metadata",
          VDict [("guardrail_name", field "guardrail_name");
                 ("guardrail_mode", field "guardrail_mode");
                 ("guardrail_masked_entity_count",
                  field "masked_entity_count")]);
         ("start_time", field "start_time");
         ("end_time", field "end_time")] in
      (new_calls w w' = [Call_span p false] /\ is_ok r = false)
      \/ (exists ended,
            new_calls w w' = [Call_span p true; Call_span_end ended]
            /\ is_ok r = ended)
  | _ => new_calls w w' = [] /\ is_ok r = false
  end.
Proof.
  unfold _log_guardrail_information_as_span. cbn [is_none Py.get].
  intros E. unfold bind at 1 in E. unfold lift at 1 in E.
  destruct (Dict.get_default "guardrail_information" VNone slo)
    as [| | | | | |g|] eqn:Hg; cbn [is_none] in E;
    try (unfold bind, lift in E; cbn in E; inversion E; subst;
         split; [|reflexivity]; unfold new_calls;
         rewrite skipn_all; reflexivity).
  - inversion E; subst. auto.
  - unfold bind at 1 in E. unfold lift at 1 in E.
    cbn [guardrail_span_params Py.as_dict rbind] in E.
    unfold bind, span in E.
    match type of E with
    | context [sdk_call ?op ?entry w] =>
        destruct (sdk_call op entry w) as [r1 w1] eqn:E1
    end.
    apply RunFacts.sdk_call_run in E1.
    destruct r1 as [s|e].
    + destruct (sdk_call (sdk_span_end sdk s) Call_span_end w1)
        as [r2 w2] eqn:E2.
      apply RunFacts.sdk_call_run in E2. inversion E; subst.
      right. exists (is_ok r). split; [|reflexivity].
      apply RunFacts.new_calls_app.
      rewrite E2, E1, <- app_assoc. reflexivity.
    + inversion E; subst. left. split; [|reflexivity].
      apply RunFacts.new_calls_app. exact E1.
Qed.

Lemma guardrail_span_is_created_once_witness :
  let slo :=
    [("guardrail_information",
      VDict [("guardrail_name", VStr "pii-filter");
             ("start_time", VStr "t0"); ("end_time", VStr "t1")])] in
  let run :=
    _log_guardrail_information_as_span
      Demo.working (VObj "trace") (VDict slo) Demo.fresh in
  exists p,
    new_calls Demo.fresh (snd run) = [Call_span p true; Call_span_end true]
    /\ Dict.get "name" p = Some (VStr "guardrail")
    /\ Dict.get "metadata" p
       = Some (VDict [("guardrail_name", VStr "pii-filter");
                      ("guardrail_mode", VNone);
                      ("guardrail_masked_entity_count", VNone)]).
Proof.
  intros slo run.
  pose proof (guardrail_span_is_created_once
                Demo.working (VObj "trace") slo Demo.fresh (snd run)
                (fst run) (surjective_pairing run)) as H.
  cbv beta iota zeta delta [slo Dict.get_default Dict.get String.eqb
                            Ascii.eqb Bool.eqb] in H.
  destruct H as [[_ Hfail]|(ended & Hcalls & Hok)].
  - discriminate Hfail.
  - eexists. split; [rewrite Hcalls, <- Hok; reflexivity|].
    split; reflexivity.
Defined.

(** ** The identity of a patch *)

Module PatchFacts.

(** The patch loop fills in what is missing and overwrites nothing. *)
Lemma update_step_keeps tp cm key tp' cm' x v :
  update_step (tp, cm) key = Ok (tp', cm') ->
  Dict.get x tp = Some v -> Dict.get x tp' = Some v.
Proof.
  unfold update_step, Dict.pop. destruct key as [| | | |k| | |];
    try discriminate.
  intros E H.
  destruct (Dict.mem (strip_trace k) tp) eqn:Hm; cbn [negb] in E.
  - inversion E; subst. exact H.
  - destruct (negb (is_none _)); inversion E; subst; [|exact H].
    rewrite DictFacts.get_set_neq; [exact H|].
    intros Ex. subst x. unfold Dict.mem in Hm. rewrite H in Hm.
    discriminate.
Qed.

Lemma update_fold_keeps keys : forall tp cm tp' cm' x v,
  rfold update_step keys (tp, cm) = Ok (tp', cm') ->
  Dict.get x tp = Some v -> Dict.get x tp' = Some v.
Proof.
  induction keys as [|key keys IH]; intros tp cm tp' cm' x v E H;
    cbn [rfold] in E.
  - inversion E; subst. exact H.
  - destruct (update_step (tp, cm) key) as [[tp1 cm1]|] eqn:E1;
      [|discriminate].
    cbn [rbind] in E.
    exact (IH _ _ _ _ _ _ E (update_step_keeps _ _ _ _ _ _ _ E1 H)).
Qed.

End PatchFacts.

(** X4. The patch of an existing trace always carries the existing trace
    id as its [id]: whatever the keys to update list ([id], [trace_id] or
    any other key that strips to [id]) and whatever the metadata holds,
    the id of the submitted patch is not overwritten. *)
Theorem patch_id_is_the_existing_trace_id
        {B : Type} (sdk : Sdk B) (env : Env) (self : LangFuseLogger)
        (user_id metadata litellm_params output start_time end_time : value)
        (kwargs optional_params : dict) (input : value)
        (response_obj : Response) (level : string) (litellm_call_id : value)
        (w w' : World B) (r : result (value * value)) (l : Locals.t) :
  _log_langfuse_v2 sdk env self user_id metadata litellm_params output
    start_time end_time kwargs optional_params input response_obj level
    litellm_call_id w = (r, w') ->
  prepare env self metadata kwargs litellm_call_id = Ok l ->
  is_none (Locals.existing_trace_id l) = false ->
  forall tp ok,
    In (Call_trace tp ok) (new_calls w w') ->
    Dict.get "id" tp = Some (Locals.existing_trace_id l).
Proof.
  intros Run Hl Hold tp ok Hin.
  destruct (Submitted.trace _ _ _ _ _ _ _ _ _ _ _ _ _ _ _ _ _ _
              Run tp ok Hin)
    as (l' & tp0 & cm0 & kw & cm & cost & Hp & Hb & Hf).
  rewrite Hl in Hp. inversion Hp; subst l'.
  rewrite (proj1 (BuildFacts.finish_facts _ _ _ _ _ _ _ _ _ _ _ Hf))
    by discriminate.
  destruct (proj2 (BuildFacts.build_shape _ _ _ _ _ _ _ _ Hb) Hold)
    as (tp1 & He & Hd).
  rewrite (proj1 (BuildFacts.debug_facts _ _ _ Hd)) by discriminate.
  destruct (BuildFacts.patch_shape _ _ _ _ _ He)
    as (elems & tp2 & cm2 & hi & ho & _ & Hfold & _ & _ & _ & ->).
  assert (Hid : Dict.get "id" tp2 = Some (Locals.existing_trace_id l)).
  { eapply PatchFacts.update_fold_keeps; [exact Hfold|]. reflexivity. }
  destruct ho, hi; BuildFacts.other_key; exact Hid.
Qed.

Lemma patch_id_is_the_existing_trace_id_witness :
  let md := [("existing_trace_id", VStr "t1");
             ("update_trace_keys", VList [VStr "id"; VStr "trace_id"]);
             ("id", VStr "other"); ("trace_id", VStr "other")] in
  let run := Demo.v2 [] md (VStr "in") (VStr "out") "DEFAULT" in
  exists tp,
    In (Call_trace tp true) (new_calls (Demo.world []) (snd run))
    /\ Dict.get "id" tp = Some (VStr "t1").
Proof.
  intros md run.
  exists (hd [] (Demo.traces (calls (snd run)))).
  assert (Hin : In (Call_trace (hd [] (Demo.traces (calls (snd run)))) true)
                   (new_calls (Demo.world []) (snd run)))
    by (vm_compute; left; reflexivity).
  split; [exact Hin|].
  exact (patch_id_is_the_existing_trace_id
           Demo.sdk (Demo.env_at "2.7.3") (Demo.self_at "2.7.3")
           VNone (VDict md) (VDict []) (VStr "out") (VStr "t0")
           (VStr "t1") (Demo.record "completion" md) [] (VStr "in")
           Demo.chat_response "DEFAULT" (VStr "call-1")
           (Demo.world []) (snd run) (fst run) (Demo.event md)
           (surjective_pairing run) eq_refl eq_refl _ _ Hin).
Defined.

(** ** Tags *)

Module TagFacts.

Section Tags.

Context (env : Env).

Lemma append_tag_list a label v t :
  append_tag env (VList a) label v = Ok t ->
  exists s, str env v = Ok s /\ t = VList (a ++ [VStr (label ++ ":" ++ s)]).
Proof.
  unfold append_tag. destruct (str env v) as [s|]; [|discriminate].
  cbn [rbind Py.append]. intros E. inversion E; subst. eauto.
Qed.

Lemma prepare_tags self metadata kwargs litellm_call_id l :
  prepare env self metadata kwargs litellm_call_id = Ok l ->
  let md := if truthy metadata then metadata else VDict [] in
  exists with_tags t0 t1 cm0 cm1,
    _supports_tags self = Ok with_tags
    /\ (if with_tags
        then _get_langfuse_tags
               (Dict.get_default "standard_logging_object" VNone kwargs)
        else Ok (VList [])) = Ok t0
    /\ match md with
       | VDict items => rfold (clean_step env) items (t0, cm0)
       | _ => Ok (t0, cm0)
       end = Ok (t1, cm1)
    /\ add_default_langfuse_tags env t1 kwargs md = Ok (Locals.tags l).
Proof.
  intros E md. unfold prepare in E. fold md in E.
  destruct (_supports_tags self) as [with_tags|]; [|discriminate E].
  cbn [rbind] in E.
  destruct (if with_tags then _ else _) as [t0|] eqn:H0; [|discriminate E].
  cbn [rbind] in E.
  destruct (if is_none _ then _ else _) as [[end_user_id pmm]|];
    [|discriminate E].
  cbn [rbind] in E.
  match type of E with
  | context [match md with VDict items => rfold _ items (_, ?c) | _ => _ end]
    => set (cm0 := c) in *
  end.
  destruct (match md with
            | VDict items => rfold (clean_step env) items (t0, cm0)
            | _ => Ok (t0, cm0)
            end) as [[t1 cm1]|] eqn:H1; [|discriminate E].
  cbn [rbind] in E.
  destruct (add_default_langfuse_tags env t1 kwargs md) as [t2|] eqn:H2;
    [|discriminate E].
  cbn [rbind] in E. unfold Dict.pop in E. inversion E; subst; clear E.
  exists with_tags, t0, t1, cm0, cm1. cbn [Locals.tags]. auto.
Qed.

End Tags.

End TagFacts.

Module TagOrderFacts.

Section Tags.

Context (env : Env).

(** The tag of a metadata entry. *)
Local Abbreviation tag_of :=
  (fun (kv : string * value) (t : value) =>
     exists s, str env (snd kv) = Ok s
               /\ t = VStr (fst kv ++ ":" ++ s)).

Lemma metadata_tags_in_order items : forall a cm tags' cm',
  rfold (clean_step env) items (VList a, cm) = Ok (tags', cm') ->
  exists extra,
    tags' = VList (a ++ extra)
    /\ Forall2 tag_of
               (filter (fun kv => in_default_tags env (fst kv)) items)
               extra.
Proof.
  induction items as [|[k0 v0] items IH]; intros a cm tags' cm' E;
    cbn [rfold] in E.
  - inversion E; subst. exists []. rewrite app_nil_r. split; [reflexivity|].
    constructor.
  - unfold clean_step at 1 in E. cbn [filter fst].
    destruct (in_default_tags env k0) eqn:Hk0.
    + destruct (append_tag env (VList a) k0 v0) as [t|] eqn:Ha;
        [|discriminate].
      apply TagFacts.append_tag_list in Ha as (s & Hs & ->).
      cbn [rbind] in E.
      assert (E' : rfold (clean_step env) items
                         (VList (a ++ [VStr (k0 ++ ":" ++ s)]),
                          if dropped_key k0 then cm else Dict.set k0 v0 cm)
                   = Ok (tags', cm'))
        by (destruct (dropped_key k0); exact E).
      destruct (IH _ _ _ _ E') as (extra & -> & Hall).
      exists (VStr (k0 ++ ":" ++ s) :: extra).
      rewrite <- app_assoc. split; [reflexivity|].
      constructor; [|exact Hall]. exists s. split; [exact Hs | reflexivity].
    + cbn [rbind] in E.
      assert (E' : rfold (clean_step env) items
                         (VList a,
                          if dropped_key k0 then cm else Dict.set k0 v0 cm)
                   = Ok (tags', cm'))
        by (destruct (dropped_key k0); exact E).
      exact (IH _ _ _ _ E').
Qed.

Lemma special_tags_in_order a kwargs (metadata : dict) t :
  add_default_langfuse_tags
    env (VList a) kwargs
    (if truthy (VDict metadata) then VDict metadata else VDict [])
  = Ok t ->
  exists hit key,
    t = VList (a ++ hit ++ key)
    /\ (if in_default_tags env "cache_hit"
        then exists s,
            str env (Dict.get_default "cache_hit" (VBool false) kwargs)
            = Ok s
            /\ hit = [VStr ("cache_hit:" ++ s)]
        else hit = [])
    /\ (if in_default_tags env "cache_key"
        then exists cache_key s,
            str env cache_key = Ok s
            /\ key = [VStr ("cache_key:" ++ s)]
            /\ forall hidden_params c,
                Dict.get "hidden_params" metadata
                = Some (VDict hidden_params) ->
                Dict.get "cache_key" hidden_params = Some c ->
                is_none c = false -> cache_key = c
        else key = []).
Proof.
  unfold add_default_langfuse_tags.
  assert (Hnone : forall k, (forall l, langfuse_default_tags env <> VList l) ->
                            in_default_tags env k = false).
  { intros k H. unfold in_default_tags.
    destruct (langfuse_default_tags env); try reflexivity.
    destruct (H _ eq_refl). }
  destruct (langfuse_default_tags env) as [| | | | |defaults| |] eqn:Hd;
    try (intros E; inversion E; subst; exists [], [];
         rewrite !app_nil_r; split; [reflexivity|];
         rewrite !Hnone by (intros ? ?; discriminate); auto).
  clear Hnone.
  assert (Hkey : forall b,
             (if in_default_tags env "cache_key"
              then
                let? hp :=
                  Py.get (if truthy (VDict metadata) then VDict metadata
                          else VDict []) "hidden_params" (VDict []) in
                let _hidden_params := if truthy hp then hp else VDict [] in
                let? _cache_key := Py.get _hidden_params "cache_key" VNone in
                let? _cache_key :=
                  match is_none _cache_key, preset_cache_key env with
                  | true, Some _get_preset_cache_key_from_kwargs =>
                      _get_preset_cache_key_from_kwargs kwargs
                  | _, _ => Ok _cache_key
                  end in
                append_tag env (VList b) "cache_key" _cache_key
              else Ok (VList b)) = Ok t ->
             exists key,
               t = VList (b ++ key)
               /\ (if in_default_tags env "cache_key"
                   then exists cache_key s,
                       str env cache_key = Ok s
                       /\ key = [VStr ("cache_key:" ++ s)]
                       /\ forall hidden_params c,
                           Dict.get "hidden_params" metadata
                           = Some (VDict hidden_params) ->
                           Dict.get "cache_key" hidden_params = Some c ->
                           is_none c = false -> cache_key = c
                   else key = [])).
  { intros b. destruct (in_default_tags env "cache_key").
    - assert (Hhp : Py.get (if truthy (VDict metadata) then VDict metadata
                            else VDict []) "hidden_params" (VDict [])
                    = Ok (Dict.get_default "hidden_params" (VDict [])
                                           metadata)).
      { destruct metadata; reflexivity. }
      rewrite Hhp. cbn [rbind]. cbv zeta.
      destruct (Py.get _ "cache_key" VNone) as [ck|] eqn:Hck;
        [|discriminate].
      cbn [rbind].
      destruct (match is_none ck, preset_cache_key env with
                | true, Some f => f kwargs
                | _, _ => Ok ck
                end) as [ck'|] eqn:Hck'; [|discriminate].
      cbn [rbind]. intros Ha.
      apply TagFacts.append_tag_list in Ha as (s & Hs & ->).
      exists [VStr ("cache_key:" ++ s)]. split; [reflexivity|].
      exists ck', s. split; [exact Hs|]. split; [reflexivity|].
      intros hidden_params c Hh Hc Hn.
      unfold Dict.get_default in Hck. rewrite Hh in Hck.
      assert (Ht : truthy (VDict hidden_params) = true)
        by (destruct hidden_params; [discriminate Hc | reflexivity]).
      rewrite Ht in Hck. cbn [Py.get] in Hck.
      unfold Dict.get_default in Hck. rewrite Hc in Hck.
      inversion Hck; subst ck. rewrite Hn in Hck'.
      inversion Hck'; reflexivity.
    - intros E. inversion E; subst. exists []. rewrite app_nil_r. auto. }
  destruct (in_default_tags env "cache_hit") eqn:Hc.
  - destruct (append_tag env (VList a) "cache_hit" _) as [t1|] eqn:Ha;
      [|discriminate].
    apply TagFacts.append_tag_list in Ha as (s & Hs & ->). cbn [rbind].
    intros E. destruct (Hkey _ E) as (key & -> & Hk).
    exists [VStr ("cache_hit:" ++ s)], key.
    rewrite <- app_assoc. split; [reflexivity|]. split; [eauto | exact Hk].
  - cbn [rbind]. intros E. destruct (Hkey _ E) as (key & -> & Hk).
    exists [], key. split; [reflexivity|]. split; [reflexivity | exact Hk].
Qed.

End Tags.

End TagOrderFacts.

(** X5. The tags of an event are, in this order: the request tags of
    the standard logging object (none when the SDK has no tags); one
    tag "key:str(value)" for each metadata entry whose key is among the
    default tag keys, in the order of the metadata; the tag
    "cache_hit:str(value)", False when [cache_hit] is not set, when
    [cache_hit] is among the default tag keys; and a tag
    "cache_key:str(key)" when [cache_key] is among them, the key being
    the [cache_key] of the hidden parameters when they hold one.
    Nothing else is a tag of the event. *)
Theorem default_tags_are_derived
        (env : Env) (self : LangFuseLogger) (metadata : dict)
        (kwargs : dict) (litellm_call_id : value) (l : Locals.t)
        (with_tags : bool) (request : list value) :
  prepare env self (VDict metadata) kwargs litellm_call_id = Ok l ->
  _supports_tags self = Ok with_tags ->
  _get_langfuse_tags (Dict.get_default "standard_logging_object" VNone kwargs)
  = Ok (VList request) ->
  exists from_metadata hit key,
    Locals.tags l
    = VList ((if with_tags then request else [])
               ++ from_metadata ++ hit ++ key)
    /\ Forall2 (fun (kv : string * value) (t : value) =>
                  exists s, str env (snd kv) = Ok s
                            /\ t = VStr (fst kv ++ ":" ++ s))
               (filter (fun kv => in_default_tags env (fst kv)) metadata)
               from_metadata
    /\ (if in_default_tags env "cache_hit"
        then exists s,
            str env (Dict.get_default "cache_hit" (VBool false) kwargs)
            = Ok s
            /\ hit = [VStr ("cache_hit:" ++ s)]
        else hit = [])
    /\ (if in_default_tags env "cache_key"
        then exists cache_key s,
            str env cache_key = Ok s
            /\ key = [VStr ("cache_key:" ++ s)]
            /\ forall hidden_params c,
                Dict.get "hidden_params" metadata
                = Some (VDict hidden_params) ->
                Dict.get "cache_key" hidden_params = Some c ->
                is_none c = false -> cache_key = c
        else key = []).
Proof.
  intros Hl Hs Hr.
  destruct (TagFacts.prepare_tags _ _ _ _ _ _ Hl)
    as (b & t0 & t1 & cm0 & cm1 & Hb & H0 & H1 & H2).
  rewrite Hs in Hb. inversion Hb; subst b.
  assert (E0 : t0 = VList (if with_tags then request else [])).
  { destruct with_tags; [rewrite Hr in H0|]; inversion H0; reflexivity. }
  subst t0.
  assert (Hfold : exists e1,
             t1 = VList ((if with_tags then request else []) ++ e1)
             /\ Forall2 (fun (kv : string * value) (t : value) =>
                           exists s, str env (snd kv) = Ok s
                                     /\ t = VStr (fst kv ++ ":" ++ s))
                        (filter (fun kv => in_default_tags env (fst kv))
                                metadata) e1).
  { destruct metadata as [|kv items].
    - simpl in H1. inversion H1; subst. exists []. rewrite app_nil_r.
      split; [reflexivity | constructor].
    - exact (TagOrderFacts.metadata_tags_in_order env _ _ _ _ _ H1). }
  destruct Hfold as (e1 & -> & Hmd).
  destruct (TagOrderFacts.special_tags_in_order env _ _ _ _ H2)
    as (hit & key & Ht & Hhit & Hkey).
  exists e1, hit, key. rewrite Ht, <- app_assoc.
  split; [reflexivity|]. split; [exact Hmd|]. split; assumption.
Qed.

Lemma default_tags_are_derived_witness :
  Locals.tags DemoTags.event
  = VList [VStr "team-a"; VStr "user_api_key_alias:alice";
           VStr "cache_hit:True"].
Proof.
  destruct (default_tags_are_derived
              DemoTags.env (Demo.self_at "2.7.3") DemoTags.metadata
              DemoTags.kwargs (VStr "call-1") DemoTags.event true
              [VStr "team-a"] eq_refl eq_refl eq_refl)
    as (from_metadata & hit & key & Ht & Hmd & Hhit & Hkey).
  cbn in Hhit, Hkey. subst key.
  destruct Hhit as (s & Hs & ->). inversion Hs; subst s.
  cbn in Hmd. inversion Hmd as [|kv t rest rest' (s & Hs' & ->) Hrest];
    subst.
  inversion Hrest; subst. cbn in Hs'. inversion Hs'; subst s.
  exact Ht.
Defined.

Module TraceTagFacts.

Lemma finish_tags env self l kwargs lp tp0 cm0 kw tp cm cost :
  finish_trace_params env self l kwargs lp tp0 cm0 = Ok (kw, tp, cm, cost) ->
  _supports_tags self = Ok true ->
  is_none (Locals.existing_trace_id l) = true ->
  exists tags,
    Dict.get "tags" tp = Some tags
    /\ (if in_default_tags env "proxy_base_url"
           && negb (is_none (PROXY_BASE_URL env))
        then append_tag env (Locals.tags l) "proxy_base_url"
                        (PROXY_BASE_URL env) = Ok tags
        else tags = Locals.tags l).
Proof.
  unfold finish_trace_params. intros E Hs Hnew.
  destruct (if negb (is_none (Locals.standard_logging_object l))
            then _ else _) as [cm1|]; [|discriminate E].
  cbn [rbind] in E.
  destruct (if in_default_tags env "proxy_base_url" && _ then _ else _)
    as [tags|] eqn:Ht; [|discriminate E].
  cbn [rbind] in E.
  destruct (Py.get lp "api_base" VNone) as [api_base|]; [|discriminate E].
  cbn [rbind] in E. rewrite Hs in E. cbn [rbind] in E.
  destruct (walk_proxy_server_request lp); [|discriminate E].
  cbn [rbind] in E. inversion E; subst; clear E.
  rewrite Hnew. cbn [andb]. exists tags. split.
  - apply DictFacts.get_set_eq.
  - destruct (in_default_tags env "proxy_base_url" && _).
    + exact Ht.
    + inversion Ht. reflexivity.
Qed.

End TraceTagFacts.

(** X6. When the SDK supports tags, a new trace is submitted with the
    tags of the event, after which comes only the tag of the proxy base
    URL when that is configured; so the request tags of the standard
    logging object lead the tags of the trace. A [trace_tags] entry of
    the metadata does not replace them. *)
Theorem new_trace_carries_the_event_tags
        {B : Type} (sdk : Sdk B) (env : Env) (self : LangFuseLogger)
        (user_id metadata litellm_params output start_time end_time : value)
        (kwargs optional_params : dict) (input : value)
        (response_obj : Response) (level : string) (litellm_call_id : value)
        (w w' : World B) (r : result (value * value)) (l : Locals.t)
        (tags : list value) :
  _log_langfuse_v2 sdk env self user_id metadata litellm_params output
    start_time end_time kwargs optional_params input response_obj level
    litellm_call_id w = (r, w') ->
  prepare env self metadata kwargs litellm_call_id = Ok l ->
  _supports_tags self = Ok true ->
  is_none (Locals.existing_trace_id l) = true ->
  Locals.tags l = VList tags ->
  forall tp ok,
    In (Call_trace tp ok) (new_calls w w') ->
    if in_default_tags env "proxy_base_url"
       && negb (is_none (PROXY_BASE_URL env))
    then exists s,
        str env (PROXY_BASE_URL env) = Ok s
        /\ Dict.get "tags" tp
           = Some (VList (tags ++ [VStr ("proxy_base_url:" ++ s)]))
    else Dict.get "tags" tp = Some (VList tags).
Proof.
  intros Run Hl Hs Hnew Htags tp ok Hin.
  destruct (Submitted.trace _ _ _ _ _ _ _ _ _ _ _ _ _ _ _ _ _ _
              Run tp ok Hin)
    as (l' & tp0 & cm0 & kw & cm & cost & Hp & Hb & Hf).
  rewrite Hl in Hp. inversion Hp; subst l'.
  destruct (TraceTagFacts.finish_tags _ _ _ _ _ _ _ _ _ _ _ Hf Hs Hnew)
    as (t & Hget & Ht).
  destruct (in_default_tags env "proxy_base_url"
            && negb (is_none (PROXY_BASE_URL env))).
  - rewrite Htags in Ht.
    apply TagFacts.append_tag_list in Ht as (s & Hstr & ->).
    exists s. auto.
  - subst t. rewrite Hget, Htags. reflexivity.
Qed.

Lemma new_trace_carries_the_event_tags_witness :
  exists tp,
    In (Call_trace tp true) (new_calls (Demo.world []) (snd DemoTags.v2))
    /\ Dict.get "tags" tp
       = Some (VList [VStr "team-a"; VStr "user_api_key_alias:alice";
                      VStr "cache_hit:True"]).
Proof.
  exists (hd [] (Demo.traces (calls (snd DemoTags.v2)))).
  assert (Hin : In (Call_trace
                      (hd [] (Demo.traces (calls (snd DemoTags.v2)))) true)
                   (new_calls (Demo.world []) (snd DemoTags.v2)))
    by (vm_compute; left; reflexivity).
  split; [exact Hin|].
  exact (new_trace_carries_the_event_tags
              Demo.sdk DemoTags.env (Demo.self_at "2.7.3")
              VNone (VDict DemoTags.metadata) (VDict []) (VStr "out")
              (VStr "t0") (VStr "t1") DemoTags.kwargs [] (VStr "in")
              Demo.chat_response "DEFAULT" (VStr "call-1")
              (Demo.world []) (snd DemoTags.v2) (fst DemoTags.v2)
              DemoTags.event
              [VStr "team-a"; VStr "user_api_key_alias:alice";
               VStr "cache_hit:True"]
              (surjective_pairing DemoTags.v2) eq_refl eq_refl eq_refl
              eq_refl _ _ Hin).
Defined.

(** ** What the metadata of a generation leaves out *)

Module CleanFacts.

Lemma clean_fold_absent env items : forall t cm t' cm' k,
  rfold (clean_step env) items (t, cm) = Ok (t', cm') ->
  dropped_key k = true -> Dict.get k cm = None -> Dict.get k cm' = None.
Proof.
  induction items as [|[k0 v0] items IH]; intros t cm t' cm' k E Hd H;
    cbn [rfold] in E.
  - inversion E; subst. exact H.
  - unfold clean_step at 1 in E.
    destruct (if in_default_tags env k0 then _ else _) as [t1|];
      [|discriminate E].
    cbn [rbind] in E. destruct (dropped_key k0) eqn:Hk0; cbn [rbind] in E.
    + exact (IH _ _ _ _ _ E Hd H).
    + apply (IH _ _ _ _ _ E Hd).
      rewrite DictFacts.get_set_neq; [exact H|].
      intros ->. congruence.
Qed.

Lemma pop_keys_absent ks d k :
  Dict.get k d = None -> Dict.get k (pop_keys ks d) = None.
Proof.
  intros H. rewrite BuildFacts.pop_keys_get.
  destruct (in_dec string_dec k ks); auto.
Qed.

Lemma remove_absent' k0 d k :
  Dict.get k d = None -> Dict.get k (Dict.remove k0 d) = None.
Proof.
  intros H. destruct (string_dec k0 k) as [->|N].
  - apply DictFacts.get_remove_eq.
  - rewrite DictFacts.get_remove_neq; assumption.
Qed.

Lemma update_fold_absent keys : forall tp cm tp' cm' k,
  rfold update_step keys (tp, cm) = Ok (tp', cm') ->
  Dict.get k cm = None -> Dict.get k cm' = None.
Proof.
  induction keys as [|key keys IH]; intros tp cm tp' cm' k E H;
    cbn [rfold] in E.
  - inversion E; subst. exact H.
  - destruct (update_step (tp, cm) key) as [[tp1 cm1]|] eqn:E1;
      [|discriminate E].
    cbn [rbind] in E.
    exact (IH _ _ _ _ _ E (BuildFacts.update_keeps_absent _ _ _ _ _ _ E1 H)).
Qed.

(** Building the trace only takes entries out of the metadata. *)
Lemma build_absent env l kwargs input output level tp0 cm0 k :
  build_trace_params env l kwargs input output level = Ok (tp0, cm0) ->
  Dict.get k (Locals.clean_metadata l) = None -> Dict.get k cm0 = None.
Proof.
  intros Hb H.
  destruct (BuildFacts.build_shape _ _ _ _ _ _ _ _ Hb) as [New Patch].
  destruct (is_none (Locals.existing_trace_id l)) eqn:He.
  - destruct (New eq_refl) as (name & _ & ->).
    unfold new_trace_params, Dict.pop.
    destruct (fold_left lift_step _ _) as [tp cm] eqn:E.
    destruct (String.eqb level "ERROR"); cbn [snd];
      change cm with (snd (tp, cm)); rewrite <- E;
      rewrite BuildFacts.lift_fold_metadata;
      apply pop_keys_absent, remove_absent', H.
  - destruct (Patch eq_refl) as (tp1 & Hp & _).
    destruct (BuildFacts.patch_shape _ _ _ _ _ Hp)
      as (elems & tp2 & cm2 & hi & ho & _ & Hfold & _ & _ & -> & _).
    apply pop_keys_absent. exact (update_fold_absent _ _ _ _ _ _ Hfold H).
Qed.

Lemma finish_absent env self l kwargs lp tp0 cm0 kw tp cm cost k :
  finish_trace_params env self l kwargs lp tp0 cm0 = Ok (kw, tp, cm, cost) ->
  ~ In k ["litellm_response_cost"; "hidden_params"; "api_base";
          "vertex_location"; "aws_region_name"; "cache_hit"] ->
  Dict.get k cm0 = None -> Dict.get k cm = None.
Proof.
  unfold finish_trace_params. intros E Hk H.
  assert (N : forall x, In x ["litellm_response_cost"; "hidden_params";
                              "api_base"; "vertex_location";
                              "aws_region_name"; "cache_hit"] -> x <> k)
    by (intros x Hx ->; exact (Hk Hx)).
  destruct (if negb (is_none (Locals.standard_logging_object l))
            then _ else _) as [cm1|] eqn:E1; [|discriminate E].
  cbn [rbind] in E.
  destruct (if in_default_tags env "proxy_base_url" && _ then _ else _)
    as [tags|]; [|discriminate E].
  cbn [rbind] in E.
  destruct (Py.get lp "api_base" VNone) as [api_base|]; [|discriminate E].
  cbn [rbind] in E.
  destruct (_supports_tags self) as [with_tags|]; [|discriminate E].
  cbn [rbind] in E.
  destruct (walk_proxy_server_request lp); [|discriminate E].
  cbn [rbind] in E. inversion E; subst; clear E.
  assert (H1 : Dict.get k cm1 = None).
  { destruct (negb (is_none (Locals.standard_logging_object l))).
    - destruct (Py.item _ "hidden_params"); [|discriminate].
      inversion E1; subst.
      rewrite !DictFacts.get_set_neq; auto; apply N; simpl; auto.
    - inversion E1; subst.
      rewrite DictFacts.get_set_neq; auto; apply N; simpl; auto. }
  assert (H2 : Dict.get k
                 (set_if_truthy "aws_region_name"
                    (Dict.get_default "aws_region_name" VNone kwargs)
                    (set_if_truthy "vertex_location"
                       (Dict.get_default "vertex_location" VNone kwargs)
                       (set_if_truthy "api_base" api_base cm1))) = None).
  { rewrite !BuildFacts.set_if_truthy_get; auto;
      intros ->; apply Hk; simpl; auto 10. }
  destruct with_tags; auto.
  destruct (Dict.get "cache_hit" _); auto.
  rewrite DictFacts.get_set_neq; auto. apply N. simpl. auto 10.
Qed.

Lemma generation_metadata env self l kwargs cm optional_params input output
      start_time end_time cost response_obj level gp0 cm1 gid :
  build_generation_params env self l kwargs cm optional_params input output
    start_time end_time cost response_obj level = Ok (gp0, cm1, gid) ->
  exists m,
    Dict.get "metadata" gp0 = Some (VDict m)
    /\ forall x, x <> "requester_metadata" ->
                 Dict.get x cm = None \/ x = "generation_name"
                 \/ x = "generation_id" ->
                 Dict.get x m = None.
Proof.
  unfold build_generation_params, Dict.pop. intros E.
  destruct (usage_of self response_obj cost) as [usage|];
    [|discriminate E].
  cbn [rbind] in E.
  destruct (if is_none (Dict.get_default "generation_name" VNone cm)
            then _ else _) as [generation_name|]; [|discriminate E].
  cbn [rbind] in E.
  destruct (Py.item (VDict kwargs) "model") as [model|]; [|discriminate E].
  cbn [rbind] in E.
  destruct (log_requester_metadata _) as [m|] eqn:Em; [|discriminate E].
  cbn [rbind] in E.
  destruct (Py.get (Locals.metadata l) "parent_observation_id" VNone)
    as [parent|]; [|discriminate E].
  cbn [rbind] in E. inversion E; subst; clear E.
  exists m. split.
  - destruct (negb (is_none parent)); BuildFacts.other_key; reflexivity.
  - intros x Nx Hx. apply DictFacts.get_none_not_key. intros Hin.
    destruct (BuildFacts.requester_keys _ _ _ Em Hin) as [->|Hk];
      [congruence|].
    apply DictFacts.keys_remove in Hk as [N1 Hk].
    apply DictFacts.keys_remove in Hk as [N2 Hk].
    destruct Hx as [Hx|[->| ->]]; try congruence.
    apply DictFacts.get_none_not_key in Hx. contradiction.
Qed.

Lemma prepare_clean env self metadata kwargs litellm_call_id l k :
  prepare env self metadata kwargs litellm_call_id = Ok l ->
  (forall m x, Dict.get x m = None ->
               Dict.get x (redact_user_api_key_info env m) = None) ->
  In k ["headers"; "endpoint"; "caching_groups"; "previous_models";
        "session_id"; "trace_name"; "trace_id"; "existing_trace_id";
        "update_trace_keys"; "debug_langfuse"; "mask_input";
        "mask_output"] ->
  Dict.get k (Locals.clean_metadata l) = None.
Proof.
  intros Hl Hredact Hk.
  destruct (TagFacts.prepare_tags _ _ _ _ _ _ Hl)
    as (b & t0 & t1 & cm0 & cm1 & _ & _ & H1 & _).
  unfold prepare in Hl.
  destruct (_supports_tags self) as [with_tags|]; [|discriminate Hl].
  cbn [rbind] in Hl.
  destruct (if with_tags then _ else _) as [tags|]; [|discriminate Hl].
  cbn [rbind] in Hl.
  destruct (if is_none _ then _ else _) as [[end_user_id pmm]|];
    [|discriminate Hl].
  cbn [rbind] in Hl.
  match type of Hl with
  | context [match ?md with VDict items => rfold _ items (_, ?c) | _ => _ end]
    => set (cmi := c) in *; set (mdv := md) in *
  end.
  destruct (match mdv with
            | VDict items => rfold (clean_step env) items (tags, cmi)
            | _ => Ok (tags, cmi)
            end) as [[tags' cm]|] eqn:Hfold; [|discriminate Hl].
  cbn [rbind] in Hl.
  destruct (add_default_langfuse_tags env tags' kwargs _);
    [|discriminate Hl].
  cbn [rbind] in Hl. unfold Dict.pop in Hl. inversion Hl; subst; clear Hl.
  cbn [Locals.clean_metadata]. apply Hredact.
  assert (Hinit : forall x, dropped_key x = true -> Dict.get x cmi = None).
  { intros x Hx. unfold cmi. destruct (is_none pmm); [reflexivity|].
    simpl. destruct (String.eqb_spec x "prompt_management_metadata");
      [subst; discriminate | reflexivity]. }
  assert (Hdrop : forall x, dropped_key x = true -> Dict.get x cm = None).
  { intros x Hx. destruct mdv; try (inversion Hfold; subst; auto; fail).
    exact (clean_fold_absent _ _ _ _ _ _ _ Hfold Hx (Hinit x Hx)). }
  destruct Hk as [<-|[<-|[<-|[<-|Hk]]]];
    try (repeat apply remove_absent'; apply Hdrop; reflexivity).
  repeat (destruct Hk as [<-|Hk];
          [repeat (rewrite DictFacts.get_remove_neq by discriminate);
           apply DictFacts.get_remove_eq|]).
  destruct Hk.
Qed.

End CleanFacts.

(** X7. Provided the redaction adds no key, the metadata of a submitted
    generation never holds, at its top level, the request fields that
    are dropped ([headers], [endpoint], [caching_groups],
    [previous_models]) nor the control fields of the logger
    ([session_id], [trace_name], [trace_id], [existing_trace_id],
    [update_trace_keys], [debug_langfuse], [mask_input], [mask_output],
    [generation_name], [generation_id]), whatever the request metadata
    holds. *)
Theorem generation_metadata_leaves_out_control_fields
        {B : Type} (sdk : Sdk B) (env : Env) (self : LangFuseLogger)
        (user_id metadata litellm_params output start_time end_time : value)
        (kwargs optional_params : dict) (input : value)
        (response_obj : Response) (level : string) (litellm_call_id : value)
        (w w' : World B) (r : result (value * value)) :
  _log_langfuse_v2 sdk env self user_id metadata litellm_params output
    start_time end_time kwargs optional_params input response_obj level
    litellm_call_id w = (r, w') ->
  (forall m x, Dict.get x m = None ->
               Dict.get x (redact_user_api_key_info env m) = None) ->
  forall gp ok,
    In (Call_generation gp ok) (new_calls w w') ->
    exists m,
      Dict.get "metadata" gp = Some (VDict m)
      /\ forall k,
          In k ["headers"; "endpoint"; "caching_groups"; "previous_models";
                "session_id"; "trace_name"; "trace_id"; "existing_trace_id";
                "update_trace_keys"; "debug_langfuse"; "mask_input";
                "mask_output"; "generation_name"; "generation_id"] ->
          Dict.get k m = None.
Proof.
  intros Run Hredact gp ok Hin.
  destruct (Submitted.generation _ _ _ _ _ _ _ _ _ _ _ _ _ _ _ _ _ _
              Run gp ok Hin)
    as (l & tp0 & cm0 & kw & tp & cm & cost & gp0 & cm1 & gid & gp1 & ws
        & Hp & Hb & Hf & Hg & Hk & ->).
  destruct (CleanFacts.generation_metadata _ _ _ _ _ _ _ _ _ _ _ _ _ _ _ _ Hg)
    as (m & Hm & Hclean).
  exists m. split.
  - rewrite BuildFacts.final_generation_other by discriminate.
    rewrite Hk by discriminate. exact Hm.
  - intros k Hin'.
    assert (Hsplit :
              In k ["headers"; "endpoint"; "caching_groups";
                    "previous_models"; "session_id"; "trace_name";
                    "trace_id"; "existing_trace_id"; "update_trace_keys";
                    "debug_langfuse"; "mask_input"; "mask_output"]
              \/ k = "generation_name" \/ k = "generation_id").
    { simpl in Hin'. simpl. intuition. }
    apply Hclean.
    + intros ->. simpl in Hin'. intuition discriminate.
    + destruct Hsplit as [H12|H2]; [left|right; exact H2].
      eapply CleanFacts.finish_absent; [exact Hf| |].
      * intros Hbad. simpl in H12, Hbad.
        intuition (subst; discriminate).
      * eapply CleanFacts.build_absent; [exact Hb|].
        exact (CleanFacts.prepare_clean _ _ _ _ _ _ _ Hp Hredact H12).
Qed.

Lemma generation_metadata_leaves_out_control_fields_witness :
  let md := [("headers", VDict [("authorization", VStr "secret")]);
             ("session_id", VStr "s1");
             ("generation_name", VStr "g");
             ("mask_input", VBool false);
             ("team", VStr "blue")] in
  let run := Demo.v2 [] md (VStr "in") (VStr "out") "DEFAULT" in
  exists gp m,
    In (Call_generation gp true) (new_calls (Demo.world []) (snd run))
    /\ Dict.get "metadata" gp = Some (VDict m)
    /\ Dict.get "team" m = Some (VStr "blue")
    /\ Dict.get "headers" m = None
    /\ Dict.get "session_id" m = None
    /\ Dict.get "generation_name" m = None
    /\ Dict.get "mask_input" m = None.
Proof.
  intros md run.
  assert (Hin : In (Call_generation
                      (hd [] (Demo.generations (calls (snd run)))) true)
                   (new_calls (Demo.world []) (snd run)))
    by (vm_compute; right; left; reflexivity).
  destruct (generation_metadata_leaves_out_control_fields
              Demo.sdk (Demo.env_at "2.7.3") (Demo.self_at "2.7.3")
              VNone (VDict md) (VDict []) (VStr "out") (VStr "t0")
              (VStr "t1") (Demo.record "completion" md) [] (VStr "in")
              Demo.chat_response "DEFAULT" (VStr "call-1")
              (Demo.world []) (snd run) (fst run)
              (surjective_pairing run) (fun m x H => H) _ _ Hin)
    as (m & Hm & Habsent).
  exists (hd [] (Demo.generations (calls (snd run)))), m.
  split; [exact Hin|]. split; [exact Hm|].
  split.
  - assert (E : match Dict.get "metadata"
                        (hd [] (Demo.generations (calls (snd run)))) with
                 | Some (VDict m') => Dict.get "team" m'
                 | _ => None
                 end = Some (VStr "blue"))
      by (vm_compute; reflexivity).
    rewrite Hm in E. exact E.
  - repeat split; apply Habsent; simpl; auto 20.
Defined.

Module LegacyFacts.

Lemma v1_run {B} (sdk : Sdk B) user_id metadata output start_time end_time
      kwargs optional_params input response_obj w r w' :
  _log_langfuse_v1 sdk user_id metadata output start_time end_time kwargs
    optional_params input response_obj w = (r, w') ->
  (new_calls w w' = [] /\ is_ok r = false)
  \/ exists name,
      Py.get metadata "generation_name" (VStr "litellm-completion") = Ok name
      /\ let tp := [("name", name); ("input", input); ("output", output);
                    ("userId", user_id)] in
         (exists ok, new_calls w w' = [Call_trace tp ok] /\ is_ok r = false)
         \/ exists model prompt_tokens completion_tokens ok,
             new_calls w w'
             = [Call_trace tp true;
                Call_generation
                  [("name", name);
                   ("startTime", start_time);
                   ("endTime", end_time);
                   ("model", model);
                   ("modelParameters", VDict optional_params);
                   ("prompt", input);
                   ("completion", output);
                   ("usage", VDict [("prompt_tokens", prompt_tokens);
                                    ("completion_tokens", completion_tokens)]);
                   ("metadata", metadata)] ok]
             /\ Py.item (VDict kwargs) "model" = Ok model
             /\ is_ok r = ok.
Proof.
  unfold _log_langfuse_v1, bind, lift, ret. intros E.
  destruct (Py.get metadata "generation_name" (VStr "litellm-completion"))
    as [name|e] eqn:En.
  2:{ inversion E; subst. left. split; [|reflexivity].
      apply RunFacts.new_calls_app. rewrite app_nil_r. reflexivity. }
  right. exists name. split; [reflexivity|]. cbv zeta.
  destruct (trace sdk _ w) as [[tr|e] w1] eqn:Et;
    pose proof (RunFacts.sdk_call_run _ _ _ _ _ Et) as Ht; cbn [is_ok] in Ht.
  2:{ inversion E; subst. left. exists false. split; [|reflexivity].
      apply RunFacts.new_calls_app. exact Ht. }
  destruct (Py.item (VDict kwargs) "model") as [model|e] eqn:Em.
  2:{ inversion E; subst. left. exists true. split; [|reflexivity].
      apply RunFacts.new_calls_app. exact Ht. }
  destruct (usage_attr response_obj prompt_tokens) as [pt|e].
  2:{ inversion E; subst. left. exists true. split; [|reflexivity].
      apply RunFacts.new_calls_app. exact Ht. }
  destruct (usage_attr response_obj completion_tokens) as [ct|e].
  2:{ inversion E; subst. left. exists true. split; [|reflexivity].
      apply RunFacts.new_calls_app. exact Ht. }
  right. exists model, pt, ct.
  destruct (generation sdk tr _ w1) as [[g|e] w2] eqn:Eg;
    pose proof (RunFacts.sdk_call_run _ _ _ _ _ Eg) as Hg; cbn [is_ok] in Hg;
    inversion E; subst; [exists true | exists false];
    (split; [|split; reflexivity]);
    apply RunFacts.new_calls_app; rewrite Hg, Ht, <- app_assoc; reflexivity.
Qed.

End LegacyFacts.

(** X8. With an SDK older than 2.0.0 the logger reports no identifier:
    [log_event_on_langfuse] returns [{"trace_id": None, "generation_id":
    None}] whatever happens, submits nothing when there is no response,
    and otherwise submits at most one trace, with the fields [name],
    [input], [output] and [userId], followed by at most one generation
    of that trace, which repeats the name, the input as [prompt] and
    the output as [completion]; the input and output are those of
    [_get_langfuse_input_output_content]. *)
Theorem legacy_sdk_reports_no_identifier
        {B : Type} (sdk : Sdk B) (env : Env) (self : LangFuseLogger)
        (kwargs : dict) (response_obj : Response)
        (start_time end_time user_id : value) (level : string)
        (status_message : value) (w w' : World B) (r : result dict) :
  _is_langfuse_v2 env = Ok false ->
  log_event_on_langfuse sdk env self kwargs response_obj start_time end_time
    user_id level status_message w = (r, w') ->
  r = Ok (ids VNone VNone)
  /\ (response_obj = NoResponse -> new_calls w w' = [])
  /\ (new_calls w w' = []
      \/ exists name prompt,
          let io := _get_langfuse_input_output_content
                      kwargs response_obj (VDict prompt) level
                      status_message in
          let tp := [("name", name); ("input", fst io);
                     ("output", snd io); ("userId", user_id)] in
          Dict.get "messages" prompt
          = Some (Dict.get_default "messages" VNone kwargs)
          /\ ((exists ok, new_calls w w' = [Call_trace tp ok])
              \/ exists gp ok,
                  new_calls w w'
                  = [Call_trace tp true; Call_generation gp ok]
                  /\ Dict.keys gp
                     = ["name"; "startTime"; "endTime"; "model";
                        "modelParameters"; "prompt"; "completion";
                        "usage"; "metadata"]
                  /\ Dict.get "name" gp = Some name
                  /\ Dict.get "prompt" gp = Some (fst io)
                  /\ Dict.get "completion" gp = Some (snd io)
                  /\ Dict.get "startTime" gp = Some start_time
                  /\ Dict.get "endTime" gp = Some end_time)).
Proof.
  intros Hv1 Run.
  assert (Hnil : forall v : World B, new_calls v v = []).
  { intros v. apply RunFacts.new_calls_app. rewrite app_nil_r. reflexivity. }
  unfold log_event_on_langfuse, try_except, bind, lift, ret in Run.
  rewrite Hv1 in Run.
  destruct (Py.get _ "metadata" (VDict [])) as [md|e];
    [|inversion Run; subst; rewrite Hnil; auto].
  destruct (add_metadata_from_header _ _) as [metadata|e];
    [|inversion Run; subst; rewrite Hnil; auto].
  destruct (Py.as_dict _) as [optional_params|e];
    [|inversion Run; subst; rewrite Hnil; auto].
  destruct (Dict.pop "functions" VNone optional_params)
    as [functions optional_params0].
  destruct (Dict.pop "tools" VNone optional_params0)
    as [tools optional_params1].
  match type of Run with
  | context [_get_langfuse_input_output_content _ _ (VDict ?p) _ _] =>
      set (prompt := p) in *
  end.
  assert (Hmessages : Dict.get "messages" prompt
                      = Some (Dict.get_default "messages" VNone kwargs)).
  { unfold prompt.
    destruct (negb (is_none tools)), (negb (is_none functions));
      repeat (rewrite DictFacts.get_set_neq by discriminate);
      reflexivity. }
  destruct (_get_langfuse_input_output_content
              kwargs response_obj (VDict prompt) level status_message)
    as [input output] eqn:Hio.
  destruct (is_not_None response_obj) eqn:Hresp.
  2:{ inversion Run; subst. rewrite Hnil. auto. }
  match type of Run with
  | context [_log_langfuse_v1 ?s ?u ?m ?o ?st ?et ?k ?op ?i ?ro w] =>
      destruct (_log_langfuse_v1 s u m o st et k op i ro w)
        as [[[]|e] w1] eqn:V1
  end;
    inversion Run; subst; clear Run;
    (split; [reflexivity|]);
    (split; [intros ->; discriminate Hresp|]);
    destruct (LegacyFacts.v1_run _ _ _ _ _ _ _ _ _ _ _ _ _ V1)
      as [[Hn _]|(name & Hname & [(ok & Hc & _)
                                  |(model & pt & ct & ok & Hc & _ & _)])];
    try (left; exact Hn);
    right; exists name, prompt; rewrite Hio; cbv zeta; cbn [fst snd];
    (split; [exact Hmessages|]);
    try (left; exists ok; exact Hc);
    right; eexists; exists ok; (split; [exact Hc|]);
    repeat split; reflexivity.
Qed.

Lemma legacy_sdk_reports_no_identifier_witness :
  let run := DemoUsage.legacy in
  fst run = Ok (ids VNone VNone)
  /\ exists tp gp,
      new_calls (Demo.world []) (snd run)
      = [Call_trace tp true; Call_generation gp true]
      /\ Dict.get "prompt" gp = Dict.get "input" tp.
Proof.
  intros run.
  destruct (legacy_sdk_reports_no_identifier
              Demo.sdk (Demo.env_at "1.9.9") (Demo.self_at "1.9.9")
              (Demo.record "completion" []) DemoUsage.response
              (VStr "t0") (VStr "t1") VNone "DEFAULT" VNone
              (Demo.world []) (snd run) (fst run)
              eq_refl (surjective_pairing run))
    as (Hr & _ & [Hn|(name & prompt & _ & [(ok & Hc)
                                          |(gp & ok & Hc & _ & _ & Hp & _)])]).
  - vm_compute in Hn. discriminate Hn.
  - vm_compute in Hc. discriminate Hc.
  - split; [exact Hr|].
    assert (Hok : ok = true).
    { assert (E : map call_ok (new_calls (Demo.world []) (snd run))
                  = [true; true]) by (vm_compute; reflexivity).
      rewrite Hc in E. simpl in E. congruence. }
    subst ok. eexists; exists gp. split; [exact Hc|].
    rewrite Hp. reflexivity.
Defined.

(** ** The constructor *)

Module InitFacts.

Lemma startswith_app p s : PyStr.startswith p (p ++ s)%string = true.
Proof.
  unfold PyStr.startswith. induction p as [|c p IH]; simpl.
  - destruct s; reflexivity.
  - destruct (ascii_dec c c) as [_|N]; [exact IH | congruence].
Qed.

Lemma with_scheme_has_scheme host h :
  with_scheme host = Ok h ->
  PyStr.startswith "http://" h || PyStr.startswith "https://" h = true.
Proof.
  unfold with_scheme. destruct host as [| | | |s| | |]; try discriminate.
  destruct (PyStr.startswith "http://" s || PyStr.startswith "https://" s)
    eqn:Hs; cbn [negb]; intros E; inversion E; subst.
  - exact Hs.
  - apply orb_true_iff. left. exact (startswith_app "http://" s).
Qed.

Lemma ge_release_minor (a b c x y : N) :
  y <> 0%N ->
  Version.ge_release [a; b; c] [x; y; 0%N] = true <->
  (x < a \/ (a = x /\ y <= b))%N.
Proof.
  intros Hy. unfold Version.ge_release. simpl.
  destruct (N.eqb_spec y 0) as [?|_]; [congruence|].
  destruct (N.eqb_spec c 0) as [->|Hc];
    [destruct (N.eqb_spec b 0) as [->|Hb];
     [destruct (N.eqb_spec a 0) as [->|Ha]|]|];
    simpl;
    repeat match goal with
           | |- context [(?u ?= ?v)%N] =>
               destruct (N.compare_spec u v); simpl
           end;
    split; intros Hgoal; try discriminate; try reflexivity; try lia.
Qed.

Section Run.

Context {B : Type} (sdk : Sdk B) (env : Env) (deps : Init.Deps B).

Local Abbreviation MAX := (MAX_LANGFUSE_INITIALIZED_CLIENTS env).
Local Abbreviation count := (@initialized_langfuse_clients B).

(** The parameters the client is created with. *)
Lemma init_run langfuse_public_key langfuse_secret langfuse_host
      flush_interval environ w r w' :
  __init__ sdk env deps langfuse_public_key langfuse_secret langfuse_host
    flush_interval environ w = (r, w') ->
  (is_ok r = false /\ w' = w)
  \/ exists host interval httpx integration,
      with_scheme
        (py_or langfuse_host
               (Dict.get_default "LANGFUSE_HOST"
                  (VStr "https://cloud.langfuse.com") environ)) = Ok host
      /\ _get_langfuse_flush_interval deps flush_interval environ
         = Ok interval
      /\ Init.httpx_client deps = Ok httpx
      /\ Version.ge (langfuse_version env) "2.6.0" = Ok integration
      /\ (count w < MAX)%Z
      /\ let base :=
           [("public_key",
             py_or langfuse_public_key
                   (getenv "LANGFUSE_PUBLIC_KEY" environ));
            ("secret_key",
             py_or langfuse_secret (getenv "LANGFUSE_SECRET_KEY" environ));
            ("host", VStr host);
            ("release", getenv "LANGFUSE_RELEASE" environ);
            ("debug", getenv "LANGFUSE_DEBUG" environ);
            ("flush_interval", interval);
            ("httpx_client", httpx)] in
         let p := if integration
                  then Dict.set "sdk_integration" (VStr "litellm") base
                  else base in
         (new_calls w w' = [Call_Langfuse p false]
          /\ is_ok r = false /\ count w' = count w)
         \/ exists client environ',
             fst (sdk_Langfuse sdk p (backend w)) = Ok client
             /\ new_calls w w' = [Call_Langfuse p true]
             /\ count w' = (count w + 1)%Z
             /\ environ'
                = match fst (Init.projects_get
                               deps client
                               (snd (sdk_Langfuse sdk p (backend w)))) with
                  | Ok (VStr project_id) =>
                      Dict.set "LANGFUSE_PROJECT_ID" (VStr project_id)
                               environ
                  | _ => environ
                  end
             /\ r = if negb (is_none (getenv "UPSTREAM_LANGFUSE_SECRET_KEY"
                                             environ'))
                    then Raise AttributeError
                    else Ok ({| Init.logger :=
                                  {| langfuse_sdk_version :=
                                       langfuse_version env |};
                                Init.secret_key :=
                                  py_or langfuse_secret
                                    (getenv "LANGFUSE_SECRET_KEY" environ);
                                Init.public_key :=
                                  py_or langfuse_public_key
                                    (getenv "LANGFUSE_PUBLIC_KEY" environ);
                                Init.langfuse_host := host;
                                Init.langfuse_release :=
                                  getenv "LANGFUSE_RELEASE" environ;
                                Init.langfuse_debug :=
                                  getenv "LANGFUSE_DEBUG" environ;
                                Init.langfuse_flush_interval := interval;
                                Init.langfuse_client := httpx;
                                Init.Langfuse := client;
                                Init.upstream_langfuse := VNone |},
                             environ').
Proof.
  unfold __init__, bind, lift. intros E.
  destruct (with_scheme _) as [host|e] eqn:Hhost;
    [|inversion E; subst; left; auto].
  destruct (_get_langfuse_flush_interval deps flush_interval environ)
    as [interval|e] eqn:Hint; [|inversion E; subst; left; auto].
  destruct (Init.httpx_client deps) as [httpx|e] eqn:Hhttpx;
    [|inversion E; subst; left; auto].
  destruct (Version.ge (langfuse_version env) "2.6.0")
    as [integration|e] eqn:Hver; [|inversion E; subst; left; auto].
  match type of E with
  | context [safe_init_langfuse_client sdk env ?q w] => set (p := q) in *
  end.
  destruct (Z.lt_ge_cases (count w) MAX) as [Hlt|Hge].
  2:{ rewrite (CapFacts.full sdk env w p Hge) in E.
      inversion E; subst. left. auto. }
  right. exists host, interval, httpx, integration.
  repeat (split; [reflexivity || assumption|]).
  cbv zeta. fold p.
  unfold safe_init_langfuse_client in E.
  destruct (Z.leb_spec MAX (count w)); [lia|].
  unfold bind, sdk_call, bump_initialized_langfuse_clients, ret in E.
  destruct (sdk_Langfuse sdk p (backend w)) as [[client|e] b] eqn:Hsdk;
    cbn [is_ok] in E.
  2:{ inversion E; subst. left. cbn [calls initialized_langfuse_clients].
      split; [|auto]. apply RunFacts.new_calls_app. reflexivity. }
  right. unfold resolve_project_id in E.
  cbn [backend calls initialized_langfuse_clients] in E.
  destruct (Init.projects_get deps client b) as [rp b'] eqn:Hproj.
  match type of E with
  | context [getenv "UPSTREAM_LANGFUSE_SECRET_KEY" ?e'] =>
      set (environ' := e') in *
  end.
  exists client, environ'.
  split; [reflexivity|].
  assert (Hw : new_calls w w' = [Call_Langfuse p true]
               /\ count w' = (count w + 1)%Z
               /\ r = if negb (is_none
                                 (getenv "UPSTREAM_LANGFUSE_SECRET_KEY"
                                         environ'))
                      then Raise AttributeError
                      else Ok ({| Init.logger :=
                                    {| langfuse_sdk_version :=
                                         langfuse_version env |};
                                  Init.secret_key :=
                                    py_or langfuse_secret
                                      (getenv "LANGFUSE_SECRET_KEY" environ);
                                  Init.public_key :=
                                    py_or langfuse_public_key
                                      (getenv "LANGFUSE_PUBLIC_KEY" environ);
                                  Init.langfuse_host := host;
                                  Init.langfuse_release :=
                                    getenv "LANGFUSE_RELEASE" environ;
                                  Init.langfuse_debug :=
                                    getenv "LANGFUSE_DEBUG" environ;
                                  Init.langfuse_flush_interval := interval;
                                  Init.langfuse_client := httpx;
                                  Init.Langfuse := client;
                                  Init.upstream_langfuse := VNone |},
                               environ')).
  { destruct (negb (is_none (getenv "UPSTREAM_LANGFUSE_SECRET_KEY"
                                    environ')));
      unfold raise, ret in E; inversion E; subst;
      cbn [calls initialized_langfuse_clients];
      (split; [apply RunFacts.new_calls_app; reflexivity|]);
      split; reflexivity. }
  destruct Hw as (H1 & H2 & H3).
  repeat (split; [assumption|]).
  split; [|exact H3].
  unfold environ'. cbn [fst snd]. rewrite Hproj. reflexivity.
Qed.

End Run.

End InitFacts.

(** X9. Whatever host the constructor is given, by argument or by
    [LANGFUSE_HOST], the client is created with a host that starts with
    [http://] or [https://], and the instance keeps that same host. *)
Theorem constructor_gives_the_host_a_scheme
        {B : Type} (sdk : Sdk B) (env : Env) (deps : Init.Deps B)
        (langfuse_public_key langfuse_secret langfuse_host
           flush_interval : value) (environ : dict)
        (w w' : World B) (r : result (Init.t * dict)) :
  __init__ sdk env deps langfuse_public_key langfuse_secret langfuse_host
    flush_interval environ w = (r, w') ->
  (forall p ok,
      In (Call_Langfuse p ok) (new_calls w w') ->
      exists host,
        Dict.get "host" p = Some (VStr host)
        /\ PyStr.startswith "http://" host
           || PyStr.startswith "https://" host = true
        /\ forall instance environ',
            r = Ok (instance, environ') ->
            Init.langfuse_host instance = host)
  /\ forall instance environ',
      r = Ok (instance, environ') ->
      exists p, new_calls w w' = [Call_Langfuse p true].
Proof.
  intros Run.
  destruct (InitFacts.init_run _ _ _ _ _ _ _ _ _ _ _ Run)
    as [[Hr ->]|(host & interval & httpx & integration & Hhost & _ & _ & _
                 & _ & Hcases)].
  - split.
    + intros p ok Hin. exfalso.
      assert (Hnil : new_calls w w = [])
        by (apply RunFacts.new_calls_app; rewrite app_nil_r; reflexivity).
      rewrite Hnil in Hin. exact Hin.
    + intros instance environ' ->. discriminate Hr.
  - cbv zeta in Hcases.
    match type of Hcases with
    | context [Call_Langfuse ?q false] => set (p0 := q) in *
    end.
    assert (Hget : Dict.get "host" p0 = Some (VStr host)).
    { unfold p0. destruct integration;
        [rewrite DictFacts.get_set_neq by discriminate|]; reflexivity. }
    destruct Hcases as [(Hc & Hr & _)
                       |(client & environ1 & _ & Hc & _ & _ & Hr)].
    + split.
      * intros p ok Hin. rewrite Hc in Hin.
        destruct Hin as [Hin|[]]. inversion Hin; subst.
        exists host. split; [exact Hget|].
        split; [exact (InitFacts.with_scheme_has_scheme _ _ Hhost)|].
        intros instance environ' ->. discriminate Hr.
      * intros instance environ' ->. discriminate Hr.
    + split.
      * intros p ok Hin. rewrite Hc in Hin.
        destruct Hin as [Hin|[]]. inversion Hin; subst.
        exists host. split; [exact Hget|].
        split; [exact (InitFacts.with_scheme_has_scheme _ _ Hhost)|].
        intros instance environ' Hok.
        destruct (negb (is_none _)); [discriminate Hok|].
        inversion Hok; subst. reflexivity.
      * intros _ _ _. exists p0. exact Hc.
Qed.

Lemma constructor_gives_the_host_a_scheme_witness :
  let run := DemoInit.construct (VStr "langfuse.internal:3000") [] in
  exists p,
    new_calls Demo.fresh (snd run) = [Call_Langfuse p true]
    /\ Dict.get "host" p = Some (VStr "http://langfuse.internal:3000").
Proof.
  intros run.
  destruct (constructor_gives_the_host_a_scheme
              Demo.working (Demo.env_at "2.7.3") DemoInit.deps
              (VStr "pk") (VStr "sk") (VStr "langfuse.internal:3000")
              (VInt 1) [] Demo.fresh (snd run) (fst run)
              (surjective_pairing run)) as [Hhost Hone].
  assert (Hok : exists instance environ',
             fst run = Ok (instance, environ')
             /\ Init.langfuse_host instance
                = "http://langfuse.internal:3000")
    by (vm_compute; eexists; eexists; split; reflexivity).
  destruct Hok as (instance & environ' & Hok & Hinst).
  destruct (Hone instance environ' Hok) as (p & Hp).
  exists p. split; [exact Hp|].
  destruct (Hhost p true) as (host & Hget & _ & Hsame).
  - rewrite Hp. left. reflexivity.
  - rewrite Hget, <- (Hsame instance environ' Hok), Hinst. reflexivity.
Defined.

(** X10. The client is told that it is created by this integration
    exactly from SDK version 2.6.0 on: for a release [a.b.c] the
    parameters hold [sdk_integration = "litellm"] when [a > 2], or
    [a = 2] and [b >= 6], and have no such entry otherwise. *)
Theorem sdk_integration_from_2_6_0
        {B : Type} (sdk : Sdk B) (env : Env) (deps : Init.Deps B)
        (langfuse_public_key langfuse_secret langfuse_host
           flush_interval : value) (environ : dict)
        (w w' : World B) (r : result (Init.t * dict)) (a b c : N) :
  __init__ sdk env deps langfuse_public_key langfuse_secret langfuse_host
    flush_interval environ w = (r, w') ->
  Version.parse (langfuse_version env) = Some [a; b; c] ->
  forall p ok,
    In (Call_Langfuse p ok) (new_calls w w') ->
    Dict.keys p
    = ["public_key"; "secret_key"; "host"; "release"; "debug";
       "flush_interval"; "httpx_client"]
      ++ (if (2 <? a)%N || ((a =? 2)%N && (6 <=? b)%N)
          then ["sdk_integration"] else [])
    /\ Dict.get "sdk_integration" p
       = if (2 <? a)%N || ((a =? 2)%N && (6 <=? b)%N)
         then Some (VStr "litellm") else None.
Proof.
  intros Run Hparse p ok Hin.
  destruct (InitFacts.init_run _ _ _ _ _ _ _ _ _ _ _ Run)
    as [[Hr ->]|(host & interval & httpx & integration & _ & _ & _ & Hver
                 & _ & Hcases)].
  - exfalso.
    assert (Hnil : new_calls w w = [])
      by (apply RunFacts.new_calls_app; rewrite app_nil_r; reflexivity).
    rewrite Hnil in Hin. exact Hin.
  - assert (Hi : integration
                 = (2 <? a)%N || ((a =? 2)%N && (6 <=? b)%N)).
    { unfold Version.ge in Hver. rewrite Hparse in Hver.
      change (Version.parse "2.6.0") with (Some [2; 6; 0]%N) in Hver.
      inversion Hver as [Hge]. clear Hver.
      pose proof (InitFacts.ge_release_minor a b c 2 6) as Hiff.
      destruct (Version.ge_release [a; b; c] [2; 6; 0]%N);
        destruct (N.ltb_spec 2 a), (N.eqb_spec a 2), (N.leb_spec 6 b);
        simpl; try reflexivity; exfalso;
        destruct Hiff as [H1 H2]; try discriminate;
        try (specialize (H1 eq_refl); lia);
        try (assert (true = false) by (symmetry; apply H2; lia);
             discriminate);
        try (assert (false = true) by (apply H2; lia); discriminate). }
    cbv zeta in Hcases. rewrite <- Hi.
    assert (Hp : p = if integration
                     then Dict.set "sdk_integration" (VStr "litellm")
                            [("public_key",
                              py_or langfuse_public_key
                                (getenv "LANGFUSE_PUBLIC_KEY" environ));
                             ("secret_key",
                              py_or langfuse_secret
                                (getenv "LANGFUSE_SECRET_KEY" environ));
                             ("host", VStr host);
                             ("release", getenv "LANGFUSE_RELEASE" environ);
                             ("debug", getenv "LANGFUSE_DEBUG" environ);
                             ("flush_interval", interval);
                             ("httpx_client", httpx)]
                     else [("public_key",
                            py_or langfuse_public_key
                              (getenv "LANGFUSE_PUBLIC_KEY" environ));
                           ("secret_key",
                            py_or langfuse_secret
                              (getenv "LANGFUSE_SECRET_KEY" environ));
                           ("host", VStr host);
                           ("release", getenv "LANGFUSE_RELEASE" environ);
                           ("debug", getenv "LANGFUSE_DEBUG" environ);
                           ("flush_interval", interval);
                           ("httpx_client", httpx)]).
    { destruct Hcases as [(Hc & _)|(client & environ1 & _ & Hc & _)];
        rewrite Hc in Hin; destruct Hin as [Hin|[]];
        inversion Hin; reflexivity. }
    rewrite Hp. destruct integration; split; reflexivity.
Qed.

Lemma sdk_integration_from_2_6_0_witness :
  let run := DemoInit.construct (VStr "https://cloud.langfuse.com") [] in
  exists p,
    In (Call_Langfuse p true) (new_calls Demo.fresh (snd run))
    /\ Dict.get "sdk_integration" p = Some (VStr "litellm").
Proof.
  intros run.
  assert (Hin : exists p,
             In (Call_Langfuse p true) (new_calls Demo.fresh (snd run)))
    by (vm_compute; eexists; left; reflexivity).
  destruct Hin as (p & Hin). exists p. split; [exact Hin|].
  exact (proj2 (sdk_integration_from_2_6_0
                  Demo.working (Demo.env_at "2.7.3") DemoInit.deps
                  (VStr "pk") (VStr "sk") (VStr "https://cloud.langfuse.com")
                  (VInt 1) [] Demo.fresh (snd run) (fst run) 2 7 3
                  (surjective_pairing run) eq_refl p true Hin)).
Defined.

(** X11. One construction creates at most one client and counts it
    exactly when the SDK created it: the calls of a run are none, one
    failed creation (counter unchanged) or one successful creation
    (counter one higher, and it was below the ceiling).  At the
    ceiling the constructor fails and leaves everything as it was; when
    it returns an instance, exactly one client was created. *)
Theorem constructor_counts_one_client
        {B : Type} (sdk : Sdk B) (env : Env) (deps : Init.Deps B)
        (langfuse_public_key langfuse_secret langfuse_host
           flush_interval : value) (environ : dict)
        (w w' : World B) (r : result (Init.t * dict)) :
  __init__ sdk env deps langfuse_public_key langfuse_secret langfuse_host
    flush_interval environ w = (r, w') ->
  ((MAX_LANGFUSE_INITIALIZED_CLIENTS env
    <= initialized_langfuse_clients w)%Z ->
   is_ok r = false /\ w' = w)
  /\ ((new_calls w w' = []
       /\ initialized_langfuse_clients w' = initialized_langfuse_clients w
       /\ is_ok r = false)
      \/ (exists p,
             new_calls w w' = [Call_Langfuse p false]
             /\ initialized_langfuse_clients w'
                = initialized_langfuse_clients w
             /\ is_ok r = false)
      \/ (exists p,
             new_calls w w' = [Call_Langfuse p true]
             /\ initialized_langfuse_clients w'
                = (initialized_langfuse_clients w + 1)%Z
             /\ (initialized_langfuse_clients w
                 < MAX_LANGFUSE_INITIALIZED_CLIENTS env)%Z)).
Proof.
  intros Run.
  destruct (InitFacts.init_run _ _ _ _ _ _ _ _ _ _ _ Run)
    as [[Hr ->]|(host & interval & httpx & integration & _ & _ & _ & _
                 & Hlt & Hcases)].
  - split; [auto|]. left. split; [|auto].
    apply RunFacts.new_calls_app. rewrite app_nil_r. reflexivity.
  - cbv zeta in Hcases. split; [intros Hge; lia|].
    destruct Hcases as [(Hc & Hr & Hn)
                       |(client & environ1 & _ & Hc & Hn & _)].
    + right. left. eexists. split; [exact Hc|]. auto.
    + right. right. eexists. split; [exact Hc|]. auto.
Qed.

Lemma constructor_counts_one_client_witness :
  let run := DemoInit.construct (VStr "https://cloud.langfuse.com") [] in
  let full :=
    __init__ Demo.working (Demo.env_at "2.7.3") DemoInit.deps
             (VStr "pk") (VStr "sk") (VStr "https://cloud.langfuse.com")
             (VInt 1) []
             {| backend := tt; calls := [];
                initialized_langfuse_clients := 2 |} in
  initialized_langfuse_clients (snd run) = 1%Z
  /\ is_ok (fst full) = false
  /\ initialized_langfuse_clients (snd full) = 2%Z.
Proof.
  intros run full. split.
  - destruct (constructor_counts_one_client
                Demo.working (Demo.env_at "2.7.3") DemoInit.deps
                (VStr "pk") (VStr "sk") (VStr "https://cloud.langfuse.com")
                (VInt 1) [] Demo.fresh (snd run) (fst run)
                (surjective_pairing run))
      as [_ [(Hc & _)|[(p & Hc & _)|(p & _ & Hn & _)]]].
    + vm_compute in Hc. discriminate Hc.
    + vm_compute in Hc. discriminate Hc.
    + exact Hn.
  - destruct (constructor_counts_one_client
                Demo.working (Demo.env_at "2.7.3") DemoInit.deps
                (VStr "pk") (VStr "sk") (VStr "https://cloud.langfuse.com")
                (VInt 1) []
                {| backend := tt; calls := [];
                   initialized_langfuse_clients := 2 |}
                (snd full) (fst full) (surjective_pairing full))
      as [Hfull _].
    destruct Hfull as [Hr Hw]; [vm_compute; discriminate|].
    split; [exact Hr|]. rewrite Hw. reflexivity.
Defined.

(** X12. With [UPSTREAM_LANGFUSE_SECRET_KEY] set in the environment the
    constructor never returns an instance: once the client is created
    it reads [self.upstream_langfuse_debug] before that attribute is
    assigned and fails with an [AttributeError], and the client it
    created stays counted. *)
Theorem upstream_key_fails_the_construction
        {B : Type} (sdk : Sdk B) (env : Env) (deps : Init.Deps B)
        (langfuse_public_key langfuse_secret langfuse_host
           flush_interval : value) (environ : dict)
        (w w' : World B) (r : result (Init.t * dict)) :
  __init__ sdk env deps langfuse_public_key langfuse_secret langfuse_host
    flush_interval environ w = (r, w') ->
  is_none (getenv "UPSTREAM_LANGFUSE_SECRET_KEY" environ) = false ->
  is_ok r = false
  /\ forall p,
      In (Call_Langfuse p true) (new_calls w w') ->
      r = Raise AttributeError
      /\ initialized_langfuse_clients w'
         = (initialized_langfuse_clients w + 1)%Z.
Proof.
  intros Run Hup.
  destruct (InitFacts.init_run _ _ _ _ _ _ _ _ _ _ _ Run)
    as [[Hr ->]|(host & interval & httpx & integration & _ & _ & _ & _
                 & Hlt & Hcases)].
  - split; [exact Hr|]. intros p Hin. exfalso.
    assert (Hnil : new_calls w w = [])
      by (apply RunFacts.new_calls_app; rewrite app_nil_r; reflexivity).
    rewrite Hnil in Hin. exact Hin.
  - cbv zeta in Hcases.
    destruct Hcases as [(Hc & Hr & Hn)
                       |(client & environ1 & _ & Hc & Hn & He & Hr)].
    + split; [exact Hr|]. intros p Hin. rewrite Hc in Hin.
      destruct Hin as [Hin|[]]. discriminate Hin.
    + assert (Hup1 : is_none (getenv "UPSTREAM_LANGFUSE_SECRET_KEY"
                                     environ1) = false).
      { rewrite He.
        destruct (fst (Init.projects_get deps client _))
          as [[| | | |project_id| | |]|]; try exact Hup.
        unfold getenv, Dict.get_default in *.
        rewrite DictFacts.get_set_neq by discriminate. exact Hup. }
      rewrite Hup1 in Hr. cbn [negb] in Hr. subst r.
      split; [reflexivity|]. intros p _. split; [reflexivity | exact Hn].
Qed.

Lemma upstream_key_fails_the_construction_witness :
  let run :=
    DemoInit.construct (VStr "https://cloud.langfuse.com")
                       [("UPSTREAM_LANGFUSE_SECRET_KEY", VStr "sk-up")] in
  fst run = Raise AttributeError
  /\ initialized_langfuse_clients (snd run) = 1%Z.
Proof.
  intros run.
  assert (Hin : exists p,
             In (Call_Langfuse p true) (new_calls Demo.fresh (snd run)))
    by (vm_compute; eexists; left; reflexivity).
  destruct Hin as (p & Hin).
  exact (proj2 (upstream_key_fails_the_construction
                  Demo.working (Demo.env_at "2.7.3") DemoInit.deps
                  (VStr "pk") (VStr "sk") (VStr "https://cloud.langfuse.com")
                  (VInt 1) [("UPSTREAM_LANGFUSE_SECRET_KEY", VStr "sk-up")]
                  Demo.fresh (snd run) (fst run)
                  (surjective_pairing run) eq_refl) p Hin).
Defined.



(** X14. The lookup of the project has no part in the outcome of the
    construction: two constructions that differ only in what the lookup
    does succeed or fail together, with the same error or the same
    instance, create the same clients and leave the same counter. *)
Theorem project_lookup_never_fails_the_construction
        {B : Type} (sdk : Sdk B) (env : Env) (deps deps' : Init.Deps B)
        (langfuse_public_key langfuse_secret langfuse_host
           flush_interval : value) (environ : dict) (w : World B) :
  Init.httpx_client deps' = Init.httpx_client deps ->
  (forall v, Init.int deps' v = Init.int deps v) ->
  let run :=
    __init__ sdk env deps langfuse_public_key langfuse_secret
             langfuse_host flush_interval environ w in
  let run' :=
    __init__ sdk env deps' langfuse_public_key langfuse_secret
             langfuse_host flush_interval environ w in
  calls (snd run') = calls (snd run)
  /\ initialized_langfuse_clients (snd run')
     = initialized_langfuse_clients (snd run)
  /\ match fst run, fst run' with
     | Ok (instance, _), Ok (instance', _) => instance' = instance
     | Raise e, Raise e' => e' = e
     | _, _ => False
     end.
Proof.
  intros Hhttpx Hint run run'. subst run run'.
  unfold __init__, bind, lift, _get_langfuse_flush_interval.
  rewrite Hhttpx, Hint.
  destruct (with_scheme _) as [host|e]; [|cbn; auto].
  destruct (Init.int deps _) as [interval|e]; [|cbn; auto].
  destruct (Init.httpx_client deps) as [httpx|e]; [|cbn; auto].
  destruct (Version.ge (langfuse_version env) "2.6.0")
    as [integration|e]; [|cbn; auto].
  destruct (safe_init_langfuse_client sdk env _ w) as [[client|e] w1];
    [|cbn; auto].
  unfold resolve_project_id.
  destruct (Init.projects_get deps client (backend w1)) as [looked b].
  destruct (Init.projects_get deps' client (backend w1)) as [looked' b'].
  assert (Hup : forall (x : result value),
             getenv "UPSTREAM_LANGFUSE_SECRET_KEY"
                    match x with
                    | Ok (VStr project_id) =>
                        Dict.set "LANGFUSE_PROJECT_ID" (VStr project_id)
                                 environ
                    | _ => environ
                    end
             = getenv "UPSTREAM_LANGFUSE_SECRET_KEY" environ).
  { intros [[| | | |project_id| | |]|]; try reflexivity.
    unfold getenv, Dict.get_default.
    rewrite DictFacts.get_set_neq by discriminate. reflexivity. }
  rewrite !Hup.
  destruct (negb (is_none (getenv "UPSTREAM_LANGFUSE_SECRET_KEY" environ)));
    cbn; auto.
Qed.

Lemma project_lookup_never_fails_the_construction_witness :
  let offline :=
    __init__ Demo.working (Demo.env_at "2.7.3") DemoInit.deps_offline
             (VStr "pk") (VStr "sk") (VStr "https://cloud.langfuse.com")
             (VInt 1) [] Demo.fresh in
  is_ok (fst offline) = true
  /\ initialized_langfuse_clients (snd offline) = 1%Z.
Proof.
  intros offline.
  destruct (project_lookup_never_fails_the_construction
              Demo.working (Demo.env_at "2.7.3")
              DemoInit.deps DemoInit.deps_offline
              (VStr "pk") (VStr "sk") (VStr "https://cloud.langfuse.com")
              (VInt 1) [] Demo.fresh eq_refl (fun v => eq_refl))
    as (_ & Hn & Hsame).
  fold offline in Hn, Hsame. split.
  - destruct (fst offline) as [[instance e]|e]; [reflexivity|].
    vm_compute in Hsame. destruct Hsame.
  - rewrite Hn. vm_compute. reflexivity.
Defined.

(** ** The generation and what the call returns *)

Module OnlyFacts.

Lemma only_ret {B A} P (a : A) : only P (@ret B A a).
Proof.
  intros w r w' E. inversion E; subst. exists []. rewrite app_nil_r. auto.
Qed.

Lemma only_lift {B A} P (x : result A) : only P (@lift B A x).
Proof.
  intros w r w' E. inversion E; subst. exists []. rewrite app_nil_r. auto.
Qed.

Lemma only_bind {B A C} P (m : M B A) (k : A -> M B C) :
  only P m -> (forall a, only P (k a)) -> only P (bind m k).
Proof.
  intros Hm Hk w r w' E. unfold bind in E.
  destruct (m w) as [[a|e] w1] eqn:Em.
  - destruct (Hm _ _ _ Em) as (n1 & E1 & S1).
    destruct (Hk a _ _ _ E) as (n2 & E2 & S2).
    exists (n1 ++ n2). rewrite E2, E1, app_assoc. split; [reflexivity|].
    rewrite forallb_app, S1, S2. reflexivity.
  - inversion E; subst. exact (Hm _ _ _ Em).
Qed.

Lemma only_for_each {B X} P (body : X -> M B unit) xs :
  (forall x, only P (body x)) -> only P (for_each body xs).
Proof.
  intros Hb. induction xs as [|x xs IH]; simpl.
  - apply only_ret.
  - apply only_bind; auto.
Qed.

Lemma only_sdk_call {B A} (P : Call -> bool) (op : B -> result A * B)
      (entry : bool -> Call) :
  (forall ok, P (entry ok) = true) -> only P (sdk_call op entry).
Proof.
  intros Hs w r w' E. apply RunFacts.sdk_call_run in E.
  exists [entry (is_ok r)]. split; [exact E|]. simpl. rewrite Hs.
  reflexivity.
Qed.

Section Spans.

Context {B : Type} (sdk : Sdk B).

Lemma only_span tr p : only is_span_call (span sdk tr p).
Proof. apply only_sdk_call. reflexivity. Qed.

Lemma provider_spans_only tr cm :
  only is_span_call (log_provider_specific_information_as_span sdk tr cm).
Proof.
  unfold log_provider_specific_information_as_span.
  destruct (is_none _); [apply only_ret|].
  apply only_bind; [apply only_lift|]. intros v.
  destruct (is_none v); [apply only_ret|].
  destruct v; try (apply only_bind; [apply only_span | intros; apply only_ret]).
  apply only_for_each. intros elem.
  destruct elem;
    try (apply only_bind; [apply only_span | intros; apply only_ret]).
  apply only_for_each. intros kv.
  apply only_bind; [apply only_span | intros; apply only_ret].
Qed.

Lemma guardrail_spans_only tr slo :
  only is_span_call (_log_guardrail_information_as_span sdk tr slo).
Proof.
  unfold _log_guardrail_information_as_span.
  destruct (is_none slo); [apply only_ret|].
  apply only_bind; [apply only_lift|]. intros g.
  destruct (is_none g); [apply only_ret|].
  apply only_bind; [apply only_lift|]. intros p.
  apply only_bind; [apply only_span|]. intros s.
  apply only_sdk_call. reflexivity.
Qed.

End Spans.

End OnlyFacts.

Module GenFacts.

Section Gen.

Context {B : Type} (sdk : Sdk B) (env : Env) (self : LangFuseLogger).

(** The part after the trace, with the capabilities it consults and
    what it answers. *)
Lemma generation_with_capabilities
      l kwargs clean_metadata optional_params input output start_time
      end_time cost response_obj level tr w r w' :
  log_generation sdk env self l kwargs clean_metadata optional_params
    input output start_time end_time cost response_obj level tr w
  = (r, w') ->
  exists new,
    calls w' = calls w ++ new
    /\ ((forallb side_call new = true /\ is_ok r = false)
        \/ exists side gp0 cm1 gid gp1 wp ws okg,
            new = side
                  ++ [Call_generation
                        (with_completion_start_time ws kwargs
                           (with_status_message output level gp1))
                        okg]
            /\ forallb side_call side = true
            /\ build_generation_params env self l kwargs clean_metadata
                 optional_params input output start_time end_time cost
                 response_obj level
               = Ok (gp0, cm1, gid)
            /\ _supports_prompt self = Ok wp
            /\ _supports_completion_start_time self = Ok ws
            /\ (wp = false ->
                gp1 = gp0 /\ forallb is_span_call side = true)
            /\ (forall k, k <> "prompt" ->
                          Dict.get k gp1 = Dict.get k gp0)
            /\ (if okg then exists t, r = Ok (t, gid)
                else is_ok r = false)).
Proof.
  intros E. unfold log_generation in E.
  unfold bind at 1 in E.
  destruct (log_provider_specific_information_as_span sdk tr clean_metadata w)
    as [r1 w1] eqn:E1.
  pose proof (OnlyFacts.provider_spans_only sdk _ _ _ _ _ E1)
    as (n1' & C1' & O1).
  apply RunFacts.side_provider in E1 as (n1 & C1 & S1 & F1).
  assert (n1' = n1)
    by (rewrite C1 in C1'; exact (app_inv_head _ _ _ (eq_sym C1'))).
  subst n1'. clear C1'.
  destruct r1 as [[]|e1].
  2:{ inversion E; subst. exists n1. split; [exact C1|]. left. auto. }
  unfold bind at 1 in E.
  destruct (_log_guardrail_information_as_span sdk tr
              (Locals.standard_logging_object l) w1) as [r2 w2] eqn:E2.
  pose proof (OnlyFacts.guardrail_spans_only sdk _ _ _ _ _ E2)
    as (n2' & C2' & O2).
  apply RunFacts.side_guardrail in E2 as (n2 & C2 & S2 & F2).
  assert (n2' = n2)
    by (rewrite C2 in C2'; exact (app_inv_head _ _ _ (eq_sym C2'))).
  subst n2'. clear C2'.
  assert (C12 : calls w2 = calls w ++ (n1 ++ n2))
    by (rewrite C2, C1, app_assoc; reflexivity).
  assert (S12 : forallb side_call (n1 ++ n2) = true)
    by (rewrite forallb_app, S1, S2; reflexivity).
  assert (O12 : forallb is_span_call (n1 ++ n2) = true)
    by (rewrite forallb_app, O1, O2; reflexivity).
  destruct r2 as [[]|e2].
  2:{ inversion E; subst. exists (n1 ++ n2). split; [exact C12|].
      left. auto. }
  clear C1 C2 S1 S2 F1 F2 O1 O2.
  unfold bind at 1 in E. unfold lift at 1 in E.
  destruct (build_generation_params env self l kwargs clean_metadata
              optional_params input output start_time end_time cost
              response_obj level) as [[[gp0 cm1] gid]|e] eqn:Hg.
  2:{ inversion E; subst. exists (n1 ++ n2). split; [exact C12|].
      left. auto. }
  unfold bind at 1 in E. unfold lift at 1 in E.
  destruct (_supports_prompt self) as [with_prompt|e] eqn:Hwp.
  2:{ inversion E; subst. exists (n1 ++ n2). split; [exact C12|].
      left. auto. }
  unfold bind at 1 in E.
  destruct ((if with_prompt
             then _add_prompt_to_generation_params sdk env gp0 cm1
                    (Locals.prompt_management_metadata l)
             else ret gp0) w2) as [r3 w3] eqn:E3.
  assert (H3 : exists n3,
             calls w3 = calls w2 ++ n3
             /\ forallb side_call n3 = true
             /\ (with_prompt = false -> n3 = [] /\ r3 = Ok gp0)
             /\ (forall gp1, r3 = Ok gp1 ->
                             forall k, k <> "prompt" ->
                                       Dict.get k gp1 = Dict.get k gp0)).
  { destruct with_prompt.
    - destruct (PromptFacts.prompt_run sdk env _ _ _ _ _ _ E3)
        as (n3 & C3 & S3 & _ & K3).
      exists n3. repeat split; auto; discriminate.
    - inversion E3; subst. exists []. rewrite app_nil_r.
      repeat split; auto. intros ? Hok. inversion Hok; subst. auto. }
  destruct H3 as (n3 & C3 & S3 & N3 & K3).
  assert (C123 : calls w3 = calls w ++ ((n1 ++ n2) ++ n3))
    by (rewrite C3, C12, !app_assoc; reflexivity).
  assert (S123 : forallb side_call ((n1 ++ n2) ++ n3) = true)
    by (rewrite forallb_app, S12, S3; reflexivity).
  clear E3 C3 C12 S3 S12.
  destruct r3 as [gp1|e3].
  2:{ inversion E; subst. exists ((n1 ++ n2) ++ n3). split; [exact C123|].
      left. auto. }
  unfold bind at 1 in E. unfold lift at 1 in E.
  destruct (_supports_completion_start_time self) as [ws|e] eqn:Hws.
  2:{ inversion E; subst. exists ((n1 ++ n2) ++ n3). split; [exact C123|].
      left. auto. }
  unfold bind at 1 in E. unfold generation in E.
  match type of E with
  | context [sdk_call ?op ?entry w3] =>
      destruct (sdk_call op entry w3) as [r4 w4] eqn:E4
  end.
  apply RunFacts.sdk_call_run in E4.
  exists (((n1 ++ n2) ++ n3)
          ++ [Call_generation
                (with_completion_start_time ws kwargs
                   (with_status_message output level gp1))
                (is_ok r4)]).
  assert (Ew : w' = w4) by (destruct r4; inversion E; subst; auto).
  subst w'.
  split; [rewrite E4, C123, !app_assoc; reflexivity|].
  right. exists ((n1 ++ n2) ++ n3), gp0, cm1, gid, gp1, with_prompt, ws,
           (is_ok r4).
  split; [reflexivity|]. split; [exact S123|]. split; [reflexivity|].
  split; [reflexivity|]. split; [reflexivity|].
  split.
  { intros Hoff. destruct (N3 Hoff) as [-> Hr3]. inversion Hr3; subst.
    split; [reflexivity|]. rewrite app_nil_r. exact O12. }
  split; [exact (K3 gp1 eq_refl)|].
  destruct r4 as [client|e4]; unfold ret in E; inversion E; subst;
    cbn [is_ok]; eauto.
Qed.

(** The same for the whole of [_log_langfuse_v2]. *)
Lemma v2_with_capabilities
      user_id metadata litellm_params output start_time end_time
      kwargs optional_params input response_obj level litellm_call_id
      w r w' :
  _log_langfuse_v2 sdk env self user_id metadata litellm_params output
    start_time end_time kwargs optional_params input response_obj level
    litellm_call_id w = (r, w') ->
  ((forall gp ok, ~ In (Call_generation gp ok) (new_calls w w'))
   /\ r = Ok (VNone, VNone))
  \/ exists l tp0 cm0 kw tp cm cost side gp0 cm1 gid gp1 wp ws okg,
      prepare env self metadata kwargs litellm_call_id = Ok l
      /\ build_trace_params env l kwargs input output level
         = Ok (tp0, cm0)
      /\ finish_trace_params env self l kwargs litellm_params tp0 cm0
         = Ok (kw, tp, cm, cost)
      /\ new_calls w w'
         = Call_trace tp true
             :: side
             ++ [Call_generation
                   (with_completion_start_time ws kw
                      (with_status_message output level gp1))
                   okg]
      /\ forallb side_call side = true
      /\ build_generation_params env self l kw cm optional_params input
           output start_time end_time cost response_obj level
         = Ok (gp0, cm1, gid)
      /\ _supports_prompt self = Ok wp
      /\ _supports_completion_start_time self = Ok ws
      /\ (wp = false -> gp1 = gp0 /\ forallb is_span_call side = true)
      /\ (forall k, k <> "prompt" -> Dict.get k gp1 = Dict.get k gp0)
      /\ (if okg then exists t, r = Ok (t, gid)
          else r = Ok (VNone, VNone)).
Proof.
  intros E. unfold _log_langfuse_v2, try_except in E.
  assert (Hnil : new_calls w w = [])
    by (apply RunFacts.new_calls_app; rewrite app_nil_r; reflexivity).
  unfold bind at 1 in E. unfold lift at 1 in E.
  destruct (prepare env self metadata kwargs litellm_call_id)
    as [l|e] eqn:Hp.
  2:{ inversion E; subst. left. rewrite Hnil. auto. }
  unfold bind at 1 in E. unfold lift at 1 in E.
  destruct (build_trace_params env l kwargs input output level)
    as [[tp0 cm0]|e] eqn:Hb.
  2:{ inversion E; subst. left. rewrite Hnil. auto. }
  unfold bind at 1 in E. unfold lift at 1 in E.
  destruct (finish_trace_params env self l kwargs litellm_params tp0 cm0)
    as [[[[kw tp] cm] cost]|e] eqn:Hf.
  2:{ inversion E; subst. left. rewrite Hnil. auto. }
  unfold bind at 1 in E. unfold trace in E.
  destruct (sdk_call (sdk_trace sdk tp) (Call_trace tp) w)
    as [r1 w1] eqn:E1.
  apply RunFacts.sdk_call_run in E1.
  destruct r1 as [tr|e1].
  2:{ inversion E; subst. left.
      rewrite (RunFacts.new_calls_app _ _ _ E1). split; [|reflexivity].
      intros gp ok [Hin|[]]. discriminate Hin. }
  destruct (log_generation sdk env self l kw cm optional_params input
              output start_time end_time cost response_obj level tr w1)
    as [r2 w2] eqn:E2.
  apply generation_with_capabilities in E2 as (n2 & C2 & G2).
  assert (Ew : w' = w2) by (destruct r2; inversion E; auto).
  subst w'.
  assert (C : new_calls w w2 = Call_trace tp true :: n2).
  { apply RunFacts.new_calls_app. rewrite C2, E1, <- app_assoc.
    reflexivity. }
  destruct G2 as [[S2 Hr2]
                 |(side & gp0 & cm1 & gid & gp1 & wp & ws & okg & -> & S
                   & Hg & Hwp & Hws & Hoff & Hk & Hr2)].
  - left. split.
    + intros gp ok Hin. rewrite C in Hin.
      destruct Hin as [Hin|Hin]; [discriminate Hin|].
      exact (Submitted.side_not_generation _ _ _ S2 Hin).
    + destruct r2; [discriminate Hr2|]. inversion E; reflexivity.
  - right. exists l, tp0, cm0, kw, tp, cm, cost, side, gp0, cm1, gid, gp1,
             wp, ws, okg.
    repeat (split; [assumption || reflexivity|]).
    destruct okg.
    + destruct Hr2 as (t & ->). inversion E; subst. eauto.
    + destruct r2; [discriminate Hr2|]. inversion E; reflexivity.
Qed.

End Gen.

End GenFacts.

Module GenFields.

Lemma finish_kwargs env self l kwargs lp tp0 cm0 kw tp cm cost :
  finish_trace_params env self l kwargs lp tp0 cm0 = Ok (kw, tp, cm, cost) ->
  cost = Dict.get_default "response_cost" VNone kwargs
  /\ forall k, k <> "cache_hit" -> Dict.get k kw = Dict.get k kwargs.
Proof.
  unfold finish_trace_params. intros E.
  destruct (if negb (is_none (Locals.standard_logging_object l))
            then _ else _) as [cm1|]; [|discriminate E].
  cbn [rbind] in E.
  destruct (if in_default_tags env "proxy_base_url" && _ then _ else _)
    as [tags|]; [|discriminate E].
  cbn [rbind] in E.
  destruct (Py.get lp "api_base" VNone) as [api_base|]; [|discriminate E].
  cbn [rbind] in E.
  destruct (_supports_tags self) as [with_tags|]; [|discriminate E].
  cbn [rbind] in E.
  destruct (walk_proxy_server_request lp); [|discriminate E].
  cbn [rbind] in E. inversion E; subst; clear E.
  split; [reflexivity|]. intros k Hk.
  destruct with_tags; [|reflexivity].
  destruct (Dict.get "cache_hit" kwargs) as [[| | | | | | |]|];
    try reflexivity.
  apply DictFacts.get_set_neq. congruence.
Qed.

Lemma built env self l kwargs cm optional_params input output
      start_time end_time cost response_obj level gp0 cm1 gid :
  build_generation_params env self l kwargs cm optional_params input output
    start_time end_time cost response_obj level = Ok (gp0, cm1, gid) ->
  gid = (if negb (is_none (id (attrs_of response_obj)))
         then get_logging_id env start_time response_obj else VNone)
  /\ Dict.get "prompt" gp0 = None
  /\ Dict.get "completion_start_time" gp0 = None
  /\ exists usage,
      usage_of self response_obj cost = Ok usage
      /\ Dict.get "usage" gp0 = Some usage.
Proof.
  unfold build_generation_params, Dict.pop. intros E.
  destruct (usage_of self response_obj cost) as [usage|];
    [|discriminate E].
  cbn [rbind] in E.
  destruct (if is_none (Dict.get_default "generation_name" VNone cm)
            then _ else _) as [generation_name|]; [|discriminate E].
  cbn [rbind] in E.
  destruct (Py.item (VDict kwargs) "model") as [model|]; [|discriminate E].
  cbn [rbind] in E.
  destruct (log_requester_metadata _) as [m|]; [|discriminate E].
  cbn [rbind] in E.
  destruct (Py.get (Locals.metadata l) "parent_observation_id" VNone)
    as [parent|]; [|discriminate E].
  cbn [rbind] in E. inversion E; subst; clear E.
  split; [reflexivity|].
  destruct (negb (is_none parent));
    repeat split; BuildFacts.other_key; try reflexivity;
    exists usage; split; try reflexivity;
    BuildFacts.other_key; reflexivity.
Qed.

Lemma status_other output level gp x :
  x <> "status_message" ->
  Dict.get x (with_status_message output level gp) = Dict.get x gp.
Proof.
  intros H. unfold with_status_message.
  destruct (_ && _); [|reflexivity].
  apply DictFacts.get_set_neq. congruence.
Qed.

Lemma completion_start_time ws kw gp :
  Dict.get "completion_start_time" gp = None ->
  Dict.get "completion_start_time" (with_completion_start_time ws kw gp)
  = if ws then Some (Dict.get_default "completion_start_time" VNone kw)
    else None.
Proof.
  intros H. unfold with_completion_start_time. destruct ws; [|exact H].
  apply DictFacts.get_set_eq.
Qed.

(** The only generation among the calls of a run is its last call. *)
Lemma the_generation tp side gp okg gp' ok' :
  forallb side_call side = true ->
  In (Call_generation gp' ok')
     (Call_trace tp true :: side ++ [Call_generation gp okg]) ->
  gp' = gp /\ ok' = okg.
Proof.
  intros S [Hin|Hin]; [discriminate Hin|].
  apply in_app_or in Hin as [Hin|[Hin|[]]].
  - destruct (Submitted.side_not_generation _ _ _ S Hin).
  - inversion Hin; auto.
Qed.

End GenFields.

(** X15. The generation id that [_log_langfuse_v2] returns is derived
    from the response and the start time ([get_logging_id], or None for
    a response without id), also when the metadata named another
    [generation_id] for the generation: it is returned exactly when the
    generation was created, and otherwise both identifiers are None. *)
Theorem returned_generation_id_is_the_logging_id
        {B : Type} (sdk : Sdk B) (env : Env) (self : LangFuseLogger)
        (user_id metadata litellm_params output start_time end_time : value)
        (kwargs optional_params : dict) (input : value)
        (response_obj : Response) (level : string) (litellm_call_id : value)
        (w w' : World B) (r : result (value * value)) :
  _log_langfuse_v2 sdk env self user_id metadata litellm_params output
    start_time end_time kwargs optional_params input response_obj level
    litellm_call_id w = (r, w') ->
  (forall gp,
      In (Call_generation gp true) (new_calls w w') ->
      exists trace_id,
        r = Ok (trace_id,
                if negb (is_none (id (attrs_of response_obj)))
                then get_logging_id env start_time response_obj
                else VNone))
  /\ ((forall gp, ~ In (Call_generation gp true) (new_calls w w')) ->
      r = Ok (VNone, VNone)).
Proof.
  intros Run.
  destruct (GenFacts.v2_with_capabilities
              _ _ _ _ _ _ _ _ _ _ _ _ _ _ _ _ _ _ Run)
    as [[Hno Hr]
       |(l & tp0 & cm0 & kw & tp & cm & cost & side & gp0 & cm1 & gid & gp1
         & wp & ws & okg & _ & _ & _ & Hc & S & Hg & _ & _ & _ & _ & Hr)].
  - split; [|auto]. intros gp Hin. destruct (Hno _ _ Hin).
  - destruct (GenFields.built _ _ _ _ _ _ _ _ _ _ _ _ _ _ _ _ Hg)
      as (Hgid & _).
    split.
    + intros gp Hin. rewrite Hc in Hin.
      destruct (GenFields.the_generation _ _ _ _ _ _ S Hin) as [_ <-].
      destruct Hr as (t & ->). exists t. rewrite Hgid. reflexivity.
    + intros Hno. destruct okg; [|exact Hr].
      exfalso. eapply Hno. rewrite Hc. right. apply in_or_app. right.
      left. reflexivity.
Qed.

Lemma returned_generation_id_is_the_logging_id_witness :
  let md := [("generation_id", VStr "mine")] in
  let run := Demo.v2 [] md (VStr "in") (VStr "out") "DEFAULT" in
  exists gp trace_id,
    In (Call_generation gp true) (new_calls (Demo.world []) (snd run))
    /\ Dict.get "id" gp = Some (VStr "mine")
    /\ fst run
       = Ok (trace_id,
             Demo.logging_id (VStr "t0") Demo.chat_response).
Proof.
  intros md run.
  assert (Hin : In (Call_generation
                      (hd [] (Demo.generations (calls (snd run)))) true)
                   (new_calls (Demo.world []) (snd run)))
    by (vm_compute; right; left; reflexivity).
  destruct (proj1 (returned_generation_id_is_the_logging_id
                     Demo.sdk (Demo.env_at "2.7.3") (Demo.self_at "2.7.3")
                     VNone (VDict md) (VDict []) (VStr "out") (VStr "t0")
                     (VStr "t1") (Demo.record "completion" md) []
                     (VStr "in") Demo.chat_response "DEFAULT"
                     (VStr "call-1") (Demo.world []) (snd run) (fst run)
                     (surjective_pairing run)) _ Hin) as (t & Hr).
  exists (hd [] (Demo.generations (calls (snd run)))), t.
  split; [exact Hin|]. split; [vm_compute; reflexivity | exact Hr].
Defined.

(** X16. What a submitted generation holds follows the capabilities of
    the SDK: [completion_start_time] is passed, with the value of the
    call record, exactly when the SDK supports it; without support
    for prompts the generation has no [prompt] field and no prompt is
    fetched from Langfuse during the call; and [usage] is None for a
    response without usage and otherwise holds as [total_cost] the
    [response_cost] of the call record when costs are supported, and
    None when they are not. *)
Theorem generation_follows_the_capabilities
        {B : Type} (sdk : Sdk B) (env : Env) (self : LangFuseLogger)
        (user_id metadata litellm_params output start_time end_time : value)
        (kwargs optional_params : dict) (input : value)
        (response_obj : Response) (level : string) (litellm_call_id : value)
        (w w' : World B) (r : result (value * value)) :
  _log_langfuse_v2 sdk env self user_id metadata litellm_params output
    start_time end_time kwargs optional_params input response_obj level
    litellm_call_id w = (r, w') ->
  forall gp ok,
    In (Call_generation gp ok) (new_calls w w') ->
    exists with_prompt with_start,
      _supports_prompt self = Ok with_prompt
      /\ _supports_completion_start_time self = Ok with_start
      /\ Dict.get "completion_start_time" gp
         = (if with_start
            then Some (Dict.get_default "completion_start_time" VNone
                                        kwargs)
            else None)
      /\ (with_prompt = false ->
          Dict.get "prompt" gp = None
          /\ existsb is_get_prompt (new_calls w w') = false)
      /\ match usage (attrs_of response_obj) with
         | None => Dict.get "usage" gp = Some VNone
         | Some _ =>
             exists with_costs u,
               _supports_costs self = Ok with_costs
               /\ Dict.get "usage" gp = Some (VDict u)
               /\ Dict.get "total_cost" u
                  = Some (if with_costs
                          then Dict.get_default "response_cost" VNone
                                                kwargs
                          else VNone)
         end.
Proof.
  intros Run gp ok Hin.
  destruct (GenFacts.v2_with_capabilities
              _ _ _ _ _ _ _ _ _ _ _ _ _ _ _ _ _ _ Run)
    as [[Hno _]
       |(l & tp0 & cm0 & kw & tp & cm & cost & side & gp0 & cm1 & gid & gp1
         & wp & ws & okg & _ & _ & Hf & Hc & S & Hg & Hwp & Hws & Hoff & Hk
         & _)]; [destruct (Hno _ _ Hin)|].
  rewrite Hc in Hin |- *.
  destruct (GenFields.the_generation _ _ _ _ _ _ S Hin) as [-> ->].
  clear Hin.
  destruct (GenFields.finish_kwargs _ _ _ _ _ _ _ _ _ _ _ Hf)
    as [Hcost Hkw].
  destruct (GenFields.built _ _ _ _ _ _ _ _ _ _ _ _ _ _ _ _ Hg)
    as (_ & Hnp & Hnc & used & Hu & Hgu).
  exists wp, ws. split; [exact Hwp|]. split; [exact Hws|].
  split; [|split].
  - rewrite GenFields.completion_start_time.
    + unfold Dict.get_default. rewrite Hkw by discriminate. reflexivity.
    + rewrite GenFields.status_other by discriminate.
      rewrite Hk by discriminate. exact Hnc.
  - intros Hoff'. destruct (Hoff Hoff') as [-> Hspans]. split.
    + rewrite BuildFacts.final_generation_other by discriminate.
      exact Hnp.
    + assert (Hside : existsb is_get_prompt side = false).
      { clear - Hspans. induction side as [|c side IH]; [reflexivity|].
        cbn [forallb] in Hspans.
        apply andb_true_iff in Hspans as [Hc Hs].
        cbn [existsb]. rewrite (IH Hs).
        destruct c; try discriminate Hc; reflexivity. }
      cbn [existsb is_get_prompt]. rewrite existsb_app, Hside.
      reflexivity.
  - assert (Hfinal : Dict.get "usage"
                       (with_completion_start_time ws kw
                          (with_status_message output level gp1))
                     = Some used).
    { rewrite BuildFacts.final_generation_other by discriminate.
      rewrite Hk by discriminate. exact Hgu. }
    rewrite Hfinal. unfold usage_of in Hu.
    destruct (usage (attrs_of response_obj)) as [u|].
    + destruct (_supports_costs self) as [wc|]; [|discriminate Hu].
      cbn [rbind] in Hu. inversion Hu; subst used.
      eexists wc, _. split; [reflexivity|]. split; [reflexivity|].
      subst cost. reflexivity.
    + inversion Hu; reflexivity.
Qed.

Lemma generation_follows_the_capabilities_witness :
  let run :=
    _log_langfuse_v2 Demo.sdk (Demo.env_at "2.6.3") (Demo.self_at "2.6.3")
      VNone (VDict []) (VDict []) (VStr "out") (VStr "t0") (VStr "t1")
      (("response_cost", VInt 7)
         :: ("completion_start_time", VStr "t0")
         :: Demo.record "completion" [])
      [] (VStr "in") DemoUsage.response "DEFAULT" (VStr "call-1")
      (Demo.world []) in
  exists gp u,
    In (Call_generation gp true) (new_calls (Demo.world []) (snd run))
    /\ Dict.get "completion_start_time" gp = None
    /\ Dict.get "prompt" gp = None
    /\ Dict.get "usage" gp = Some (VDict u)
    /\ Dict.get "total_cost" u = Some VNone.
Proof.
  intros run.
  assert (Hin : In (Call_generation
                      (hd [] (Demo.generations (calls (snd run)))) true)
                   (new_calls (Demo.world []) (snd run)))
    by (vm_compute; right; left; reflexivity).
  destruct (generation_follows_the_capabilities
              Demo.sdk (Demo.env_at "2.6.3") (Demo.self_at "2.6.3")
              VNone (VDict []) (VDict []) (VStr "out") (VStr "t0")
              (VStr "t1")
              (("response_cost", VInt 7)
                 :: ("completion_start_time", VStr "t0")
                 :: Demo.record "completion" [])
              [] (VStr "in") DemoUsage.response "DEFAULT" (VStr "call-1")
              (Demo.world []) (snd run) (fst run)
              (surjective_pairing run) _ _ Hin)
    as (wp & ws & Hwp & Hws & Hcst & Hprompt & Husage).
  assert (Ewp : wp = false) by (vm_compute in Hwp; congruence).
  assert (Ews : ws = false) by (vm_compute in Hws; congruence).
  subst wp ws.
  cbn [DemoUsage.response attrs_of usage] in Husage.
  destruct Husage as (wc & u & Hwc & Hu & Hcost).
  assert (Ewc : wc = false) by (vm_compute in Hwc; congruence).
  subst wc.
  exists (hd [] (Demo.generations (calls (snd run)))), u.
  split; [exact Hin|]. split; [exact Hcst|].
  split; [exact (proj1 (Hprompt eq_refl))|].
  split; [exact Hu | exact Hcost].
Defined.

(** ** The prompt of a generation *)

(** X17. For a prompt that is not given as a dict, with prompt
    management metadata that names Langfuse as the integration, the
    prompt is fetched from Langfuse with one call for the [prompt_id];
    the function returns in every case: with the fetched prompt as
    [prompt] when the call succeeds, and with the generation parameters
    unchanged when it fails or when there is no [prompt_id]. *)
Theorem failed_prompt_fetch_is_swallowed
        {B : Type} (sdk : Sdk B) (env : Env)
        (generation_params clean_metadata pmm : dict)
        (w w' : World B) (r : result dict) :
  (forall up, Dict.get_default "prompt" VNone clean_metadata <> VDict up) ->
  Dict.get "prompt_integration" pmm = Some (VStr "langfuse") ->
  _add_prompt_to_generation_params sdk env generation_params clean_metadata
    (VDict pmm) w = (r, w') ->
  match Dict.get "prompt_id" pmm with
  | None => r = Ok generation_params /\ new_calls w w' = []
  | Some prompt_id =>
      new_calls w w'
      = [Call_get_prompt
           prompt_id (is_ok (fst (sdk_get_prompt sdk prompt_id (backend w))))]
      /\ r = Ok match fst (sdk_get_prompt sdk prompt_id (backend w)) with
                | Ok p => Dict.set "prompt" p generation_params
                | Raise _ => generation_params
                end
  end.
Proof.
  intros Hnd Hint Run.
  unfold _add_prompt_to_generation_params, Dict.pop in Run.
  assert (Hbody :
            (integration <-
               lift (Py.item (VDict pmm) "prompt_integration") ;;
             if eq_str integration "langfuse"
             then
               try_except
                 (prompt_id <- lift (Py.item (VDict pmm) "prompt_id") ;;
                  p <- get_prompt sdk prompt_id ;;
                  ret (Dict.set "prompt" p generation_params))
                 (fun _ => ret generation_params)
             else ret (Dict.set "prompt"
                         (Dict.get_default "prompt" VNone clean_metadata)
                         generation_params)) w = (r, w')).
  { destruct (Dict.get_default "prompt" VNone clean_metadata) as
        [| | | | | |up|] eqn:Hup;
      try exact Run; cbn [is_none andb] in Run; try exact Run.
    destruct (Hnd up eq_refl). }
  clear Run. unfold bind at 1 in Hbody. unfold lift at 1 in Hbody.
  unfold Py.item at 1 in Hbody. rewrite Hint in Hbody.
  cbn [eq_str String.eqb Ascii.eqb Bool.eqb] in Hbody.
  unfold try_except, bind, lift, get_prompt, Py.item in Hbody.
  destruct (Dict.get "prompt_id" pmm) as [prompt_id|].
  - unfold sdk_call in Hbody.
    destruct (sdk_get_prompt sdk prompt_id (backend w)) as [[p|e] b];
      unfold ret in Hbody; cbn [is_ok] in Hbody; inversion Hbody; subst;
      cbn [fst is_ok]; (split; [|reflexivity]);
      apply RunFacts.new_calls_app; reflexivity.
  - unfold ret in Hbody. inversion Hbody; subst. split; [reflexivity|].
    apply RunFacts.new_calls_app. rewrite app_nil_r. reflexivity.
Qed.

Lemma failed_prompt_fetch_is_swallowed_witness :
  let gp := [("name", VStr "g")] in
  let pmm := [("prompt_integration", VStr "langfuse");
              ("prompt_id", VStr "p1")] in
  let run :=
    _add_prompt_to_generation_params Demo.sdk (Demo.env_at "2.7.3")
      gp [] (VDict pmm) (Demo.world [false]) in
  fst run = Ok gp
  /\ new_calls (Demo.world [false]) (snd run)
     = [Call_get_prompt (VStr "p1") false].
Proof.
  intros gp pmm run.
  destruct (failed_prompt_fetch_is_swallowed
              Demo.sdk (Demo.env_at "2.7.3") gp [] pmm
              (Demo.world [false]) (snd run) (fst run)
              (fun up H => ltac:(discriminate H)) eq_refl
              (surjective_pairing run)) as [Hc Hr].
  split; [exact Hr | exact Hc].
Defined.

(** ** The model parameters of a generation *)

Module ParamFacts.

Lemma get_map (f : value -> value) k d :
  Dict.get k (map (fun kv : string * value => (fst kv, f (snd kv))) d)
  = option_map f (Dict.get k d).
Proof.
  induction d as [|[k0 v0] d IH]; simpl; [reflexivity|].
  destruct (String.eqb k k0); [reflexivity | exact IH].
Qed.

Lemma stringify_primitive env v :
  is_ok (str env v) = true -> primitive (stringify env v) = true.
Proof.
  unfold stringify. intros H.
  destruct v; try reflexivity; destruct (str env _); try reflexivity;
    discriminate H.
Qed.

Lemma model_parameters env self l kwargs cm optional_params input output
      start_time end_time cost response_obj level gp0 cm1 gid :
  build_generation_params env self l kwargs cm optional_params input output
    start_time end_time cost response_obj level = Ok (gp0, cm1, gid) ->
  exists mp,
    Dict.get "model_parameters" gp0 = Some (VDict mp)
    /\ forall k, k <> "system_fingerprint" ->
                 Dict.get k mp = Dict.get k optional_params.
Proof.
  unfold build_generation_params, Dict.pop. intros E.
  destruct (usage_of self response_obj cost) as [used|];
    [|discriminate E].
  cbn [rbind] in E.
  destruct (if is_none (Dict.get_default "generation_name" VNone cm)
            then _ else _) as [generation_name|]; [|discriminate E].
  cbn [rbind] in E.
  destruct (Py.item (VDict kwargs) "model") as [model|]; [|discriminate E].
  cbn [rbind] in E.
  destruct (log_requester_metadata _) as [m|]; [|discriminate E].
  cbn [rbind] in E.
  destruct (Py.get (Locals.metadata l) "parent_observation_id" VNone)
    as [parent|]; [|discriminate E].
  cbn [rbind] in E. inversion E; subst; clear E.
  eexists. split.
  - destruct (negb (is_none parent)); BuildFacts.other_key; reflexivity.
  - intros k Hk.
    destruct (negb (is_none (system_fingerprint (attrs_of response_obj))));
      [|reflexivity].
    apply DictFacts.get_set_neq. congruence.
Qed.

(** With an SDK from 2.0.0 on, what [log_event_on_langfuse] submits is
    what [_log_langfuse_v2] submits for the optional parameters without
    [functions] and [tools], each value passed through [stringify]. *)
Lemma entry_runs_v2 {B} (sdk : Sdk B) env self kwargs response_obj
      start_time end_time user_id level status_message w r w' :
  _is_langfuse_v2 env = Ok true ->
  log_event_on_langfuse sdk env self kwargs response_obj start_time end_time
    user_id level status_message w = (r, w') ->
  new_calls w w' = []
  \/ exists metadata optional_params input output r2,
      Py.as_dict (Dict.get_default "optional_params" (VDict []) kwargs)
      = Ok optional_params
      /\ _log_langfuse_v2 sdk env self user_id metadata
           (Dict.get_default "litellm_params" (VDict []) kwargs) output
           start_time end_time kwargs
           (map (fun kv : string * value =>
                   (fst kv, stringify env (snd kv)))
                (Dict.remove "tools"
                   (Dict.remove "functions" optional_params)))
           input response_obj level
           (Dict.get_default "litellm_call_id" VNone kwargs) w
         = (r2, w').
Proof.
  intros Hv2 Run.
  assert (Hnil : forall v : World B, new_calls v v = []).
  { intros v. apply RunFacts.new_calls_app. rewrite app_nil_r. reflexivity. }
  unfold log_event_on_langfuse, try_except, bind, lift, ret in Run.
  rewrite Hv2 in Run.
  destruct (Py.get _ "metadata" (VDict [])) as [md|e];
    [|inversion Run; subst; rewrite Hnil; auto].
  destruct (add_metadata_from_header _ _) as [metadata|e];
    [|inversion Run; subst; rewrite Hnil; auto].
  destruct (Py.as_dict _) as [optional_params|e] eqn:Hop;
    [|inversion Run; subst; rewrite Hnil; auto].
  unfold Dict.pop in Run.
  destruct (_get_langfuse_input_output_content _ _ _ _ _)
    as [input output].
  match type of Run with
  | context [_log_langfuse_v2 ?s ?e ?sf ?u ?m ?lp ?o ?st ?et ?k ?op ?i ?ro
                              ?lv ?cid w] =>
      destruct (_log_langfuse_v2 s e sf u m lp o st et k op i ro lv cid w)
        as [r2 w2] eqn:V2
  end.
  right. exists metadata, optional_params, input, output, r2.
  split; [reflexivity|].
  assert (w' = w2) by (destruct r2 as [[t g]|e]; inversion Run; reflexivity).
  subst w2. exact V2.
Qed.

End ParamFacts.

(** X18. With an SDK from 2.0.0 on, the model parameters of every
    generation that [log_event_on_langfuse] submits are the optional
    parameters of the call record without [functions] and [tools],
    each value replaced by [stringify] of it, and possibly with a
    [system_fingerprint] added; so when [str] does not fail, every
    model parameter other than [system_fingerprint] is a str, int,
    bool or float. *)
Theorem model_parameters_are_stringified
        {B : Type} (sdk : Sdk B) (env : Env) (self : LangFuseLogger)
        (kwargs optional_params : dict) (response_obj : Response)
        (start_time end_time user_id : value) (level : string)
        (status_message : value) (w w' : World B) (r : result dict) :
  _is_langfuse_v2 env = Ok true ->
  Dict.get_default "optional_params" (VDict []) kwargs
  = VDict optional_params ->
  log_event_on_langfuse sdk env self kwargs response_obj start_time end_time
    user_id level status_message w = (r, w') ->
  forall gp ok,
    In (Call_generation gp ok) (new_calls w w') ->
    exists mp,
      Dict.get "model_parameters" gp = Some (VDict mp)
      /\ Dict.get "functions" mp = None
      /\ Dict.get "tools" mp = None
      /\ (forall k,
             k <> "system_fingerprint" -> k <> "functions" ->
             k <> "tools" ->
             Dict.get k mp
             = option_map (stringify env) (Dict.get k optional_params))
      /\ ((forall v, is_ok (str env v) = true) ->
          forall k v,
            k <> "system_fingerprint" ->
            Dict.get k mp = Some v -> primitive v = true).
Proof.
  intros Hv2 Hop Run gp ok Hin.
  destruct (ParamFacts.entry_runs_v2 _ _ _ _ _ _ _ _ _ _ _ _ _ Hv2 Run)
    as [Hnil|(metadata & op & input & output & r2 & Hop' & V2)].
  { rewrite Hnil in Hin. destruct Hin. }
  rewrite Hop in Hop'. inversion Hop'; subst op. clear Hop'.
  destruct (Submitted.generation _ _ _ _ _ _ _ _ _ _ _ _ _ _ _ _ _ _
              V2 gp ok Hin)
    as (l & tp0 & cm0 & kw & tp & cm & cost & gp0 & cm1 & gid & gp1 & ws
        & _ & _ & _ & Hg & Hk & ->).
  destruct (ParamFacts.model_parameters _ _ _ _ _ _ _ _ _ _ _ _ _ _ _ _ Hg)
    as (mp & Hmp & Hsame).
  assert (Hget : forall k,
             k <> "system_fingerprint" ->
             Dict.get k mp
             = option_map (stringify env)
                 (Dict.get k (Dict.remove "tools"
                                (Dict.remove "functions"
                                   optional_params)))).
  { intros k Hk'. rewrite (Hsame k Hk'). apply ParamFacts.get_map. }
  exists mp. split; [|split; [|split; [|split]]].
  - rewrite BuildFacts.final_generation_other by discriminate.
    rewrite Hk by discriminate. exact Hmp.
  - rewrite Hget by discriminate.
    rewrite DictFacts.get_remove_neq by discriminate.
    rewrite DictFacts.get_remove_eq. reflexivity.
  - rewrite Hget by discriminate.
    rewrite DictFacts.get_remove_eq. reflexivity.
  - intros k H1 H2 H3. rewrite (Hget k H1).
    rewrite !DictFacts.get_remove_neq by congruence. reflexivity.
  - intros Hstr k v H1 Hv. rewrite (Hget k H1) in Hv.
    destruct (Dict.get k _) as [x|]; [|discriminate Hv].
    inversion Hv; subst. apply ParamFacts.stringify_primitive, Hstr.
Qed.

Lemma model_parameters_are_stringified_witness :
  let optional_params :=
    [("tools", VList [VDict [("type", VStr "function")]]);
     ("n", VInt 2)] in
  let kwargs :=
    ("optional_params", VDict optional_params)
      :: Demo.record "completion" [] in
  let run := Demo.log [] kwargs Demo.chat_response "DEFAULT" VNone in
  exists gp mp,
    In (Call_generation gp true) (new_calls (Demo.world []) (snd run))
    /\ Dict.get "model_parameters" gp = Some (VDict mp)
    /\ Dict.get "tools" mp = None
    /\ Dict.get "n" mp = Some (VInt 2).
Proof.
  intros optional_params kwargs run.
  assert (Hin : In (Call_generation
                      (hd [] (Demo.generations (calls (snd run)))) true)
                   (new_calls (Demo.world []) (snd run)))
    by (vm_compute; right; left; reflexivity).
  destruct (model_parameters_are_stringified
              Demo.sdk (Demo.env_at "2.7.3") (Demo.self_at "2.7.3")
              kwargs optional_params Demo.chat_response
              (VStr "t0") (VStr "t1") VNone "DEFAULT" VNone
              (Demo.world []) (snd run) (fst run)
              eq_refl eq_refl (surjective_pairing run) _ _ Hin)
    as (mp & Hmp & _ & Htools & Hget & _).
  exists (hd [] (Demo.generations (calls (snd run)))), mp.
  split; [exact Hin|]. split; [exact Hmp|]. split; [exact Htools|].
  rewrite Hget by discriminate. reflexivity.
Defined.
